(** * Construction Hub data analytics: validator, transformer and ETL jobs

    A shallow embedding of

    - [src/utils/data_validator.py]   (class [DataValidator]),
    - [src/utils/data_transformer.py] (class [DataTransformer]),
    - [src/services/etl_service.py]   (class [ETLService]),

    followed by the properties the specification states about them.

    Conventions.  A Python value that can come out of [response.json()] is a
    [value]; a dict is a [gmap string value].  Python floats are IEEE-754
    binary64 and are modelled by Rocq's primitive floats, which are the same
    format.  A Python exception is a result [Raise e]; [try]/[except] is a
    [match] on the result.  Strings are byte strings, the UTF-8 text of the
    Python string.  Python looks at characters in two places: [str.lower]
    before a comparison with an ASCII word is modelled on ASCII, and the
    classes [\d] and [\s] of [strptime] take what they say about a character
    that is not ASCII from the tables of the interpreter. *)

From Stdlib Require Import ZArith Ascii String Floats.PrimFloat Floats.SpecFloat Floats.FloatOps.
From stdpp Require Import gmap strings list fin_maps pretty sorting.

Set Warnings "-inexact-float,-register-all".

(** ** Python values and exceptions *)

Module Py.

Inductive value : Type :=
| VNone
| VBool (b : bool)
| VInt (z : Z)
| VFloat (f : float)
| VStr (s : string)
| VList (l : list value)
| VDict (d : gmap string value).

(** The exception classes the three modules can meet.  All of them derive from
    [Exception]; [RequestException] is the base class of what the HTTP client
    raises. *)
Inductive exn : Type :=
| TypeError
| ValueError
| KeyError
| AttributeError
| OverflowError
| RuntimeError
| RequestException.

Inductive res (A : Type) : Type :=
| Ok (a : A)
| Raise (e : exn).
Arguments Ok {A} a.
Arguments Raise {A} e.

#[global] Instance res_ret : MRet res := λ A a, Ok a.
#[global] Instance res_bind : MBind res := λ A B f m,
  match m with
  | Ok a => f a
  | Raise e => Raise e
  end.

(** [except (E1, E2): handler] *)
Definition catch {A} (m : res A) (caught : exn → bool) (handler : exn → res A) : res A :=
  match m with
  | Ok a => Ok a
  | Raise e => if caught e then handler e else Raise e
  end.

Definition is_value_or_type_error (e : exn) : bool :=
  match e with
  | ValueError | TypeError => true
  | _ => false
  end.

Definition is_value_error (e : exn) : bool :=
  match e with
  | ValueError => true
  | _ => false
  end.

Definition is_request_exception (e : exn) : bool :=
  match e with
  | RequestException => true
  | _ => false
  end.

(** A [for] loop whose body may raise: the first exception leaves the loop. *)
Fixpoint for_each {A S} (body : S → A → res S) (l : list A) (s : S) : res S :=
  match l with
  | [] => Ok s
  | x :: l' => s' ← body s x; for_each body l' s'
  end.

(** What the interpreter and its libraries provide and the repository does not
    define.  Nothing is assumed about these functions. *)
Class Runtime := {
  (** [float(s)] on a string; [None] is [ValueError] *)
  float_of_str : string → option float;
  (** [str(v)] for a float, a list or a dict *)
  repr : value → string;
  (** [str(e)] for a caught exception *)
  exn_str : exn → string;
  (** the builtin [hash] on strings (salted per process) *)
  hash : string → Z;
  (** [json.dumps(v, sort_keys=True, default=str)]; [None] when it raises *)
  json_dumps_sorted : value → option string;
  (** [json.loads(s)]; [None] when it raises *)
  json_loads : string → option value;
  (** [datetime.isoformat()] of an instant *)
  isoformat : Z → string;
  (** [round(x, 2)] *)
  round2 : float → float;
  (** the Unicode tables, asked about a string whose first byte is not ASCII:
      the value of the decimal digit (category Nd) the string starts with and
      what follows that character; [None] when it starts with another
      character *)
  unicode_decimal : string → option (Z * string);
  (** what follows the white-space character ([str.isspace]) such a string
      starts with *)
  unicode_space : string → option string
}.

(** A dict literal of the source whose keys are strings, in the order it is
    written; [lookup_table table key] is [table[key]] when [key in table]. *)
Fixpoint lookup_table {A} (table : list (string * A)) (key : string) : option A :=
  match table with
  | [] => None
  | (k, a) :: table' => if String.eqb k key then Some a else lookup_table table' key
  end.

(** *** Strings *)

Definition lower_ascii (a : ascii) : ascii :=
  let n := nat_of_ascii a in
  if (65 <=? n)%nat && (n <=? 90)%nat then ascii_of_nat (n + 32) else a.

Fixpoint lower (s : string) : string :=
  match s with
  | EmptyString => EmptyString
  | String a s' => String (lower_ascii a) (lower s')
  end.

Fixpoint strip_prefix (p s : string) : option string :=
  match p, s with
  | EmptyString, _ => Some s
  | String a p', String b s' => if Ascii.eqb a b then strip_prefix p' s' else None
  | String _ _, EmptyString => None
  end.

(** [p in s] for two strings *)
Fixpoint is_substring (p s : string) : bool :=
  match strip_prefix p s with
  | Some _ => true
  | None =>
      match s with
      | EmptyString => false
      | String _ s' => is_substring p s'
      end
  end.

(** *** Numbers *)

(** [float(n)] on an [int]: the nearest binary64 value, ties to even;
    [OverflowError] when the integer is too large. *)
Definition float_of_Z (z : Z) : float :=
  SF2Prim (binary_normalize 53 1024 z 0 false).

Definition float_of_int (z : Z) : res float :=
  let f := float_of_Z z in
  if is_infinity f then Raise OverflowError else Ok f.

Section WithRuntime.
Context `{Runtime}.

(** [float(v)] *)
Definition py_float (v : value) : res float :=
  match v with
  | VBool b => Ok (if b then 1%float else 0%float)
  | VInt z => float_of_int z
  | VFloat f => Ok f
  | VStr s =>
      match float_of_str s with
      | Some f => Ok f
      | None => Raise ValueError
      end
  | VNone | VList _ | VDict _ => Raise TypeError
  end.

(** [str(v)] *)
Definition py_str (v : value) : string :=
  match v with
  | VNone => "None"
  | VBool true => "True"
  | VBool false => "False"
  | VInt z => pretty z
  | VStr s => s
  | VFloat _ | VList _ | VDict _ => repr v
  end.

End WithRuntime.

(** [bool(v)], the test of [if v] and [if not v] *)
Definition truthy (v : value) : bool :=
  match v with
  | VNone => false
  | VBool b => b
  | VInt z => negb (z =? 0)%Z
  | VFloat f => negb (PrimFloat.eqb f 0)
  | VStr s => negb (String.eqb s "")
  | VList l => match l with [] => false | _ => true end
  | VDict d => negb (bool_decide (d = ∅))
  end.

Definition is_none (v : value) : bool :=
  match v with
  | VNone => true
  | _ => false
  end.

(** [v == s] for a string literal [s] *)
Definition eq_str (v : value) (s : string) : bool :=
  match v with
  | VStr s' => String.eqb s' s
  | _ => false
  end.

(** [key in container] for a string [key] *)
Definition contains (container : value) (key : string) : res bool :=
  match container with
  | VDict d => Ok (bool_decide (is_Some (d !! key)))
  | VList l => Ok (existsb (λ x, eq_str x key) l)
  | VStr s => Ok (is_substring key s)
  | VNone | VBool _ | VInt _ | VFloat _ => Raise TypeError
  end.

(** [container[key]] for a string [key] *)
Definition getitem (container : value) (key : string) : res value :=
  match container with
  | VDict d =>
      match d !! key with
      | Some v => Ok v
      | None => Raise KeyError
      end
  | _ => Raise TypeError
  end.

(** [container.get(key, default)] and [container.get(key)] *)
Definition get_or (container : value) (key : string) (default_value : value) : res value :=
  match container with
  | VDict d => Ok (default default_value (d !! key))
  | _ => Raise AttributeError
  end.

Definition get (container : value) (key : string) : res value :=
  get_or container key VNone.

(** [v.lower()] *)
Definition str_lower (v : value) : res string :=
  match v with
  | VStr s => Ok (lower s)
  | _ => Raise AttributeError
  end.

(** How both engines read a payload that is not empty: the list under the key
    [data] of a dict (a single value there is a list of one), a dict without
    that key as a list of one, a list as it is; [None] for any other value. *)
Definition payload_records (data : value) : option (list value) :=
  match data with
  | VDict d =>
      match d !! "data" with
      | Some (VList l) => Some l
      | Some x => Some [x]
      | None => Some [data]
      end
  | VList l => Some l
  | _ => None
  end.

(** [min(a, b)] and [max(a, b)] on floats: the first argument unless the second
    is strictly better. *)
Definition fmin (a b : float) : float := if PrimFloat.ltb b a then b else a.
Definition fmax (a b : float) : float := if PrimFloat.ltb a b then b else a.

End Py.

(** ** Naive datetimes and [datetime.strptime]

    A [datetime] without time zone is the number of microseconds since
    0001-01-01T00:00:00 in the proleptic Gregorian calendar, so that comparison
    is [<] on [Z] and [(a - b).days] is a floor division. *)

Module Datetime.
Import Py.

Local Open Scope Z_scope.

Definition is_leap (y : Z) : bool :=
  (y mod 4 =? 0) && (negb (y mod 100 =? 0) || (y mod 400 =? 0)).

Definition days_in_month (y m : Z) : Z :=
  match m with
  | 1 | 3 | 5 | 7 | 8 | 10 | 12 => 31
  | 4 | 6 | 9 | 11 => 30
  | 2 => if is_leap y then 29 else 28
  | _ => 0
  end.

Definition days_before_year (y : Z) : Z :=
  let y1 := y - 1 in y1 * 365 + y1 / 4 - y1 / 100 + y1 / 400.

Definition days_before_month (y m : Z) : Z :=
  foldr Z.add 0 (days_in_month y <$> seqZ 1 (m - 1)).

Record fields := Fields {
  year : Z; month : Z; day : Z;
  hour : Z; minute : Z; second : Z; microsecond : Z
}.

Definition between (lo hi x : Z) : bool := (lo <=? x) && (x <=? hi).

(** The constructor [datetime(year, month, day, hour, minute, second, us)] *)
Definition datetime (f : fields) : res Z :=
  if between 1 9999 (year f) && between 1 12 (month f)
     && between 1 (days_in_month (year f) (month f)) (day f)
     && between 0 23 (hour f) && between 0 59 (minute f)
     && between 0 59 (second f) && between 0 999999 (microsecond f)
  then
    let ordinal := days_before_year (year f) + days_before_month (year f) (month f) + day f in
    Ok (((((ordinal - 1) * 24 + hour f) * 60 + minute f) * 60 + second f) * 1000000
        + microsecond f)
  else Raise ValueError.

Definition microseconds_per_day : Z := 86400000000.

(** [(a - b).days] *)
Definition days_between (a b : Z) : Z := (a - b) / microseconds_per_day.

(** *** The format as [_strptime] compiles it

    [_strptime] turns the format into a regular expression: a directive becomes
    a group of ordered alternatives, a run of blanks becomes [\s+], any other
    character stands for itself; the expression is matched at the start of the
    input, ignoring case, and the match has to cover the whole input.  The
    expression is matched on a [str], so that [\d] is any decimal digit and
    [\s] any white space of Unicode, while a class like [[0-9]] is ASCII; the
    numbers are then read by [int], which knows the same digits. *)

Inductive item : Type :=
| Directive (c : ascii)
| Blanks
| Literal (c : ascii).

Definition is_blank (a : ascii) : bool :=
  let n := nat_of_ascii a in
  (between 9 13 (Z.of_nat n) || between 28 32 (Z.of_nat n)).

Fixpoint tokens (fmt : string) : list item :=
  match fmt with
  | EmptyString => []
  | String "%" (String c rest) => Directive c :: tokens rest
  | String a rest => (if is_blank a then Blanks else Literal a) :: tokens rest
  end.

Fixpoint merge_blanks (l : list item) : list item :=
  match l with
  | Blanks :: ((Blanks :: _) as l') => merge_blanks l'
  | x :: l' => x :: merge_blanks l'
  | [] => []
  end.

Definition compile (fmt : string) : list item := merge_blanks (tokens fmt).

Definition digit_in (lo hi : Z) (a : ascii) : option Z :=
  let d := Z.of_nat (nat_of_ascii a) - 48 in
  if between 0 9 d && between lo hi d then Some d else None.

Definition is_ascii (a : ascii) : bool := (nat_of_ascii a <? 128)%nat.

(** One alternative of a directive reads a number off the front of the input. *)
Definition alternative := string → option (Z * string).

Section WithRuntime.
Context `{Runtime}.

(** [\d] *)
Definition digit : alternative := λ s,
  match s with
  | String a rest =>
      if is_ascii a then d ← digit_in 0 9 a; Some (d, rest) else unicode_decimal s
  | EmptyString => None
  end.

(** [\s] *)
Definition space (s : string) : option string :=
  match s with
  | String a rest =>
      if is_ascii a then (if is_blank a then Some rest else None) else unicode_space s
  | EmptyString => None
  end.

(** [[a-b]] *)
Definition one (r : Z * Z) : alternative := λ s,
  match s with
  | String a rest => d ← digit_in r.1 r.2 a; Some (d, rest)
  | _ => None
  end.

(** [[a-b][c-d]] *)
Definition two (r1 r2 : Z * Z) : alternative := λ s,
  match s with
  | String a rest => d ← digit_in r1.1 r1.2 a; '(e, rest') ← one r2 rest; Some (10 * d + e, rest')
  | _ => None
  end.

(** [ [1-9]], a blank-padded day *)
Definition padded_one (r : Z * Z) : alternative := λ s,
  match s with
  | String " " rest => one r rest
  | _ => None
  end.

(** [[a-b]\d] *)
Definition one_digit (r : Z * Z) : alternative := λ s,
  '(d, rest) ← one r s; '(e, rest') ← digit rest; Some (10 * d + e, rest').

(** [\d\d\d\d] *)
Definition four : alternative := λ s,
  '(a, s1) ← digit s; '(b, s2) ← digit s1; '(c, s3) ← digit s2; '(d, s4) ← digit s3;
  Some (1000 * a + 100 * b + 10 * c + d, s4).

(** [[0-9]{1,6}], longest first; the digits are a fraction of a second, so
    they are padded with zeros on the right up to six. *)
Fixpoint fraction (n : nat) (scale : Z) (s : string) : list (Z * string) :=
  match n, s with
  | S n', String a rest =>
      match digit_in 0 9 a with
      | Some d =>
          ((λ '(v, r), (d * scale + v, r)) <$> fraction n' (scale / 10) rest)
          ++ [(d * scale, rest)]
      | None => []
      end
  | _, _ => []
  end.

Definition directive (c : ascii) : option (list alternative) :=
  match c with
  | "Y" => Some [four]
  | "m" => Some [two (1, 1) (0, 2); two (0, 0) (1, 9); one (1, 9)]
  | "d" => Some [two (3, 3) (0, 1); one_digit (1, 2); two (0, 0) (1, 9);
                 one (1, 9); padded_one (1, 9)]
  | "H" => Some [two (2, 2) (0, 3); one_digit (0, 1); digit]
  | "M" => Some [one_digit (0, 5); digit]
  | "S" => Some [two (6, 6) (0, 1); one_digit (0, 5); digit]
  | _ => None
  end%char.

Definition store (c : ascii) (v : Z) (f : fields) : fields :=
  match c with
  | "Y" => Fields v (month f) (day f) (hour f) (minute f) (second f) (microsecond f)
  | "m" => Fields (year f) v (day f) (hour f) (minute f) (second f) (microsecond f)
  | "d" => Fields (year f) (month f) v (hour f) (minute f) (second f) (microsecond f)
  | "H" => Fields (year f) (month f) (day f) v (minute f) (second f) (microsecond f)
  | "M" => Fields (year f) (month f) (day f) (hour f) v (second f) (microsecond f)
  | "S" => Fields (year f) (month f) (day f) (hour f) (minute f) v (microsecond f)
  | "f" => Fields (year f) (month f) (day f) (hour f) (minute f) (second f) v
  | _ => f
  end%char.

(** [\s+], longest first; a white-space character takes a byte at least, so
    that there are no more of them than the input has bytes. *)
Fixpoint spaces (n : nat) (s : string) : list string :=
  match n with
  | O => []
  | S n' =>
      match space s with
      | Some rest => spaces n' rest ++ [rest]
      | None => []
      end
  end.

Definition blanks (s : string) : list string := spaces (String.length s) s.

(** The ways one item matches at the front of the input, in the order a
    backtracking matcher tries them; [None] for a directive the table lacks. *)
Definition match_item (it : item) (f : fields) (s : string) : option (list (fields * string)) :=
  match it with
  | Directive "f" => Some ((λ '(v, r), (store "f" v f, r)) <$> fraction 6 100000 s)
  | Directive c =>
      match directive c with
      | Some alts =>
          Some ((λ '(v, r), (store c v f, r)) <$> omap (λ alt : alternative, alt s) alts)
      | None => None
      end
  | Blanks => Some ((λ r, (f, r)) <$> blanks s)
  | Literal c =>
      match s with
      | String a rest =>
          Some (if Ascii.eqb (lower_ascii a) (lower_ascii c) then [(f, rest)] else [])
      | EmptyString => Some []
      end
  end.

Fixpoint match_items (items : list item) (f : fields) (s : string)
    : option (list (fields * string)) :=
  match items with
  | [] => Some [(f, s)]
  | it :: items' =>
      cands ← match_item it f s;
      tails ← mapM (λ '(f', s'), match_items items' f' s') cands;
      Some (concat tails)
  end.

Definition initial : fields := Fields 1900 1 1 0 0 0 0.

(** [datetime.strptime(s, fmt)] on a string [s]: [ValueError] when the format
    does not match, when input is left over, and when the fields are not a
    date. *)
Definition strptime (s fmt : string) : res Z :=
  match match_items (compile fmt) initial s with
  | Some ((f, EmptyString) :: _) => datetime f
  | _ => Raise ValueError
  end.

(** [datetime.strptime(v, fmt)] on any value: a non-string is a [TypeError]. *)
Definition strptime_value (v : value) (fmt : string) : res Z :=
  match v with
  | VStr s => strptime s fmt
  | _ => Raise TypeError
  end.

End WithRuntime.

End Datetime.

(** ** [data_validator.py] *)

Module DataValidator.
Import Py Datetime.

(** [{'min': a, 'max': b}]; a missing key is [None]. *)
Record range_config := Range { range_min : option Z; range_max : option Z }.

(** One entry of [self.validation_rules].  The patterns of the source all have
    the shape [^(w1|w2|...)$] and are kept as the list of their words. *)
Record rules := Rules {
  required_fields : list string;
  field_types : list (string * string);
  field_ranges : list (string * range_config);
  field_patterns : list (string * list string)
}.

Definition validation_rules : list (string * rules) :=
  [ ("accounts-payable",
     Rules ["id"; "amount"; "due_date"; "supplier_id"]
           [("id", "string"); ("amount", "numeric"); ("due_date", "date");
            ("supplier_id", "string"); ("status", "string")]
           [("amount", Range (Some 0%Z) (Some 10000000%Z))]
           [("status", ["pending"; "approved"; "paid"; "cancelled"])]);
    ("accounts-receivable",
     Rules ["id"; "amount"; "customer_id"]
           [("id", "string"); ("amount", "numeric"); ("customer_id", "string");
            ("payment_date", "date"); ("status", "string")]
           [("amount", Range (Some 0%Z) (Some 10000000%Z))]
           [("status", ["pending"; "partial"; "paid"; "overdue"])]);
    ("cash-flow",
     Rules ["id"; "date"; "type"]
           [("id", "string"); ("date", "date"); ("type", "string"); ("amount", "numeric")]
           []
           [("type", ["inflow"; "outflow"])]);
    ("project-management",
     Rules ["id"; "name"; "start_date"]
           [("id", "string"); ("name", "string"); ("start_date", "date");
            ("end_date", "date"); ("budget", "numeric"); ("actual_cost", "numeric")]
           [("budget", Range (Some 0%Z) (Some 100000000%Z));
            ("actual_cost", Range (Some 0%Z) (Some 100000000%Z))]
           []) ].

(** [re.match('^(w1|w2|...)$', s)]: one of the words, then the end of the
    string or a last newline. *)
Definition newline : string := String (ascii_of_nat 10) EmptyString.

Definition re_match (words : list string) (s : string) : bool :=
  existsb (λ w,
    match strip_prefix w s with
    | Some rest => String.eqb rest "" || String.eqb rest newline
    | None => false
    end) words.

Definition date_formats : list string :=
  [ "%Y-%m-%d"; "%Y-%m-%d %H:%M:%S"; "%Y-%m-%dT%H:%M:%S";
    "%Y-%m-%dT%H:%M:%S.%f"; "%d/%m/%Y"; "%m/%d/%Y" ].

(** The messages of the verdict. *)
Definition record_prefix (record_index : nat) : string :=
  "Record " +:+ pretty record_index +:+ ": ".

Definition dquote : string := String (ascii_of_nat 34) EmptyString.
Definition quoted (field : string) : string := dquote +:+ field +:+ dquote.

Definition msg_missing (i : nat) (field : string) : string :=
  record_prefix i +:+ "Missing required field " +:+ quoted field.
Definition msg_type (i : nat) (field expected_type : string) : string :=
  record_prefix i +:+ "Field " +:+ quoted field +:+ " has invalid type. Expected "
    +:+ expected_type.
Definition msg_pattern (i : nat) (field : string) : string :=
  record_prefix i +:+ "Field " +:+ quoted field +:+ " does not match required pattern".
Definition msg_not_numeric (i : nat) (field : string) : string :=
  record_prefix i +:+ "Field " +:+ quoted field +:+ " is not numeric for range validation".
Definition msg_past_due (i : nat) : string :=
  record_prefix i +:+ "Due date is in the past for pending payment".
Definition msg_positive (i : nat) : string :=
  record_prefix i +:+ "Payment amount must be positive".
Definition msg_end_date (i : nat) : string :=
  record_prefix i +:+ "End date must be after start date".
Definition msg_over_budget (i : nat) : string :=
  record_prefix i +:+ "Actual cost significantly exceeds budget".
Definition msg_large (i : nat) : string :=
  record_prefix i +:+ "Unusually large cash flow amount".

(** What a check of the business logic has appended so far, and how it ended.
    An exception keeps what was appended before it. *)
Record findings := Findings { f_errors : list string; f_warnings : list string }.

Record checked (A : Type) := Checked { emitted : findings; outcome : res A }.
Arguments Checked {A} emitted outcome.
Arguments emitted {A} c.
Arguments outcome {A} c.

Definition no_findings : findings := Findings [] [].
Definition join (a b : findings) : findings :=
  Findings (f_errors a ++ f_errors b) (f_warnings a ++ f_warnings b).

#[global] Instance checked_ret : MRet checked := λ A a, Checked no_findings (Ok a).
#[global] Instance checked_bind : MBind checked := λ A B f m,
  match outcome m with
  | Ok a => Checked (join (emitted m) (emitted (f a))) (outcome (f a))
  | Raise e => Checked (emitted m) (Raise e)
  end.

Definition lift {A} (r : res A) : checked A := Checked no_findings r.
Definition append_error (msg : string) : checked unit := Checked (Findings [msg] []) (Ok tt).
Definition append_warning (msg : string) : checked unit :=
  Checked (Findings [] [msg]) (Ok tt).
Definition pass : checked unit := mret tt.

(** [try: body  except classes: pass] *)
Definition try_pass (body : checked unit) (classes : exn → bool) : checked unit :=
  match outcome body with
  | Ok _ => body
  | Raise e => if classes e then Checked (emitted body) (Ok tt) else body
  end.

Section WithRuntime.
Context `{Runtime}.

Definition msg_below (i : nat) (field : string) (value : float) (bound : Z) : string :=
  record_prefix i +:+ "Field " +:+ quoted field +:+ " value " +:+ py_str (VFloat value)
    +:+ " is below minimum " +:+ pretty bound.
Definition msg_above (i : nat) (field : string) (value : float) (bound : Z) : string :=
  record_prefix i +:+ "Field " +:+ quoted field +:+ " value " +:+ py_str (VFloat value)
    +:+ " exceeds maximum " +:+ pretty bound.
Definition msg_business (i : nat) (e : exn) : string :=
  record_prefix i +:+ "Error in business logic validation: " +:+ exn_str e.

(** [_validate_field_type]; the result is read as a truth value by its caller.
    A value that comes from JSON is never a [datetime] instance. *)
Definition _validate_field_type (value : value) (expected_type : string) : bool :=
  let body : res bool :=
    if String.eqb expected_type "string" then
      Ok (match value with
          | VStr _ => true
          | _ => negb (is_none value) && negb (String.eqb (py_str value) "")
          end)
    else if String.eqb expected_type "numeric" then
      match value with
      | VBool _ | VInt _ | VFloat _ => Ok true
      | _ => catch (_ ← py_float value; Ok true) is_value_or_type_error (λ _, Ok false)
      end
    else if String.eqb expected_type "date" then
      match value with
      | VStr s =>
          Ok (existsb (λ fmt,
                match strptime s fmt with
                | Ok _ => true
                | Raise _ => false
                end) date_formats)
      | _ => Ok false
      end
    else if String.eqb expected_type "boolean" then
      Ok (match value with
          | VBool _ => true
          | _ => bool_decide (lower (py_str value) ∈ ["true"; "false"; "1"; "0"])
          end)
    else Ok true in
  match body with
  | Ok b => b
  | Raise _ => false
  end.

(** The five checks of [_validate_business_logic], each an [if] with a [try]
    inside; [now] is what [datetime.now()] returns. *)

(** Due date should not be in the past for pending payments *)
Definition due_date_check (record : value) (i : nat) (now : Z) : checked unit :=
  status ← lift (get record "status");
  has_due ← lift (if eq_str status "pending" then contains record "due_date" else Ok false);
  if has_due : bool then
    try_pass
      (v ← lift (getitem record "due_date");
       due_date ← lift (strptime_value v "%Y-%m-%d");
       if (due_date <? now)%Z then append_warning (msg_past_due i) else pass)
      is_value_error
  else pass.

(** Amount should be positive *)
Definition positive_amount_check (record : value) (i : nat) : checked unit :=
  has_amount ← lift (contains record "amount");
  if has_amount : bool then
    try_pass
      (v ← lift (getitem record "amount");
       amount ← lift (py_float v);
       if PrimFloat.leb amount 0 then append_error (msg_positive i) else pass)
      is_value_or_type_error
  else pass.

(** End date should be after start date *)
Definition end_date_check (record : value) (i : nat) : checked unit :=
  has_start ← lift (contains record "start_date");
  has_end ← lift (if has_start : bool then contains record "end_date" else Ok false);
  if has_end : bool then
    try_pass
      (v1 ← lift (getitem record "start_date");
       start_date ← lift (strptime_value v1 "%Y-%m-%d");
       v2 ← lift (getitem record "end_date");
       end_date ← lift (strptime_value v2 "%Y-%m-%d");
       if (end_date <=? start_date)%Z then append_error (msg_end_date i) else pass)
      is_value_error
  else pass.

(** Actual cost should not exceed budget by more than 50% *)
Definition budget_check (record : value) (i : nat) : checked unit :=
  has_budget ← lift (contains record "budget");
  has_cost ← lift (if has_budget : bool then contains record "actual_cost" else Ok false);
  if has_cost : bool then
    try_pass
      (v1 ← lift (getitem record "budget");
       budget ← lift (py_float v1);
       v2 ← lift (getitem record "actual_cost");
       actual_cost ← lift (py_float v2);
       if PrimFloat.ltb (budget * 1.5)%float actual_cost
       then append_warning (msg_over_budget i) else pass)
      is_value_or_type_error
  else pass.

(** Cash flow amount should be reasonable *)
Definition large_amount_check (record : value) (i : nat) : checked unit :=
  has_amount ← lift (contains record "amount");
  if has_amount : bool then
    try_pass
      (v ← lift (getitem record "amount");
       amount ← lift (py_float v);
       if PrimFloat.ltb 1000000 (PrimFloat.abs amount)
       then append_warning (msg_large i) else pass)
      is_value_or_type_error
  else pass.

(** The body of the [try] of [_validate_business_logic]. *)
Definition business_checks (service_name : string) (record : value) (i : nat) (now : Z)
    : checked unit :=
  if String.eqb service_name "accounts-payable" then
    _ ← due_date_check record i now;
    positive_amount_check record i
  else if String.eqb service_name "project-management" then
    _ ← end_date_check record i;
    budget_check record i
  else if String.eqb service_name "cash-flow" then
    large_amount_check record i
  else pass.

(** [_validate_business_logic]: an exception of the body adds a warning to
    what the body has appended before it. *)
Definition _validate_business_logic (service_name : string) (record : value) (i : nat)
    (now : Z) : findings :=
  let c := business_checks service_name record i now in
  match outcome c with
  | Ok _ => emitted c
  | Raise e => join (emitted c) (Findings [] [msg_business i e])
  end.

End WithRuntime.

(** The result of [_validate_record]. *)
Record record_result := RecordResult {
  rec_is_valid : bool;
  rec_errors : list string;
  rec_warnings : list string
}.

(** The verdict of [validate_microservice_data]. *)
Record verdict := Verdict {
  is_valid : bool;
  errors : list string;
  warnings : list string;
  records_validated : nat;
  records_failed : nat
}.

(** [result['is_valid'] = False; result['errors'].append(msg)] *)
Definition invalidate (msg : string) (r : record_result) : record_result :=
  RecordResult false (rec_errors r ++ [msg]) (rec_warnings r).

(** The guard [field in record and record[field] is not None], with the value
    it lets through. *)
Definition present (record : value) (field : string) : res (option value) :=
  c ← contains record field;
  if c : bool then
    v ← getitem record field;
    Ok (if is_none v then None else Some v)
  else Ok None.

Section WithRuntime.
Context `{Runtime}.

Definition check_required (i : nat) (record : value) (r : record_result) (field : string)
    : res record_result :=
  c ← contains record field;
  missing ← (if negb c then Ok true
             else v ← getitem record field; Ok (is_none v || eq_str v ""));
  Ok (if missing : bool then invalidate (msg_missing i field) r else r).

Definition check_type (i : nat) (record : value) (r : record_result)
    (rule : string * string) : res record_result :=
  let '(field, expected_type) := rule in
  p ← present record field;
  Ok (match p with
      | Some v =>
          if negb (_validate_field_type v expected_type)
          then invalidate (msg_type i field expected_type) r else r
      | None => r
      end).

(** The bounds of the source are small integers, which [float_of_Z] converts
    exactly, so comparing with the converted bound is Python's comparison of a
    float with an [int]. *)
Definition check_range (i : nat) (record : value) (r : record_result)
    (rule : string * range_config) : res record_result :=
  let '(field, cfg) := rule in
  p ← present record field;
  match p with
  | Some v =>
      catch
        (value ← py_float v;
         let r1 :=
           match range_min cfg with
           | Some lo =>
               if PrimFloat.ltb value (float_of_Z lo)
               then invalidate (msg_below i field value lo) r else r
           | None => r
           end in
         Ok (match range_max cfg with
             | Some hi =>
                 if PrimFloat.ltb (float_of_Z hi) value
                 then invalidate (msg_above i field value hi) r1 else r1
             | None => r1
             end))
        is_value_or_type_error
        (λ _, Ok (invalidate (msg_not_numeric i field) r))
  | None => Ok r
  end.

Definition check_pattern (i : nat) (record : value) (r : record_result)
    (rule : string * list string) : res record_result :=
  let '(field, pattern) := rule in
  p ← present record field;
  Ok (match p with
      | Some v =>
          if negb (re_match pattern (py_str v))
          then invalidate (msg_pattern i field) r else r
      | None => r
      end).

Definition msg_no_rules (service_name : string) : string :=
  "No validation rules defined for service: " +:+ service_name.

Definition _validate_record (service_name : string) (record : value) (i : nat) (now : Z)
    : res record_result :=
  let result := RecordResult true [] [] in
  match lookup_table validation_rules service_name with
  | None => Ok (RecordResult true [] [msg_no_rules service_name])
  | Some rules =>
      r1 ← for_each (check_required i record) (required_fields rules) result;
      r2 ← for_each (check_type i record) (field_types rules) r1;
      r3 ← for_each (check_range i record) (field_ranges rules) r2;
      r4 ← for_each (check_pattern i record) (field_patterns rules) r3;
      let business_validation := _validate_business_logic service_name record i now in
      Ok (RecordResult
            (match f_errors business_validation with
             | [] => rec_is_valid r4
             | _ => false
             end)
            (rec_errors r4 ++ f_errors business_validation)
            (rec_warnings r4 ++ f_warnings business_validation))
  end.

(** The loop [for i, record in enumerate(records)]; [now i] is the clock when
    the business logic of record [i] reads it. *)
Fixpoint validate_records (service_name : string) (now : nat → Z) (i : nat)
    (records : list value) (v : verdict) : res verdict :=
  match records with
  | [] => Ok v
  | record :: records' =>
      rv ← _validate_record service_name record i (now i);
      let failed := negb (rec_is_valid rv) in
      validate_records service_name now (S i) records'
        (Verdict (is_valid v)
                 (if failed then errors v ++ rec_errors rv else errors v)
                 (warnings v ++ rec_warnings rv)
                 (S (records_validated v))
                 (if failed then S (records_failed v) else records_failed v))
  end.

(** [a / b] on two [int]s that a float holds exactly, as list lengths are. *)
Definition true_div (a b : nat) : float :=
  (float_of_Z (Z.of_nat a) / float_of_Z (Z.of_nat b))%float.

(** The body of the [try] of [validate_microservice_data]. *)
Definition validate_payload (service_name : string) (endpoint data : value)
    (now : nat → Z) : res verdict :=
  if negb (truthy data) then Ok (Verdict false ["No data received"] [] 0 0)
  else
    match payload_records data with
    | None => Ok (Verdict false ["Invalid data format"] [] 0 0)
    | Some records =>
        v ← validate_records service_name now 0 records (Verdict true [] [] 0 0);
        Ok (if (0 <? records_failed v)%nat
               && PrimFloat.ltb 0.1 (true_div (records_failed v) (records_validated v))
            then Verdict false (errors v) (warnings v)
                         (records_validated v) (records_failed v)
            else v)
    end.

Definition validate_microservice_data (service_name : string) (endpoint data : value)
    (now : nat → Z) : verdict :=
  match validate_payload service_name endpoint data now with
  | Ok v => v
  | Raise e => Verdict false ["Validation error: " +:+ exn_str e] [] 0 0
  end.

End WithRuntime.

End DataValidator.

(** ** [data_transformer.py] *)

Module DataTransformer.
Import Py Datetime.

(** The guard [key in record and record[key]] (a truth test), with the value
    it lets through. *)
Definition present_truthy (record : value) (key : string) : res (option value) :=
  c ← contains record key;
  if c : bool then
    v ← getitem record key;
    Ok (if truthy v then Some v else None)
  else Ok None.

(** [except Exception: return None] *)
Definition or_none (body : res value) : value :=
  match body with
  | Ok v => v
  | Raise _ => VNone
  end.

(** [a / b] on two [int]s that a float holds exactly, as day counts are. *)
Definition true_div (a b : Z) : float := (float_of_Z a / float_of_Z b)%float.

Section WithRuntime.
Context `{Runtime}.

(** Each calculated field is a function of the original record, the service
    name and the clock reading [now] of its call to [datetime.now()]. *)

Definition _calculate_days_until_due (record : value) (service_name : string) (now : Z)
    : value :=
  or_none
    (p ← present_truthy record "due_date";
     match p with
     | None => Ok VNone
     | Some v =>
         due_date ← strptime_value v "%Y-%m-%d";
         Ok (VInt (days_between due_date now))
     end).

Definition _calculate_days_overdue (record : value) (service_name : string) (now : Z)
    : value :=
  or_none
    (p ← present_truthy record "payment_date";
     match p with
     | None => Ok VNone
     | Some v =>
         payment_date ← strptime_value v "%Y-%m-%d";
         Ok (VInt (if (payment_date <? now)%Z then days_between now payment_date else 0))
     end).

Definition _convert_to_cad (record : value) (service_name : string) (now : Z) : value :=
  or_none
    (p ← DataValidator.present record "amount";
     match p with
     | Some v => f ← py_float v; Ok (VFloat f)
     | None => Ok VNone
     end).

(** The three factors of [_calculate_payable_risk_score], each taking the
    score so far. *)
Definition risk_amount_factor (record : value) (risk_score : float) : res float :=
  p ← present_truthy record "amount";
  match p with
  | Some v =>
      amount ← py_float v;
      Ok (if PrimFloat.ltb 100000 amount then risk_score + 0.3
          else if PrimFloat.ltb 50000 amount then risk_score + 0.2
          else if PrimFloat.ltb 10000 amount then risk_score + 0.1
          else risk_score)%float
  | None => Ok risk_score
  end.

Definition risk_due_date_factor (record : value) (now : Z) (risk_score : float)
    : res float :=
  p ← present_truthy record "due_date";
  match p with
  | Some v =>
      catch
        (due_date ← strptime_value v "%Y-%m-%d";
         let days_until_due := days_between due_date now in
         Ok (if (days_until_due <? 0)%Z then risk_score + 0.4
             else if (days_until_due <? 7)%Z then risk_score + 0.2
             else if (days_until_due <? 30)%Z then risk_score + 0.1
             else risk_score)%float)
        is_value_error (λ _, Ok risk_score)
  | None => Ok risk_score
  end.

Definition risk_status_factor (record : value) (risk_score : float) : res float :=
  c ← contains record "status";
  if c : bool then
    v ← getitem record "status";
    status ← str_lower v;
    Ok (if String.eqb status "overdue" then risk_score + 0.3
        else if String.eqb status "pending" then risk_score + 0.1
        else risk_score)%float
  else Ok risk_score.

Definition payable_risk_score (record : value) (now : Z) : res float :=
  r1 ← risk_amount_factor record 0%float;
  r2 ← risk_due_date_factor record now r1;
  r3 ← risk_status_factor record r2;
  Ok (fmin r3 1%float).

Definition _calculate_payable_risk_score (record : value) (service_name : string)
    (now : Z) : value :=
  or_none (r ← payable_risk_score record now; Ok (VFloat r)).

(** The three factors of [_calculate_collection_probability]. *)
Definition collection_overdue_factor (record : value) (now : Z) (probability : float)
    : res float :=
  p ← present_truthy record "payment_date";
  match p with
  | Some v =>
      catch
        (payment_date ← strptime_value v "%Y-%m-%d";
         let days_overdue := days_between now payment_date in
         Ok (if (90 <? days_overdue)%Z then probability * 0.3
             else if (60 <? days_overdue)%Z then probability * 0.5
             else if (30 <? days_overdue)%Z then probability * 0.7
             else if (0 <? days_overdue)%Z then probability * 0.9
             else probability)%float)
        is_value_error (λ _, Ok probability)
  | None => Ok probability
  end.

Definition collection_amount_factor (record : value) (probability : float) : res float :=
  p ← present_truthy record "amount";
  match p with
  | Some v =>
      amount ← py_float v;
      Ok (if PrimFloat.ltb 100000 amount then probability * 0.9
          else if PrimFloat.ltb 500000 amount then probability * 0.8
          else probability)%float
  | None => Ok probability
  end.

Definition collection_status_factor (record : value) (probability : float) : res float :=
  c ← contains record "status";
  if c : bool then
    v ← getitem record "status";
    status ← str_lower v;
    Ok (if String.eqb status "paid" then 1
        else if String.eqb status "overdue" then probability * 0.6
        else if String.eqb status "partial" then probability * 0.8
        else probability)%float
  else Ok probability.

Definition collection_probability (record : value) (now : Z) : res float :=
  p1 ← collection_overdue_factor record now 1%float;
  p2 ← collection_amount_factor record p1;
  p3 ← collection_status_factor record p2;
  Ok (fmax p3 0%float).

Definition _calculate_collection_probability (record : value) (service_name : string)
    (now : Z) : value :=
  or_none (p ← collection_probability record now; Ok (VFloat p)).

Definition _calculate_cumulative_balance (record : value) (service_name : string)
    (now : Z) : value :=
  or_none
    (p ← present_truthy record "amount";
     match p with
     | Some v => f ← py_float v; Ok (VFloat f)
     | None => Ok VNone
     end).

Definition _calculate_monthly_total (record : value) (service_name : string) (now : Z)
    : value :=
  or_none
    (p ← present_truthy record "amount";
     match p with
     | Some v => f ← py_float v; Ok (VFloat f)
     | None => Ok VNone
     end).

(** [a in record and b in record] *)
Definition contains_both (record : value) (a b : string) : res bool :=
  c ← contains record a;
  if c : bool then contains record b else Ok false.

Definition _calculate_trend_indicator (record : value) (service_name : string)
    (now : Z) : value :=
  or_none
    (c ← contains_both record "type" "amount";
     if c : bool then
       t ← getitem record "type";
       flow_type ← str_lower t;
       a ← getitem record "amount";
       amount ← py_float a;
       Ok (VStr (if String.eqb flow_type "inflow" && PrimFloat.ltb 0 amount then "positive"
                 else if String.eqb flow_type "outflow" && PrimFloat.ltb 0 amount
                 then "negative" else "neutral"))
     else Ok VNone).

Definition _calculate_budget_variance (record : value) (service_name : string)
    (now : Z) : value :=
  or_none
    (c ← contains_both record "budget" "actual_cost";
     if c : bool then
       b ← getitem record "budget";
       budget ← py_float b;
       a ← getitem record "actual_cost";
       actual_cost ← py_float a;
       Ok (if PrimFloat.ltb 0 budget
           then VFloat (round2 ((actual_cost - budget) / budget * 100)%float)
           else VNone)
     else Ok VNone).

Definition _calculate_project_duration (record : value) (service_name : string)
    (now : Z) : value :=
  or_none
    (c ← contains_both record "start_date" "end_date";
     if c : bool then
       s ← getitem record "start_date";
       start_date ← strptime_value s "%Y-%m-%d";
       e ← getitem record "end_date";
       end_date ← strptime_value e "%Y-%m-%d";
       Ok (VInt (Z.max (days_between end_date start_date) 0))
     else Ok VNone).

Definition _calculate_completion_percentage (record : value) (service_name : string)
    (now : Z) : value :=
  or_none
    (c ← contains_both record "start_date" "end_date";
     if c : bool then
       s ← getitem record "start_date";
       start_date ← strptime_value s "%Y-%m-%d";
       e ← getitem record "end_date";
       end_date ← strptime_value e "%Y-%m-%d";
       Ok (if (now <? start_date)%Z then VFloat 0
           else if (end_date <? now)%Z then VFloat 100
           else
             let total_duration := days_between end_date start_date in
             let elapsed_duration := days_between now start_date in
             if (0 <? total_duration)%Z
             then VFloat (round2 (fmin (true_div elapsed_duration total_duration * 100) 100))
             else VNone)
     else Ok VNone).

Definition _calculate_cost_per_day (record : value) (service_name : string) (now : Z)
    : value :=
  or_none
    (c ← contains_both record "actual_cost" "start_date";
     if c : bool then
       a ← getitem record "actual_cost";
       actual_cost ← py_float a;
       s ← getitem record "start_date";
       start_date ← strptime_value s "%Y-%m-%d";
       let days_elapsed := days_between now start_date in
       Ok (if (0 <? days_elapsed)%Z
           then VFloat (round2 (actual_cost / float_of_Z days_elapsed)%float)
           else VNone)
     else Ok VNone).

(** [_calculate_record_hash] *)
Definition _calculate_record_hash (record : value) : string :=
  match json_dumps_sorted record with
  | Some record_str => pretty (hash record_str)
  | None => pretty (hash (py_str record))
  end.

Definition calculation := value → string → Z → value.

(** One entry of [self.transformation_rules]. *)
Record rules := Rules {
  field_mappings : list (string * string);
  calculated_fields : list (string * calculation);
  aggregations : list (string * string)
}.

Definition transformation_rules : list (string * rules) :=
  [ ("accounts-payable",
     Rules [("id", "payable_id"); ("amount", "payable_amount");
            ("due_date", "payable_due_date"); ("supplier_id", "supplier_id");
            ("status", "payable_status")]
           [("days_until_due", _calculate_days_until_due);
            ("amount_cad", _convert_to_cad);
            ("risk_score", _calculate_payable_risk_score)]
           [("total_amount", "sum"); ("avg_amount", "mean"); ("count", "count")]);
    ("accounts-receivable",
     Rules [("id", "receivable_id"); ("amount", "receivable_amount");
            ("customer_id", "customer_id"); ("payment_date", "expected_payment_date");
            ("status", "receivable_status")]
           [("days_overdue", _calculate_days_overdue);
            ("amount_cad", _convert_to_cad);
            ("collection_probability", _calculate_collection_probability)]
           []);
    ("cash-flow",
     Rules [("id", "cashflow_id"); ("date", "transaction_date"); ("type", "flow_type");
            ("amount", "flow_amount")]
           [("cumulative_balance", _calculate_cumulative_balance);
            ("monthly_total", _calculate_monthly_total);
            ("trend_indicator", _calculate_trend_indicator)]
           []);
    ("project-management",
     Rules [("id", "project_id"); ("name", "project_name");
            ("start_date", "project_start_date"); ("end_date", "project_end_date");
            ("budget", "project_budget"); ("actual_cost", "project_actual_cost")]
           [("budget_variance", _calculate_budget_variance);
            ("project_duration", _calculate_project_duration);
            ("completion_percentage", _calculate_completion_percentage);
            ("cost_per_day", _calculate_cost_per_day)]
           []) ].

(** The three loops of [_transform_record] over the dict being built. *)

(** [for original_field, new_field in field_mappings.items()] *)
Definition apply_mapping (record : value) (transformed : gmap string value)
    (m : string * string) : res (gmap string value) :=
  let '(original_field, new_field) := m in
  c ← contains record original_field;
  if c : bool then
    v ← getitem record original_field;
    Ok (<[new_field := v]> transformed)
  else Ok (<[new_field := VNone]> transformed).

(** [for field, value in record.items(): if field not in field_mappings] *)
Definition keep_unmapped (field_mappings : list (string * string)) (record : value)
    (transformed : gmap string value) : res (gmap string value) :=
  match record with
  | VDict d =>
      Ok (map_fold (λ field value acc,
            match lookup_table field_mappings field with
            | Some _ => acc
            | None => <[field := value]> acc
            end) transformed d)
  | _ => Raise AttributeError
  end.

(** [for field_name, calculation_func in calculated_fields.items()];
    [now field_name] is the clock when that calculation reads it. *)
Definition apply_calculation (record : value) (service_name : string) (now : string → Z)
    (transformed : gmap string value) (c : string * calculation) : gmap string value :=
  let '(field_name, calculation_func) := c in
  <[field_name := calculation_func record service_name (now field_name)]> transformed.

(** [_transform_record]; [utcnow] is what [datetime.utcnow()] returns. *)
Definition _transform_record (record : value) (rules : rules) (service_name : string)
    (now : string → Z) (utcnow : Z) : option (gmap string value) :=
  let body : res (gmap string value) :=
    t1 ← for_each (apply_mapping record) (field_mappings rules) ∅;
    t2 ← keep_unmapped (field_mappings rules) record t1;
    let t3 := foldl (apply_calculation record service_name now) t2 (calculated_fields rules) in
    Ok (<["_record_hash" := VStr (_calculate_record_hash record)]>
        (<["_transformed_at" := VStr (isoformat utcnow)]>
         (<["_source_service" := VStr service_name]> t3))) in
  match body with
  | Ok transformed => Some transformed
  | Raise _ => None
  end.

(** The clock readings one call of [transform_microservice_data] makes: for
    the record at a position, one per calculated field and one [utcnow]. *)
Record clock := Clock { now_at : nat → string → Z; utcnow_at : nat → Z }.

(** [for record in records]: a record whose transform is [None] or empty is
    left out. *)
Fixpoint transform_records (rules : rules) (service_name : string) (clk : clock)
    (i : nat) (records : list value) : list value :=
  match records with
  | [] => []
  | record :: records' =>
      match _transform_record record rules service_name (now_at clk i) (utcnow_at clk i) with
      | Some t =>
          if truthy (VDict t)
          then VDict t :: transform_records rules service_name clk (S i) records'
          else transform_records rules service_name clk (S i) records'
      | None => transform_records rules service_name clk (S i) records'
      end
  end.

(** [transform_microservice_data].  Nothing in the body of its [try] raises:
    [_transform_record] catches what its loops raise. *)
Definition transform_microservice_data (service_name : string) (endpoint data : value)
    (clk : clock) : list value :=
  if negb (truthy data) then []
  else
    match payload_records data with
    | None => []
    | Some records =>
        match lookup_table transformation_rules service_name with
        | None => records
        | Some rules => transform_records rules service_name clk 0 records
        end
    end.

End WithRuntime.

End DataTransformer.

(** ** [etl_service.py] and the two tables of [models/database.py] it writes *)

Module ETLService.
Import Py.

Definition microservice_endpoints : list (string * string) :=
  [ ("accounts-payable", "http://localhost:8001/api");
    ("accounts-receivable", "http://localhost:8002/api");
    ("authentication", "http://localhost:8003/api");
    ("cash-flow", "http://localhost:8004/api");
    ("company", "http://localhost:8005/api");
    ("create-people", "http://localhost:8006/api");
    ("employee-costs", "http://localhost:8007/api");
    ("project-management", "http://localhost:8008/api");
    ("supplier", "http://localhost:8009/api");
    ("bank-integration", "http://localhost:8010/api");
    ("financial-reports", "http://localhost:8011/api");
    ("communication", "http://localhost:8012/api");
    ("calculation-materials", "http://localhost:8013/api");
    ("construction-integrations", "http://localhost:8014/api") ].

(** A row of [data_sources]. *)
Record DataSource := Source {
  type : string;
  connection_string : string;
  last_sync : option Z
}.

(** What [execute_etl_job] hands to [job.set_metadata]: the dict of a
    microservice extraction, or the note of a source type that is not
    implemented.  [extraction_details] is kept as the sequence of assignments
    [extracted_data[endpoint] = outcome], oldest first; the Python dict is
    what they leave behind, the last outcome of each endpoint. *)
Inductive metadata : Type :=
| Extraction (service_name : string) (endpoints_processed : nat)
    (extraction_details : list (value * gmap string value))
| NotImplemented (type : string)
| NoMetadata.

(** A row of [etl_jobs]. *)
Record ETLJob := Job {
  data_source_id : Z;
  status : string;
  records_processed : nat;
  records_failed : nat;
  start_time : option Z;
  end_time : option Z;
  error_message : option string;
  job_metadata : option metadata
}.

(** What [requests.get] returns: the status code, and what [response.json()]
    gives when it is called. *)
Record response := Response { status_code : Z; json : res value }.

(** What one run of [run_job] reads from outside the process: the answer to
    the request for the endpoint at each position, and the clock. *)
Record env := Env {
  requests_get : nat → string → res response;
  validator_now : nat → nat → Z;
  transformer_clock : nat → DataTransformer.clock;
  utcnow_start : Z;
  utcnow_end : Z;
  utcnow_sync : Z
}.

(** The dict an extraction routine returns. *)
Record extraction_result := Result {
  result_records_processed : nat;
  result_records_failed : nat;
  result_metadata : metadata
}.

(** The local variables of the loop of [_extract_from_microservice]. *)
Record extraction_state := State {
  total_records : nat;
  failed_records : nat;
  extracted_data : list (value * gmap string value)
}.

(** A call [_store_in_warehouse(service_name, endpoint, data)]; the rows it
    adds to [analytics_metrics] are followed in [Warehouse], here the batches
    are. *)
Definition batch : Type := string * value * list value.

(** Whether [_store_in_warehouse] returns on the list the transformation
    gave.  [db = SQLAlchemy()] of [models/database.py] belongs to no
    application: [db.session] and [Model.query] find the database through the
    application context of the thread that uses them and raise [RuntimeError]
    in a thread that has none; [ctx] says whether the calling thread has one.
    [_create_analytics_metrics], called for each record, catches whatever its
    body raises, and its handler calls [db.session.rollback()]: with a context
    the call returns on every batch, without one only on the empty batch. *)
Definition store_batch (ctx : bool) (data : list value) : res unit :=
  match data with
  | [] => Ok tt
  | _ :: _ => if ctx then Ok tt else Raise RuntimeError
  end.

Definition hashable (v : value) : bool :=
  match v with
  | VList _ | VDict _ => false
  | _ => true
  end.

(** [extracted_data[endpoint] = outcome] *)
Definition set_outcome (endpoint : value) (outcome : gmap string value)
    (st : extraction_state) : res extraction_state :=
  if hashable endpoint
  then Ok (State (total_records st) (failed_records st)
                 (extracted_data st ++ [(endpoint, outcome)]))
  else Raise TypeError.

Definition count_failed (st : extraction_state) : extraction_state :=
  State (total_records st) (S (failed_records st)) (extracted_data st).

Definition count_records (n : nat) (st : extraction_state) : extraction_state :=
  State (total_records st + n) (failed_records st) (extracted_data st).

(** [for endpoint in endpoints] and [len(endpoints)]: the elements of a list,
    the characters of a string, the keys of a dict (in the order of the map,
    which is not the order of insertion). *)
Definition iterate (v : value) : res (list value) :=
  match v with
  | VList l => Ok l
  | VStr s => Ok ((λ a, VStr (String a EmptyString)) <$> list_ascii_of_string s)
  | VDict d => Ok ((λ kv, VStr kv.1) <$> map_to_list d)
  | VNone | VBool _ | VInt _ | VFloat _ => Raise TypeError
  end.

Section WithRuntime.
Context `{Runtime}.

(** The handler [except requests.RequestException as e] of the loop. *)
Definition on_request_exception (endpoint : value) (e : exn) (st : extraction_state)
    : res extraction_state :=
  if is_request_exception e
  then set_outcome endpoint
         (<["status" := VStr "connection_error"]> (<["error" := VStr (exn_str e)]> ∅))
         (count_failed st)
  else Raise e.

(** The body of [for endpoint in endpoints], for the endpoint at position [k]:
    the batches it handed to [_store_in_warehouse], also when that call or a
    later statement raises, and the state it leaves. *)
Definition extract_endpoint (e : env) (ctx : bool) (service_name base_url : string)
    (k : nat) (endpoint : value) (st : extraction_state)
    : list batch * res extraction_state :=
  let url := base_url +:+ "/" +:+ py_str endpoint in
  match requests_get e k url with
  | Raise exc => ([], on_request_exception endpoint exc st)
  | Ok response =>
      if (status_code response =? 200)%Z then
        match json response with
        | Raise exc => ([], on_request_exception endpoint exc st)
        | Ok data =>
            let validation_result :=
              DataValidator.validate_microservice_data service_name endpoint data
                (validator_now e k) in
            if DataValidator.is_valid validation_result then
              let transformed_data :=
                DataTransformer.transform_microservice_data service_name endpoint data
                  (transformer_clock e k) in
              ([(service_name, endpoint, transformed_data)],
               _ ← store_batch ctx transformed_data;
               st' ← set_outcome endpoint
                       (<["records" := VInt (Z.of_nat (length transformed_data))]>
                        (<["status" := VStr "success"]> ∅)) st;
               Ok (count_records (length transformed_data) st'))
            else
              ([], set_outcome endpoint
                     (<["status" := VStr "validation_failed"]>
                      (<["errors" :=
                           VList (VStr <$> DataValidator.errors validation_result)]> ∅))
                     (count_failed st))
        end
      else
        ([], set_outcome endpoint
               (<["status" := VStr "http_error"]>
                (<["status_code" := VInt (status_code response)]> ∅))
               (count_failed st))
  end.

(** [for endpoint in endpoints]: the first exception leaves the loop. *)
Fixpoint extract_endpoints (e : env) (ctx : bool) (service_name base_url : string)
    (k : nat) (endpoints : list value) (st : extraction_state)
    : list batch * res extraction_state :=
  match endpoints with
  | [] => ([], Ok st)
  | endpoint :: endpoints' =>
      let '(stored, r) := extract_endpoint e ctx service_name base_url k endpoint st in
      match r with
      | Ok st' =>
          let '(stored', r') :=
            extract_endpoints e ctx service_name base_url (S k) endpoints' st' in
          (stored ++ stored', r')
      | Raise exc => (stored, Raise exc)
      end
  end.

(** [json.loads(source.connection_string)] *)
Definition load_connection (source : DataSource) : res value :=
  match json_loads (connection_string source) with
  | Some v => Ok v
  | None => Raise ValueError
  end.

(** [self.microservice_endpoints[service_name]] after the test
    [service_name not in self.microservice_endpoints]. *)
Definition resolve (service_name : value) : res (string * string) :=
  match service_name with
  | VStr s =>
      match lookup_table microservice_endpoints s with
      | Some base_url => Ok (s, base_url)
      | None => Raise ValueError
      end
  | VList _ | VDict _ => Raise TypeError
  | _ => Raise ValueError
  end.

(** What [_extract_from_microservice] does before its loop. *)
Definition connection (source : DataSource) : res (string * string * list value) :=
  connection_data ← load_connection source;
  service_name ← get connection_data "service_name";
  endpoints ← get_or connection_data "endpoints" (VList []);
  '(service_name, base_url) ← resolve service_name;
  endpoints ← iterate endpoints;
  Ok (service_name, base_url, endpoints).

(** [_extract_from_microservice]: the batches it handed to
    [_store_in_warehouse], also when it raises, and its result. *)
Definition _extract_from_microservice (e : env) (ctx : bool) (source : DataSource)
    : list batch * res extraction_result :=
  match connection source with
  | Raise exc => ([], Raise exc)
  | Ok (service_name, base_url, endpoints) =>
      let '(stored, r) :=
        extract_endpoints e ctx service_name base_url 0 endpoints (State 0 0 []) in
      (stored,
       st ← r;
       Ok (Result (total_records st) (failed_records st)
             (Extraction service_name (length endpoints) (extracted_data st))))
  end.

(** The three source types that are not implemented parse the connection
    string and report nothing. *)
Definition not_implemented (kind : string) (source : DataSource) : res extraction_result :=
  _ ← load_connection source;
  Ok (Result 0 0 (NotImplemented kind)).

Definition _extract_from_database := not_implemented "database".
Definition _extract_from_api := not_implemented "api".
Definition _extract_from_file := not_implemented "file".

End WithRuntime.

(** *** Jobs and their threads

    The database holds the two tables; [warehouse] is the sequence of batches
    stored so far.  Every use of the database, [ETLJob.query.get] and
    [db.session.commit()], needs the application context of the thread that
    makes it (see [store_batch]).  [threading.Thread(target=run_job).start()]
    adds a thread that has not run yet; a new thread has no application
    context, and [run_job] pushes none.  Between two commits nothing of a
    thread is visible to the others, so a thread takes one step up to its
    first commit, or to its end when it does not get there, and a second step
    up to its last. *)

Inductive thread : Type :=
| Starting (job_id : Z)
| Extracting (job_id : Z).

Record world := World {
  jobs : gmap Z ETLJob;
  sources : gmap Z DataSource;
  warehouse : list batch;
  threads : list thread
}.

(** The dict [execute_etl_job] returns. *)
Record handle := Handle { handle_status : string; handle_job_id : Z }.

Definition execute_etl_job (job_id : Z) (w : world) : world * handle :=
  (World (jobs w) (sources w) (warehouse w) (threads w ++ [Starting job_id]),
   Handle "started" job_id).

(** [ETLJob.query.get(job_id)] *)
Definition query_get (ctx : bool) (job_id : Z) (w : world) : res (option ETLJob) :=
  if ctx then Ok (jobs w !! job_id) else Raise RuntimeError.

(** [db.session.commit()] of the changes that make [w] *)
Definition commit (ctx : bool) (w : world) : res world :=
  if ctx then Ok w else Raise RuntimeError.

Definition set_running (e : env) (job : ETLJob) : ETLJob :=
  Job (data_source_id job) "running" (records_processed job) (records_failed job)
      (Some (utcnow_start e)) (end_time job) (error_message job) (job_metadata job).

Definition set_completed (e : env) (result : extraction_result) (job : ETLJob) : ETLJob :=
  Job (data_source_id job) "completed"
      (result_records_processed result) (result_records_failed result)
      (start_time job) (Some (utcnow_end e)) (error_message job)
      (Some (result_metadata result)).

Definition set_last_sync (e : env) (source : DataSource) : DataSource :=
  Source (type source) (connection_string source) (Some (utcnow_sync e)).

Section WithRuntime.
Context `{Runtime}.

Definition set_failed (e : env) (exc : exn) (job : ETLJob) : ETLJob :=
  Job (data_source_id job) "failed" (records_processed job) (records_failed job)
      (start_time job) (Some (utcnow_end e)) (Some (exn_str exc)) (job_metadata job).

(** The [try] of [run_job] up to its first commit: [Ok None] when the job is
    not found and the thread returns at once. *)
Definition run_job_start (e : env) (ctx : bool) (job_id : Z) (w : world)
    : res (option world) :=
  job ← query_get ctx job_id w;
  match job with
  | None => Ok None
  | Some job =>
      w' ← commit ctx (World (<[job_id := set_running e job]> (jobs w)) (sources w)
                         (warehouse w) (threads w));
      Ok (Some w')
  end.

(** The handler [except Exception as e] of [run_job]: the world it leaves,
    and the exception that ends the thread when the handler raises itself. *)
Definition run_job_failed (e : env) (ctx : bool) (exc : exn) (job_id : Z) (w : world)
    : world * option exn :=
  match query_get ctx job_id w with
  | Raise exc' => (w, Some exc')
  | Ok None => (w, None)
  | Ok (Some job) =>
      match commit ctx (World (<[job_id := set_failed e exc job]> (jobs w)) (sources w)
                          (warehouse w) (threads w)) with
      | Ok w' => (w', None)
      | Raise exc' => (w, Some exc')
      end
  end.

(** The dispatch on [source.type]; a job without its source row has
    [job.data_source] equal to [None], and [source.type] raises. *)
Definition extract (e : env) (ctx : bool) (source : option DataSource)
    : list batch * res extraction_result :=
  match source with
  | None => ([], Raise AttributeError)
  | Some source =>
      if String.eqb (type source) "microservice"
      then _extract_from_microservice e ctx source
      else if String.eqb (type source) "database" then ([], _extract_from_database source)
      else if String.eqb (type source) "api" then ([], _extract_from_api source)
      else if String.eqb (type source) "file" then ([], _extract_from_file source)
      else ([], Raise ValueError)
  end.

(** [run_job] from its first commit to its end.  Of the batches handed to
    [_store_in_warehouse] those are stored for which the call returned: all
    of them with a context; without one the last call has raised and the
    others were empty. *)
Definition run_job_finish (e : env) (ctx : bool) (job_id : Z) (w : world)
    : world * option exn :=
  match jobs w !! job_id with
  | None => (w, None)
  | Some job =>
      let '(stored, r) := extract e ctx (sources w !! data_source_id job) in
      let w1 := World (jobs w) (sources w)
                  (warehouse w ++ if ctx then stored else []) (threads w) in
      match result ← r;
            commit ctx (World (<[job_id := set_completed e result job]> (jobs w))
                          (alter (set_last_sync e) (data_source_id job) (sources w))
                          (warehouse w1) (threads w)) with
      | Ok w2 => (w2, None)
      | Raise exc => run_job_failed e ctx exc job_id w1
      end
  end.

(** The whole of [run_job], when no other thread runs in between: the world
    it leaves, and the exception that ends its thread, if one does. *)
Definition run_job (e : env) (ctx : bool) (job_id : Z) (w : world) : world * option exn :=
  match run_job_start e ctx job_id w with
  | Raise exc => run_job_failed e ctx exc job_id w
  | Ok None => (w, None)
  | Ok (Some w') => run_job_finish e ctx job_id w'
  end.

Definition with_threads (ts : list thread) (w : world) : world :=
  World (jobs w) (sources w) (warehouse w) ts.

(** One step of the thread at position [n]; the thread has no application
    context. *)
Definition step (e : env) (n : nat) (w : world) : option world :=
  match threads w !! n with
  | Some (Starting job_id) =>
      match run_job_start e false job_id w with
      | Ok (Some w') => Some (with_threads (<[n := Extracting job_id]> (threads w)) w')
      | Ok None => Some (with_threads (delete n (threads w)) w)
      | Raise exc =>
          Some (with_threads (delete n (threads w)) (run_job_failed e false exc job_id w).1)
      end
  | Some (Extracting job_id) =>
      Some (with_threads (delete n (threads w)) (run_job_finish e false job_id w).1)
  | None => None
  end.

End WithRuntime.

End ETLService.

(** ** [etl_service.py]: the warehouse and the quality recommendations *)

Module Warehouse.
Import Py.

(** A row of [analytics_metrics] as [_create_analytics_metrics] fills it. *)
Record AnalyticsMetric := Metric {
  metric_name : string;
  metric_category : string;
  metric_value : float;
  metric_unit : string;
  dimension_1 : value;
  dimension_2 : value;
  dimension_3 : value
}.

Definition metric_mappings : list (string * list (string * (string * string))) :=
  [ ("accounts-payable",
     [("amount", ("financial", "CAD")); ("due_date", ("operational", "date"));
      ("status", ("operational", "status"))]);
    ("accounts-receivable",
     [("amount", ("financial", "CAD")); ("payment_date", ("operational", "date"));
      ("status", ("operational", "status"))]);
    ("cash-flow",
     [("inflow", ("financial", "CAD")); ("outflow", ("financial", "CAD"));
      ("balance", ("financial", "CAD"))]);
    ("project-management",
     [("budget", ("financial", "CAD")); ("actual_cost", ("financial", "CAD"));
      ("progress", ("operational", "percentage"))]) ].

Section WithRuntime.
Context `{Runtime}.

(** One turn of [for field, (category, unit) in mappings.items()]; [session]
    is what [db.session.add] has been given so far.  The inner [try] passes
    over a [ValueError] or a [TypeError]; anything else leaves the loop. *)
Definition add_metric (service_name : string) (endpoint record : value)
    (session : list AnalyticsMetric) (m : string * (string * string))
    : res (list AnalyticsMetric) :=
  let '(field, (category, unit)) := m in
  p ← DataValidator.present record field;
  match p with
  | Some v =>
      catch
        (value ← (match v with
                  | VBool _ | VInt _ | VFloat _ | VStr _ => py_float v
                  | _ => Ok 0%float
                  end);
         id ← get_or record "id" (VStr "");
         company_id ← get_or record "company_id" (VStr "");
         project_id ← get_or record "project_id" (VStr "");
         Ok (session
             ++ [Metric (service_name +:+ "_" +:+ py_str endpoint +:+ "_" +:+ field)
                        category value unit id company_id project_id]))
        is_value_or_type_error (λ _, Ok session)
  | None => Ok session
  end.

(** [_create_analytics_metrics]: the rows it hands to [db.session.commit()];
    none when its body raises and the session is rolled back.  Whether the
    database takes the rows is not followed. *)
Definition _create_analytics_metrics (service_name : string) (endpoint record : value)
    : list AnalyticsMetric :=
  match lookup_table metric_mappings service_name with
  | Some mappings =>
      match for_each (add_metric service_name endpoint record) mappings [] with
      | Ok session => session
      | Raise _ => []
      end
  | None => []
  end.

(** [_store_in_warehouse] on the list the transformation returns. *)
Definition _store_in_warehouse (service_name : string) (endpoint : value)
    (data : list value) : list AnalyticsMetric :=
  record ← data; _create_analytics_metrics service_name endpoint record.

End WithRuntime.

End Warehouse.

Module Quality.

Definition msg_success_rate : string :=
  "Job success rate is below 90%. Review failed jobs and improve error handling.".
Definition msg_quality_rate : string :=
  "Data quality rate is below 95%. Implement stricter validation rules.".
Definition msg_failed_jobs : string :=
  "High number of failed jobs detected. Check data source connectivity and configurations.".
Definition msg_acceptable : string :=
  "Data quality metrics are within acceptable ranges. Continue monitoring.".

(** [_generate_quality_recommendations]; the two rates are floats (the [0] of
    a period without jobs or records compares as [0.0] does). *)
Definition _generate_quality_recommendations (success_rate data_quality_rate : float)
    (failed_jobs : nat) : list string :=
  let r1 := if PrimFloat.ltb success_rate 90 then [msg_success_rate] else [] in
  let r2 := if PrimFloat.ltb data_quality_rate 95 then r1 ++ [msg_quality_rate] else r1 in
  let r3 := if (5 <? failed_jobs)%nat then r2 ++ [msg_failed_jobs] else r2 in
  match r3 with
  | [] => [msg_acceptable]
  | _ => r3
  end.

End Quality.

(** ** The vocabulary of the statements *)

Import Py Datetime.

(** A record is rejected for [msg] when it is invalid and [msg] is among its
    errors. *)
Definition rejected (msg : string) (r : DataValidator.record_result) : Prop :=
  DataValidator.rec_is_valid r = false ∧ msg ∈ DataValidator.rec_errors r.

(** A date that [strptime] does not read in the format [%Y-%m-%d]. *)
Definition not_iso `{Runtime} (s : string) : Prop := ∀ t, strptime s "%Y-%m-%d" ≠ Ok t.

(** A string in the exact format YYYY-MM-DD: four digits, a hyphen, two
    digits, a hyphen and two digits. *)
Definition exact_iso (s : string) : bool :=
  let is_digit a := bool_decide (is_Some (digit_in 0 9 a)) in
  match list_ascii_of_string s with
  | [y1; y2; y3; y4; h1; m1; m2; h2; d1; d2] =>
      forallb is_digit [y1; y2; y3; y4; m1; m2; d1; d2]
      && Ascii.eqb h1 "-" && Ascii.eqb h2 "-"
  | _ => false
  end.

(** A date that one of the formats of the type check reads. *)
Definition accepted `{Runtime} (s : string) : Prop :=
  ∃ fmt t, fmt ∈ DataValidator.date_formats ∧ strptime s fmt = Ok t.



(** A required field that a dict lacks, or has as [None] or as the empty
    string. *)
Definition missing (d : gmap string value) (field : string) : Prop :=
  match d !! field with
  | Some v => v = VNone ∨ v = VStr ""
  | None => True
  end.

(** A record result in which being valid and having no error are the same. *)
Definition coherent (r : DataValidator.record_result) : Prop :=
  DataValidator.rec_is_valid r = true ↔ DataValidator.rec_errors r = [].

(** A value whose [float] does not overflow: anything but an [int] beyond the
    range of a float. *)
Definition fits_float (v : value) : bool :=
  match v with
  | VInt z => negb (is_infinity (float_of_Z z))
  | _ => true
  end.

Definition is_dict (v : value) : bool :=
  match v with
  | VDict _ => true
  | _ => false
  end.

(** A float between 0 and 1, both included. *)
Definition in_unit_interval (x : float) : bool := PrimFloat.leb 0 x && PrimFloat.leb x 1.

(** The three fields [_transform_record] adds last. *)
Definition system_fields : list string :=
  ["_source_service"; "_transformed_at"; "_record_hash"].

(** What the specification counts for an extraction: an endpoint that answers
    200 with a payload the validation accepts counts the records of its
    transform as processed; any other endpoint counts as one failure. *)
Section Counting.
Import ETLService.
Context `{Runtime}.

Definition endpoint_records (e : env) (service_name base_url : string) (k : nat)
    (endpoint : value) : option nat :=
  match requests_get e k (base_url +:+ "/" +:+ py_str endpoint) with
  | Ok response =>
      if (status_code response =? 200)%Z then
        match json response with
        | Ok data =>
            if DataValidator.is_valid
                 (DataValidator.validate_microservice_data service_name endpoint data
                    (validator_now e k))
            then Some (length (DataTransformer.transform_microservice_data service_name
                                 endpoint data (transformer_clock e k)))
            else None
        | Raise _ => None
        end
      else None
  | Raise _ => None
  end.

Fixpoint processed_from (e : env) (service_name base_url : string) (k : nat)
    (endpoints : list value) : nat :=
  match endpoints with
  | [] => 0
  | endpoint :: endpoints' =>
      default 0 (endpoint_records e service_name base_url k endpoint)
      + processed_from e service_name base_url (S k) endpoints'
  end.

Fixpoint failed_from (e : env) (service_name base_url : string) (k : nat)
    (endpoints : list value) : nat :=
  match endpoints with
  | [] => 0
  | endpoint :: endpoints' =>
      match endpoint_records e service_name base_url k endpoint with
      | Some _ => 0
      | None => 1
      end
      + failed_from e service_name base_url (S k) endpoints'
  end.

(** The HTTP client raises nothing but a [RequestException], from [get] as
    from [json]. *)
Definition client_raises_request_exceptions (e : env) : Prop :=
  (∀ k url exc, requests_get e k url = Raise exc → is_request_exception exc = true)
  ∧ (∀ k url response exc,
       requests_get e k url = Ok response → json response = Raise exc →
       is_request_exception exc = true).

(** What it takes for the endpoint at position [k] to store the batch [b]. *)
Definition stored_from (e : env) (service_name base_url : string) (k : nat)
    (endpoint : value) (b : batch) : Prop :=
  ∃ response payload,
    requests_get e k (base_url +:+ "/" +:+ py_str endpoint) = Ok response
    ∧ status_code response = 200%Z
    ∧ json response = Ok payload
    ∧ DataValidator.is_valid
        (DataValidator.validate_microservice_data service_name endpoint payload
           (validator_now e k)) = true
    ∧ b = (service_name, endpoint,
           DataTransformer.transform_microservice_data service_name endpoint payload
             (transformer_clock e k)).

End Counting.

(** ** Worked inputs

    The records and payloads the examples below run the code on, and a runtime
    for them.  None of the examples takes the [float] of a string, the [str]
    of a float or of a container, or a rounding, so this runtime is constant
    there; its [json.loads] knows the one connection string of the examples,
    its [json.dumps] writes the flat records of the examples, its [hash] is a
    polynomial in the bytes, and its Unicode tables know the full-width digits
    and the no-break space. *)

Module Examples.
Import Py.

Definition record (fields : list (string * value)) : value := VDict (list_to_map fields).

Definition payables_connection : value :=
  record [("service_name", VStr "accounts-payable");
          ("endpoints", VList [VStr "invoices"; VStr "credits"; VStr "adjustments"])].

(** [json.dumps(v, sort_keys=True, default=str)] on a dict of strings without
    a character to escape, integers, booleans and [None]: the members in the
    order of their keys, separated by a comma and a blank. *)
Definition plain (s : string) : bool :=
  forallb (λ a, let n := nat_of_ascii a in
                (32 <=? n)%nat && (n <? 127)%nat && negb (n =? 34)%nat && negb (n =? 92)%nat)
          (list_ascii_of_string s).

Definition json_string (s : string) : option string :=
  if plain s then Some (DataValidator.quoted s) else None.

Definition json_scalar (v : value) : option string :=
  match v with
  | VNone => Some "null"
  | VBool b => Some (if b then "true" else "false")
  | VInt z => Some (pretty z)
  | VStr s => json_string s
  | VFloat _ | VList _ | VDict _ => None
  end.

Definition json_member (member : string * value) : option string :=
  key ← json_string member.1;
  text ← json_scalar member.2;
  Some (key +:+ ": " +:+ text).

Definition by_key : relation (string * value) := λ a b, String.leb a.1 b.1 = true.

#[local] Instance by_key_dec : RelDecision by_key :=
  λ a b, decide (String.leb a.1 b.1 = true).

Definition json_dumps (v : value) : option string :=
  match v with
  | VDict d =>
      members ← mapM json_member (merge_sort by_key (map_to_list d));
      Some ("{" +:+ String.concat ", " members +:+ "}")
  | _ => json_scalar v
  end.

Definition polynomial_hash (s : string) : Z :=
  foldl (λ h a, (h * 31 + Z.of_nat (nat_of_ascii a)) mod 2305843009213693951)%Z 7%Z
        (list_ascii_of_string s).

(** The full-width digits U+FF10 to U+FF19 are the bytes EF BC 90 to
    EF BC 99, and the no-break space U+00A0 is C2 A0. *)
Definition full_width_digit (s : string) : option (Z * string) :=
  match s with
  | String a (String b (String c rest)) =>
      let n := nat_of_ascii c in
      if (nat_of_ascii a =? 239)%nat && (nat_of_ascii b =? 188)%nat
         && (144 <=? n)%nat && (n <=? 153)%nat
      then Some (Z.of_nat n - 144, rest)%Z
      else None
  | _ => None
  end.

Definition no_break_space (s : string) : option string :=
  match s with
  | String a (String b rest) =>
      if (nat_of_ascii a =? 194)%nat && (nat_of_ascii b =? 160)%nat then Some rest else None
  | _ => None
  end.

#[local] Instance runtime : Runtime := {|
  float_of_str := λ _, None;
  repr := λ _, "?";
  exn_str := λ e,
    match e with
    | TypeError => "TypeError"
    | ValueError => "ValueError"
    | KeyError => "KeyError"
    | AttributeError => "AttributeError"
    | OverflowError => "OverflowError"
    | RuntimeError => "RuntimeError"
    | RequestException => "RequestException"
    end;
  hash := polynomial_hash;
  json_dumps_sorted := json_dumps;
  json_loads := λ s, if String.eqb s "payables" then Some payables_connection else None;
  isoformat := λ t, pretty t;
  round2 := λ x, x;
  unicode_decimal := full_width_digit;
  unicode_space := no_break_space
|}.

(** A payable that meets every rule but the pattern of [status]. *)
Definition overdue_payable : value :=
  record [("id", VStr "p1"); ("amount", VInt 100); ("due_date", VStr "2030-01-01");
          ("supplier_id", VStr "s1"); ("status", VStr "overdue")].

(** A project whose dates are written day first and whose end is before its
    start, and the same project with the dates as [%Y-%m-%d] reads them. *)
Definition slash_project : gmap string value :=
  list_to_map [("id", VStr "j1"); ("name", VStr "Bridge");
               ("start_date", VStr "25/12/2024"); ("end_date", VStr "24/12/2024")].

Definition iso_project : gmap string value :=
  list_to_map [("id", VStr "j1"); ("name", VStr "Bridge");
               ("start_date", VStr "2024-12-25"); ("end_date", VStr "2024-12-24")].

(** The project and a pending payable with dates that are not padded, a
    project whose dates have a time of day, and a project whose years are
    written in full-width digits. *)
Definition short_project : gmap string value :=
  list_to_map [("id", VStr "j2"); ("name", VStr "Bridge");
               ("start_date", VStr "2024-1-5"); ("end_date", VStr "2024-1-4")].

Definition short_payable : gmap string value :=
  list_to_map [("id", VStr "p6"); ("amount", VInt 100); ("due_date", VStr "2020-1-5");
               ("supplier_id", VStr "s1"); ("status", VStr "pending")].

Definition timed_project : gmap string value :=
  list_to_map [("id", VStr "j3"); ("name", VStr "Bridge");
               ("start_date", VStr "2024-12-25 08:00:00");
               ("end_date", VStr "2024-12-24 08:00:00")].

Definition full_width (d : nat) : string :=
  String (ascii_of_nat 239) (String (ascii_of_nat 188)
    (String (ascii_of_nat (144 + d)) EmptyString)).

Definition full_width_2024 : string :=
  full_width 2 +:+ full_width 0 +:+ full_width 2 +:+ full_width 4.

Definition full_width_project : gmap string value :=
  list_to_map [("id", VStr "j4"); ("name", VStr "Bridge");
               ("start_date", VStr (full_width_2024 +:+ "-12-25"));
               ("end_date", VStr (full_width_2024 +:+ "-12-24"))].

(** A pending payable that was due on 01/02/2020, day first. *)
Definition slash_payable : gmap string value :=
  list_to_map [("id", VStr "p2"); ("amount", VInt 100); ("due_date", VStr "01/02/2020");
               ("supplier_id", VStr "s1"); ("status", VStr "pending")].

(** The payable of the scenario: 150000, due on 2024-05-22, overdue. *)
Definition late_payable : value :=
  record [("id", VStr "p1"); ("amount", VInt 150000); ("due_date", VStr "2024-05-22");
          ("status", VStr "overdue"); ("supplier_id", VStr "s1")].

(** What [json.dumps(late_payable, sort_keys=True, default=str)] is. *)
Definition late_payable_json : string :=
  let q := DataValidator.quoted in
  "{" +:+ q "amount" +:+ ": 150000, " +:+ q "due_date" +:+ ": " +:+ q "2024-05-22"
  +:+ ", " +:+ q "id" +:+ ": " +:+ q "p1" +:+ ", " +:+ q "status" +:+ ": " +:+ q "overdue"
  +:+ ", " +:+ q "supplier_id" +:+ ": " +:+ q "s1" +:+ "}".

(** A receivable of 600000 and nothing else. *)
Definition large_receivable : value := VDict {["amount" := VInt 600000]}.

(** A record that brings its own [risk_score] and [payable_id]. *)
Definition scored_record : gmap string value :=
  list_to_map [("risk_score", VStr "high"); ("payable_id", VStr "x")].

(** A company, from a service without transformation rules. *)
Definition a_company : value := record [("id", VStr "c1"); ("name", VStr "Acme")].

Definition still_clock : DataTransformer.clock :=
  DataTransformer.Clock (λ _ _, 63852796800000000%Z) (λ _, 63852796800000000%Z).

(** The scenario of the three endpoints: the first answers 200 with five
    valid payables, the second answers 500, the third answers 200 with five
    payables of which one has a status outside the pattern. *)
Definition payable (id status : string) : value :=
  record [("id", VStr id); ("amount", VInt 100); ("due_date", VStr "2030-01-01");
          ("supplier_id", VStr "s1"); ("status", VStr status)].

Definition five_valid : value :=
  VList [payable "1" "paid"; payable "2" "paid"; payable "3" "approved";
         payable "4" "pending"; payable "5" "paid"].


Definition one_in_five_invalid : value :=
  VList [payable "6" "paid"; payable "7" "paid"; payable "8" "paid";
         payable "9" "paid"; payable "10" "overdue"].

Definition scenario : ETLService.env :=
  ETLService.Env
    (λ k _,
       match k with
       | 0 => Ok (ETLService.Response 200 (Ok five_valid))
       | 1 => Ok (ETLService.Response 500 (Ok VNone))
       | _ => Ok (ETLService.Response 200 (Ok one_in_five_invalid))
       end)
    (λ _ _, 63852796800000000%Z) (λ _, still_clock)
    63852796800000000%Z 63852796800000000%Z 63852796800000000%Z.

Definition pending_job : ETLService.ETLJob :=
  ETLService.Job 1 "pending" 0 0 None None None None.

Definition payables_source : ETLService.DataSource :=
  ETLService.Source "microservice" "payables" None.

(** One pending job, number 7, on the payables. *)
Definition one_pending_job : ETLService.world :=
  ETLService.World {[ 7%Z := pending_job ]} {[ 1%Z := payables_source ]} [] [].

(** A payable without its supplier, one with a due date that is no date, and
    a refund. *)
Definition no_supplier : gmap string value :=
  list_to_map [("id", VStr "p3"); ("amount", VInt 100); ("due_date", VStr "2030-01-01");
               ("status", VStr "paid")].

Definition due_tomorrow : value :=
  record [("id", VStr "p4"); ("amount", VInt 100); ("due_date", VStr "tomorrow");
          ("supplier_id", VStr "s1"); ("status", VStr "paid")].

Definition refund : gmap string value :=
  list_to_map [("id", VStr "p5"); ("amount", VInt (-5)); ("due_date", VStr "2030-01-01");
               ("supplier_id", VStr "s1"); ("status", VStr "paid")].

(** A receivable that was paid, one without a status, and one that was due
    on 2024-05-01. *)
Definition paid_receivable : gmap string value :=
  list_to_map [("id", VStr "r1"); ("amount", VInt 600000); ("status", VStr "PAID")].

Definition null_status : gmap string value :=
  list_to_map [("id", VStr "r2"); ("amount", VInt 5); ("status", VNone)].

Definition due_in_may : value := VDict {["payment_date" := VStr "2024-05-01"]}.

(** 2024-06-01T00:00:00, as microseconds since 0001-01-01. *)
Definition a_day : Z := 63852796800000000.

End Examples.

(** * Properties *)

(** ** The result monad *)

Lemma bind_Ok {A B} (m : res A) (f : A → res B) (b : B) :
  m ≫= f = Ok b ↔ ∃ a, m = Ok a ∧ f a = Ok b.
Proof.
  destruct m as [a|e]; simpl; split.
  - intros Hf. by exists a.
  - by intros (a' & [= <-] & Hf).
  - done.
  - by intros (a' & [=] & _).
Qed.

(** Takes apart a hypothesis that says a sequence of calls has returned. *)
Ltac returned H :=
  repeat match type of H with
  | _ ≫= _ = Ok _ =>
      let a := fresh "a" in
      let Ha := fresh "Ha" in
      apply bind_Ok in H as (a & Ha & H)
  end.

(** A loop over a rule table keeps what holds of the state once and is kept by
    every turn. *)
Lemma for_each_invariant {A S} (body : S → A → res S) (P : S → Prop) (l : list A) :
  (∀ s x s', x ∈ l → body s x = Ok s' → P s → P s') →
  ∀ s s', for_each body l s = Ok s' → P s → P s'.
Proof.
  induction l as [|x l IH]; intros Hbody s s' Hrun Hs; simpl in Hrun.
  - by injection Hrun as <-.
  - returned Hrun. eapply IH; [|exact Hrun|].
    + intros s0 y s0' Hy. apply Hbody. by right.
    + eapply Hbody; [by left|exact Ha|exact Hs].
Qed.

(** ... and reaches what one turn establishes and the others keep. *)
Lemma for_each_reaches {A S} (body : S → A → res S) (P : S → Prop) (l : list A) (x : A) :
  x ∈ l →
  (∀ s s', body s x = Ok s' → P s') →
  (∀ s y s', body s y = Ok s' → P s → P s') →
  ∀ s s', for_each body l s = Ok s' → P s'.
Proof.
  intros Hx Hhit Hkeep. induction l as [|y l IH]; intros s s' Hrun.
  - by apply elem_of_nil in Hx.
  - simpl in Hrun. returned Hrun. apply elem_of_cons in Hx as [->|Hx].
    + eapply for_each_invariant; [|exact Hrun|by eapply Hhit].
      intros s0 z s0' _. apply Hkeep.
    + by eapply IH.
Qed.

(** ** The validator *)

Section Validator.
Import DataValidator.
Context `{Runtime}.

Lemma rejected_invalidate msg r : rejected msg (invalidate msg r).
Proof. split; [done|]. simpl. apply elem_of_app. right. by left. Qed.

Lemma rejected_invalidate_other msg msg' r : rejected msg r → rejected msg (invalidate msg' r).
Proof. intros [_ Hin]. split; [done|]. simpl. apply elem_of_app. by left. Qed.

Lemma check_range_keeps msg i record r rule r' :
  check_range i record r rule = Ok r' → rejected msg r → rejected msg r'.
Proof.
  destruct rule as [field cfg]. unfold check_range. intros Hrun Hr. returned Hrun.
  destruct a as [v|]; [|by injection Hrun as <-].
  destruct (py_float v) as [value|e]; simpl in Hrun.
  - injection Hrun as <-.
    destruct (range_min cfg), (range_max cfg);
      repeat case_match; auto using rejected_invalidate_other.
  - destruct (is_value_or_type_error e); [|done].
    injection Hrun as <-. by apply rejected_invalidate_other.
Qed.

Lemma check_pattern_keeps msg i record r rule r' :
  check_pattern i record r rule = Ok r' → rejected msg r → rejected msg r'.
Proof.
  destruct rule as [field pattern]. unfold check_pattern. intros Hrun Hr. returned Hrun.
  injection Hrun as <-. repeat case_match; auto using rejected_invalidate_other.
Qed.





End Validator.

Section Verdicts.
Import DataValidator.
Context `{Runtime}.

Lemma validate_records_bounded service_name now records : ∀ i v v',
  validate_records service_name now i records v = Ok v' →
  records_failed v ≤ records_validated v →
  records_failed v' ≤ records_validated v'.
Proof.
  induction records as [|record records IH]; intros i v v' Hrun Hle; simpl in Hrun.
  - by injection Hrun as <-.
  - returned Hrun. apply IH in Hrun; [done|]. simpl. case_match; lia.
Qed.



End Verdicts.


(** C2 (as the code has it).  The empty list is no data: the guard
    [if not data] answers it with the error [No data received].  An empty
    sequence of records inside the wrapper [{'data': []}] gets the verdict
    without findings. *)
Theorem C2_empty_payloads `{Runtime} (service_name : string) (endpoint : value)
    (now : nat → Z) :
  DataValidator.validate_microservice_data service_name endpoint (VList []) now
    = DataValidator.Verdict false ["No data received"] [] 0 0
  ∧ DataValidator.validate_microservice_data service_name endpoint
      (VDict {["data" := VList []]}) now
    = DataValidator.Verdict true [] [] 0 0.
Proof.
  split; [done|].
  unfold DataValidator.validate_microservice_data, DataValidator.validate_payload.
  assert (truthy (VDict {["data" := VList []]}) = true) as ->.
  { simpl. apply negb_true_iff, bool_decide_eq_false. intros Hempty.
    by apply (f_equal (λ m : gmap string value, m !! "data")) in Hempty. }
  cbn [negb payload_records]. by rewrite lookup_singleton_eq.
Qed.

(** C9.  [validate_microservice_data] returns a verdict on every input: an
    exception of its body becomes the verdict with the one error
    [Validation error: ...] and no record counted, and no verdict has more
    failed records than validated ones. *)
Theorem C9_validation_always_returns_a_verdict `{Runtime} (service_name : string)
    (endpoint data : value) (now : nat → Z) :
  let verdict := DataValidator.validate_microservice_data service_name endpoint data now in
  DataValidator.records_failed verdict ≤ DataValidator.records_validated verdict
  ∧ ∀ e, DataValidator.validate_payload service_name endpoint data now = Raise e →
         verdict = DataValidator.Verdict false ["Validation error: " +:+ exn_str e] [] 0 0.
Proof.
  cbn zeta. unfold DataValidator.validate_microservice_data. split.
  - destruct (DataValidator.validate_payload _ _ _ _) as [verdict|e] eqn:Hrun; [|done].
    unfold DataValidator.validate_payload in Hrun.
    destruct (negb (truthy data)); [by injection Hrun as <-|].
    destruct (payload_records data) as [records|]; [|by injection Hrun as <-].
    returned Hrun.
    apply validate_records_bounded in Ha; [|done].
    injection Hrun as <-. by case_match.
  - by intros e ->.
Qed.

Section Worked.
Import DataValidator Examples.
#[local] Existing Instance Examples.runtime.



(** C2, as stated, fails: the empty list is rejected. *)
Lemma C2_empty_list_counterexample :
  validate_microservice_data "accounts-payable" (VStr "invoices") (VList []) (λ _, a_day)
    = Verdict false ["No data received"] [] 0 0.
Proof. reflexivity. Qed.

(** C9, witness: a payload whose record is a number makes the body raise. *)
Lemma C9_validation_witness :
  validate_payload "accounts-payable" (VStr "invoices") (VList [VInt 1]) (λ _, a_day)
    = Raise TypeError
  ∧ validate_microservice_data "accounts-payable" (VStr "invoices") (VList [VInt 1])
      (λ _, a_day)
    = Verdict false ["Validation error: TypeError"] [] 0 0.
Proof.
  split; [reflexivity|].
  exact (proj2 (C9_validation_always_returns_a_verdict "accounts-payable"
                  (VStr "invoices") (VList [VInt 1]) (λ _, a_day)) TypeError eq_refl).
Defined.

End Worked.

(** ** The date checks of the business logic *)

Section BusinessDates.
Import DataValidator.
Context `{Runtime}.

Lemma strptime_raises s fmt e : strptime s fmt = Raise e → e = ValueError.
Proof. unfold strptime, datetime. repeat case_match; congruence. Qed.

Lemma append_cancel (p a b : string) : p +:+ a = p +:+ b → a = b.
Proof. induction p as [|c p IH]; simpl; [done|]. intros [= Heq]. by apply IH. Qed.

Lemma lift_Ok_bind {A B} (a : A) (f : A → checked B) : lift (Ok a) ≫= f = f a.
Proof. unfold lift, mbind, checked_bind. simpl. by destruct (f a) as [[] ?]. Qed.

Lemma lift_Raise_bind {A B} (e : exn) (f : A → checked B) :
  lift (Raise e) ≫= f = Checked no_findings (Raise e).
Proof. done. Qed.

Lemma contains_dict (d : gmap string value) (key : string) :
  contains (VDict d) key = Ok (match d !! key with Some _ => true | None => false end).
Proof. unfold contains. by destruct (d !! key). Qed.

Lemma getitem_dict (d : gmap string value) (key : string) (v : value) :
  d !! key = Some v → getitem (VDict d) key = Ok v.
Proof. unfold getitem. by intros ->. Qed.

(** On a dict the two date checks read the date fields and nothing else. *)
Lemma end_date_check_dict (d : gmap string value) i :
  end_date_check (VDict d) i =
    match d !! "start_date", d !! "end_date" with
    | Some v1, Some v2 =>
        try_pass
          (start_date ← lift (strptime_value v1 "%Y-%m-%d");
           end_date ← lift (strptime_value v2 "%Y-%m-%d");
           if (end_date <=? start_date)%Z then append_error (msg_end_date i) else pass)
          is_value_error
    | _, _ => pass
    end.
Proof.
  unfold end_date_check. rewrite !contains_dict.
  destruct (d !! "start_date") as [v1|] eqn:H1; rewrite lift_Ok_bind; cbn iota;
    [|by rewrite lift_Ok_bind].
  destruct (d !! "end_date") as [v2|] eqn:H2; rewrite lift_Ok_bind; [|done].
  rewrite (getitem_dict _ _ _ H1), lift_Ok_bind. f_equal.
  destruct (strptime_value v1 _); [|done]. rewrite !lift_Ok_bind.
  by rewrite (getitem_dict _ _ _ H2), lift_Ok_bind.
Qed.

Lemma due_date_check_dict (d : gmap string value) i now :
  due_date_check (VDict d) i now =
    match d !! "due_date" with
    | Some v =>
        if eq_str (default VNone (d !! "status")) "pending" then
          try_pass
            (due_date ← lift (strptime_value v "%Y-%m-%d");
             if (due_date <? now)%Z then append_warning (msg_past_due i) else pass)
            is_value_error
        else pass
    | None => pass
    end.
Proof.
  unfold due_date_check, get, get_or. rewrite lift_Ok_bind.
  destruct (eq_str _ "pending"); rewrite ?contains_dict, !lift_Ok_bind; [|by case_match].
  destruct (d !! "due_date") as [v|] eqn:Hv; [|done].
  by rewrite (getitem_dict _ _ _ Hv), lift_Ok_bind.
Qed.

(** A date that [strptime] does not read in the format [%Y-%m-%d] ends the
    [try] of its check by the [ValueError] that the check passes over. *)
Lemma strptime_not_iso s : not_iso s → strptime s "%Y-%m-%d" = Raise ValueError.
Proof.
  intros Hno. destruct (strptime s "%Y-%m-%d") as [t|e] eqn:Hs.
  - by destruct (Hno t).
  - by rewrite (strptime_raises _ _ _ Hs).
Qed.

Lemma end_date_check_skips (d : gmap string value) i s1 s2 :
  d !! "start_date" = Some (VStr s1) →
  d !! "end_date" = Some (VStr s2) →
  not_iso s1 ∨ not_iso s2 →
  end_date_check (VDict d) i = pass.
Proof.
  intros H1 H2 Hno. rewrite end_date_check_dict, H1, H2. cbn [strptime_value].
  destruct (strptime s1 "%Y-%m-%d") as [t1|e1] eqn:Hs1.
  - destruct Hno as [Hno|Hno]; [by destruct (Hno t1)|].
    rewrite lift_Ok_bind, (strptime_not_iso _ Hno). done.
  - by rewrite (strptime_raises _ _ _ Hs1).
Qed.

Lemma due_date_check_skips (d : gmap string value) i now s :
  d !! "due_date" = Some (VStr s) →
  not_iso s →
  due_date_check (VDict d) i now = pass.
Proof.
  intros Hd Hno. rewrite due_date_check_dict, Hd. cbn [strptime_value].
  rewrite (strptime_not_iso _ Hno). by case_match.
Qed.

(** The other checks of the two services do not look at the date fields. *)
Lemma budget_check_dict (d d' : gmap string value) i :
  d' !! "budget" = d !! "budget" →
  d' !! "actual_cost" = d !! "actual_cost" →
  budget_check (VDict d') i = budget_check (VDict d) i.
Proof.
  intros Hb Hc. unfold budget_check, getitem. by rewrite !contains_dict, Hb, Hc.
Qed.

Lemma positive_amount_check_dict (d d' : gmap string value) i :
  d' !! "amount" = d !! "amount" →
  positive_amount_check (VDict d') i = positive_amount_check (VDict d) i.
Proof.
  intros Ha. unfold positive_amount_check, getitem. by rewrite !contains_dict, Ha.
Qed.

Lemma pass_bind {B} (f : unit → checked B) : pass ≫= f = f tt.
Proof. unfold pass, mret, checked_ret, mbind, checked_bind. simpl. by destruct (f tt) as [[] ?]. Qed.

(** The errors of the business logic are those its body has appended. *)
Lemma business_errors service_name record i now :
  f_errors (_validate_business_logic service_name record i now)
  = f_errors (emitted (business_checks service_name record i now)).
Proof.
  unfold _validate_business_logic. case_match; [done|]. simpl. apply app_nil_r.
Qed.

Lemma bind_errors {A B} (m : checked A) (f : A → checked B) msg :
  msg ∈ f_errors (emitted (m ≫= f)) →
  msg ∈ f_errors (emitted m) ∨ ∃ a, outcome m = Ok a ∧ msg ∈ f_errors (emitted (f a)).
Proof.
  unfold mbind, checked_bind. destruct (outcome m) as [a|e]; simpl; [|by left].
  intros [?|?]%elem_of_app; [by left|right]. by exists a.
Qed.

Lemma bind_warnings {A B} (m : checked A) (f : A → checked B) msg :
  msg ∈ f_warnings (emitted (m ≫= f)) →
  msg ∈ f_warnings (emitted m) ∨ ∃ a, outcome m = Ok a ∧ msg ∈ f_warnings (emitted (f a)).
Proof.
  unfold mbind, checked_bind. destruct (outcome m) as [a|e]; simpl; [|by left].
  intros [?|?]%elem_of_app; [by left|right]. by exists a.
Qed.

Lemma try_pass_emitted body classes : emitted (try_pass body classes) = emitted body.
Proof. unfold try_pass. by repeat case_match. Qed.

Lemma lift_emitted {A} (r : res A) : emitted (lift r) = no_findings.
Proof. done. Qed.

(** Walks through a check: each call that may raise either returned or ended
    the check. *)
Ltac walk :=
  repeat first
    [ rewrite try_pass_emitted
    | match goal with
      | |- context [lift ?r ≫= _] =>
          destruct r eqn:?; [rewrite lift_Ok_bind | rewrite lift_Raise_bind]
      end
    | case_match ].

Lemma budget_check_no_error record i : f_errors (emitted (budget_check record i)) = [].
Proof. unfold budget_check. by walk. Qed.

Lemma positive_amount_check_no_warning record i :
  f_warnings (emitted (positive_amount_check record i)) = [].
Proof. unfold positive_amount_check. by walk. Qed.

(** The end-date error is appended only after both dates were read in the
    format [%Y-%m-%d]. *)
Lemma end_date_error_only_iso record i msg :
  msg ∈ f_errors (emitted (end_date_check record i)) →
  ∃ s1 s2 t1 t2,
    getitem record "start_date" = Ok (VStr s1) ∧ getitem record "end_date" = Ok (VStr s2)
    ∧ strptime s1 "%Y-%m-%d" = Ok t1 ∧ strptime s2 "%Y-%m-%d" = Ok t2
    ∧ (t2 ≤ t1)%Z.
Proof.
  unfold end_date_check. walk; try (by intros ?%elem_of_nil); try discriminate.
  intros _.
  repeat match goal with
  | Hv : strptime_value ?v _ = Ok _ |- _ =>
      destruct v; try discriminate Hv; cbn [strptime_value] in Hv
  end.
  eexists _, _, _, _. repeat split; try eassumption. by apply Z.leb_le.
Qed.

(** The past-due warning is appended only after the due date was read in the
    format [%Y-%m-%d]. *)
Lemma past_due_warning_only_iso record i now msg :
  msg ∈ f_warnings (emitted (due_date_check record i now)) →
  ∃ s t,
    getitem record "due_date" = Ok (VStr s) ∧ strptime s "%Y-%m-%d" = Ok t ∧ (t < now)%Z.
Proof.
  unfold due_date_check. walk; try (by intros ?%elem_of_nil); try discriminate.
  intros _.
  repeat match goal with
  | Hv : strptime_value ?v _ = Ok _ |- _ =>
      destruct v; try discriminate Hv; cbn [strptime_value] in Hv
  end.
  eexists _, _. repeat split; try eassumption. by apply Z.ltb_lt.
Qed.

Lemma msg_past_due_not_business i e : msg_past_due i ≠ msg_business i e.
Proof. unfold msg_past_due, msg_business. by intros ?%append_cancel. Qed.

Lemma accepted_type_check s : accepted s → _validate_field_type (VStr s) "date" = true.
Proof.
  intros (fmt & t & Hfmt & Hs). unfold _validate_field_type. cbn [String.eqb Ascii.eqb Bool.eqb].
  apply existsb_exists. exists fmt. split; [by apply list_elem_of_In|]. by rewrite Hs.
Qed.

Lemma business_checks_project record i now :
  business_checks "project-management" record i now
  = (end_date_check record i ≫= λ _, budget_check record i).
Proof. done. Qed.

Lemma business_checks_payable record i now :
  business_checks "accounts-payable" record i now
  = (due_date_check record i now ≫= λ _, positive_amount_check record i).
Proof. done. Qed.

Lemma project_dates_skipped (d : gmap string value) i now s1 s2 :
  d !! "start_date" = Some (VStr s1) →
  d !! "end_date" = Some (VStr s2) →
  not_iso s1 ∨ not_iso s2 →
  _validate_business_logic "project-management" (VDict d) i now
  = _validate_business_logic "project-management"
      (VDict (delete "start_date" (delete "end_date" d))) i now.
Proof.
  intros H1 H2 Hno. unfold _validate_business_logic.
  rewrite !business_checks_project, (end_date_check_skips _ _ _ _ H1 H2 Hno).
  rewrite end_date_check_dict, lookup_delete_eq, !pass_bind.
  by rewrite (budget_check_dict d (delete "start_date" (delete "end_date" d)))
    by (by rewrite !lookup_delete_ne).
Qed.

Lemma payable_date_skipped (d : gmap string value) i now s :
  d !! "due_date" = Some (VStr s) →
  not_iso s →
  _validate_business_logic "accounts-payable" (VDict d) i now
  = _validate_business_logic "accounts-payable" (VDict (delete "due_date" d)) i now.
Proof.
  intros Hd Hno. unfold _validate_business_logic.
  rewrite !business_checks_payable, (due_date_check_skips _ _ _ _ Hd Hno).
  rewrite due_date_check_dict, lookup_delete_eq, !pass_bind.
  by rewrite (positive_amount_check_dict d (delete "due_date" d))
    by (by rewrite !lookup_delete_ne).
Qed.

End BusinessDates.

(** C10 (as the code has it).  The end-date error of a project and the
    past-due warning of a payable appear only when [strptime] has read the
    dates in the format [%Y-%m-%d], which is more than the strings of the
    shape YYYY-MM-DD.  A date that [%Y-%m-%d] does not read and another of the
    formats of the type check does passes the type check, and the business
    logic then finds what it finds on the record without its date fields: the
    date check adds no error and no warning. *)
Theorem C10_date_checks_read_iso_dates_only `{Runtime} (i : nat) (now : Z) :
  (∀ record,
     DataValidator.msg_end_date i
       ∈ DataValidator.f_errors
           (DataValidator._validate_business_logic "project-management" record i now) →
     ∃ s1 s2 t1 t2,
       getitem record "start_date" = Ok (VStr s1) ∧ getitem record "end_date" = Ok (VStr s2)
       ∧ strptime s1 "%Y-%m-%d" = Ok t1 ∧ strptime s2 "%Y-%m-%d" = Ok t2)
  ∧ (∀ record,
       DataValidator.msg_past_due i
         ∈ DataValidator.f_warnings
             (DataValidator._validate_business_logic "accounts-payable" record i now) →
       ∃ s t, getitem record "due_date" = Ok (VStr s) ∧ strptime s "%Y-%m-%d" = Ok t)
  ∧ (∀ (d : gmap string value) s1 s2,
       d !! "start_date" = Some (VStr s1) → d !! "end_date" = Some (VStr s2) →
       accepted s1 → accepted s2 → not_iso s1 ∨ not_iso s2 →
       DataValidator._validate_field_type (VStr s1) "date" = true
       ∧ DataValidator._validate_field_type (VStr s2) "date" = true
       ∧ DataValidator._validate_business_logic "project-management" (VDict d) i now
         = DataValidator._validate_business_logic "project-management"
             (VDict (delete "start_date" (delete "end_date" d))) i now)
  ∧ (∀ (d : gmap string value) s,
       d !! "due_date" = Some (VStr s) → accepted s → not_iso s →
       DataValidator._validate_field_type (VStr s) "date" = true
       ∧ DataValidator._validate_business_logic "accounts-payable" (VDict d) i now
         = DataValidator._validate_business_logic "accounts-payable"
             (VDict (delete "due_date" d)) i now).
Proof.
  repeat split.
  - intros record. rewrite business_errors, business_checks_project.
    intros [Hin|(_ & _ & Hin)]%bind_errors.
    + apply end_date_error_only_iso in Hin as (s1 & s2 & t1 & t2 & ? & ? & ? & ? & _).
      by exists s1, s2, t1, t2.
    + rewrite budget_check_no_error in Hin. by apply elem_of_nil in Hin.
  - intros record. unfold DataValidator._validate_business_logic.
    rewrite business_checks_payable.
    assert (DataValidator.msg_past_due i
              ∈ DataValidator.f_warnings
                  (DataValidator.emitted
                     (DataValidator.due_date_check record i now
                      ≫= λ _, DataValidator.positive_amount_check record i)) →
            ∃ s t, getitem record "due_date" = Ok (VStr s) ∧ strptime s "%Y-%m-%d" = Ok t)
      as Hbody.
    { intros [Hin|(_ & _ & Hin)]%bind_warnings.
      - apply past_due_warning_only_iso in Hin as (s & t & ? & ? & _). by exists s, t.
      - rewrite positive_amount_check_no_warning in Hin. by apply elem_of_nil in Hin. }
    case_match; [done|]. simpl. intros [Hin|Hin]%elem_of_app; [by apply Hbody|].
    apply list_elem_of_singleton in Hin. by apply msg_past_due_not_business in Hin.
  - by apply accepted_type_check.
  - by apply accepted_type_check.
  - by eapply project_dates_skipped.
  - by apply accepted_type_check.
  - by eapply payable_date_skipped.
Qed.

Section WorkedDates.
Import DataValidator Examples.
#[local] Existing Instance Examples.runtime.

Lemma day_first_accepted : accepted "25/12/2024" ∧ accepted "24/12/2024" ∧ accepted "01/02/2020".
Proof.
  repeat split; exists "%d/%m/%Y"; eexists;
    (split; [do 4 right; left | vm_compute; reflexivity]).
Defined.

Lemma day_first_not_iso : not_iso "25/12/2024" ∧ not_iso "24/12/2024" ∧ not_iso "01/02/2020".
Proof. repeat split; intros t; vm_compute; discriminate. Defined.

(** C10, witness: the project and the payable with day-first dates. *)
Lemma C10_date_checks_witness :
  (_validate_field_type (VStr "25/12/2024") "date" = true
   ∧ _validate_field_type (VStr "24/12/2024") "date" = true
   ∧ _validate_business_logic "project-management" (VDict slash_project) 0 a_day
     = _validate_business_logic "project-management"
         (VDict (delete "start_date" (delete "end_date" slash_project))) 0 a_day)
  ∧ (_validate_field_type (VStr "01/02/2020") "date" = true
     ∧ _validate_business_logic "accounts-payable" (VDict slash_payable) 0 a_day
       = _validate_business_logic "accounts-payable"
           (VDict (delete "due_date" slash_payable)) 0 a_day).
Proof.
  destruct (C10_date_checks_read_iso_dates_only 0 a_day) as (_ & _ & Hproject & Hpayable).
  destruct day_first_accepted as (Ha1 & Ha2 & Ha3).
  destruct day_first_not_iso as (Hn1 & Hn2 & Hn3).
  split.
  - apply (Hproject slash_project "25/12/2024" "24/12/2024");
      [vm_compute; reflexivity | vm_compute; reflexivity | exact Ha1 | exact Ha2 | by left].
  - apply (Hpayable slash_payable "01/02/2020");
      [vm_compute; reflexivity | exact Ha3 | exact Hn3].
Defined.

(** C10, as stated, fails: the dates [2024-1-5], [2024-1-4] and [2020-1-5]
    are not of the shape YYYY-MM-DD, and both date checks are evaluated on
    them: the project gets the end-date error and the pending payable the
    past-due warning. *)
Lemma C10_exact_format_counterexample :
  exact_iso "2024-1-5" = false
  ∧ exact_iso "2024-1-4" = false
  ∧ exact_iso "2020-1-5" = false
  ∧ _validate_business_logic "project-management" (VDict short_project) 0 a_day
    = Findings [msg_end_date 0] []
  ∧ _validate_business_logic "accounts-payable" (VDict short_payable) 0 a_day
    = Findings [] [msg_past_due 0].
Proof. split_and!; vm_compute; reflexivity. Qed.

(** A date with a time of day is accepted by the type check and not read by
    [%Y-%m-%d]: the project passes in silence. *)
Example timed_project_passes :
  _validate_field_type (VStr "2024-12-25 08:00:00") "date" = true
  ∧ strptime "2024-12-25 08:00:00" "%Y-%m-%d" = Raise ValueError
  ∧ _validate_business_logic "project-management" (VDict timed_project) 0 a_day
    = Findings [] [].
Proof. split_and!; vm_compute; reflexivity. Qed.

(** [\d] reads the digits of every script: a year in full-width digits is
    read, and the project is rejected as with ASCII digits. *)
Example full_width_project_is_rejected :
  strptime (full_width_2024 +:+ "-12-25") "%Y-%m-%d" = strptime "2024-12-25" "%Y-%m-%d"
  ∧ _validate_business_logic "project-management" (VDict full_width_project) 0 a_day
    = Findings [msg_end_date 0] [].
Proof. split_and!; vm_compute; reflexivity. Qed.

(** The same project is rejected when its dates are written year first, and
    passes in silence when they are written day first; the payable that was
    due four years ago gets no warning. *)
Example iso_project_is_rejected :
  _validate_business_logic "project-management" (VDict iso_project) 0 a_day
  = Findings [msg_end_date 0] [].
Proof. vm_compute. reflexivity. Qed.

Example slash_project_passes :
  _validate_business_logic "project-management" (VDict slash_project) 0 a_day
  = Findings [] [].
Proof. vm_compute. reflexivity. Qed.

Example slash_payable_passes :
  _validate_business_logic "accounts-payable" (VDict slash_payable) 0 a_day
  = Findings [] [].
Proof. vm_compute. reflexivity. Qed.

Example a_day_is_the_first_of_june : strptime "2024-06-01" "%Y-%m-%d" = Ok a_day.
Proof. vm_compute. reflexivity. Qed.

End WorkedDates.

(** ** The transformer *)

Section Scores.
Import DataTransformer.
Context `{Runtime}.

(** Each factor leaves the score or adds one of its weights. *)
Lemma risk_amount_factor_values record s s' :
  risk_amount_factor record s = Ok s' →
  s' ∈ [s; (s + 0.3)%float; (s + 0.2)%float; (s + 0.1)%float].
Proof.
  unfold risk_amount_factor. intros Hrun. returned Hrun.
  destruct a as [v|]; [|injection Hrun as <-; set_solver].
  returned Hrun. injection Hrun as <-. repeat case_match; set_solver.
Qed.

Lemma risk_due_date_factor_values record now s s' :
  risk_due_date_factor record now s = Ok s' →
  s' ∈ [s; (s + 0.4)%float; (s + 0.2)%float; (s + 0.1)%float].
Proof.
  unfold risk_due_date_factor. intros Hrun. returned Hrun.
  destruct a as [v|]; [|injection Hrun as <-; set_solver].
  destruct (strptime_value v "%Y-%m-%d") as [due_date|e]; simpl in Hrun.
  - injection Hrun as <-. repeat case_match; set_solver.
  - destruct (is_value_error e); [|done]. injection Hrun as <-. set_solver.
Qed.

Lemma risk_status_factor_values record s s' :
  risk_status_factor record s = Ok s' →
  s' ∈ [s; (s + 0.3)%float; (s + 0.1)%float].
Proof.
  unfold risk_status_factor. intros Hrun. returned Hrun.
  destruct a; [|injection Hrun as <-; set_solver].
  returned Hrun. injection Hrun as <-. repeat case_match; set_solver.
Qed.

Lemma collection_overdue_factor_values record now p p' :
  collection_overdue_factor record now p = Ok p' →
  p' ∈ [p; (p * 0.3)%float; (p * 0.5)%float; (p * 0.7)%float; (p * 0.9)%float].
Proof.
  unfold collection_overdue_factor. intros Hrun. returned Hrun.
  destruct a as [v|]; [|injection Hrun as <-; set_solver].
  destruct (strptime_value v "%Y-%m-%d") as [payment_date|e]; simpl in Hrun.
  - injection Hrun as <-. repeat case_match; set_solver.
  - destruct (is_value_error e); [|done]. injection Hrun as <-. set_solver.
Qed.

Lemma collection_amount_factor_values record p p' :
  collection_amount_factor record p = Ok p' →
  p' ∈ [p; (p * 0.9)%float; (p * 0.8)%float].
Proof.
  unfold collection_amount_factor. intros Hrun. returned Hrun.
  destruct a as [v|]; [|injection Hrun as <-; set_solver].
  returned Hrun. injection Hrun as <-. repeat case_match; set_solver.
Qed.

Lemma collection_status_factor_values record p p' :
  collection_status_factor record p = Ok p' →
  p' ∈ [p; 1%float; (p * 0.6)%float; (p * 0.8)%float].
Proof.
  unfold collection_status_factor. intros Hrun. returned Hrun.
  destruct a; [|injection Hrun as <-; set_solver].
  returned Hrun. injection Hrun as <-. repeat case_match; set_solver.
Qed.

(** So a score is one of finitely many floats, which are computed here and
    checked one by one. *)
Definition risk_scores : list float :=
  s1 ← [0; 0 + 0.3; 0 + 0.2; 0 + 0.1]%float;
  s2 ← [s1; s1 + 0.4; s1 + 0.2; s1 + 0.1]%float;
  s3 ← [s2; s2 + 0.3; s2 + 0.1]%float;
  [fmin s3 1].

Definition collection_probabilities : list float :=
  p1 ← [1; 1 * 0.3; 1 * 0.5; 1 * 0.7; 1 * 0.9]%float;
  p2 ← [p1; p1 * 0.9; p1 * 0.8]%float;
  p3 ← [p2; 1; p2 * 0.6; p2 * 0.8]%float;
  [fmax p3 0].

Lemma payable_risk_score_values record now r :
  payable_risk_score record now = Ok r → r ∈ risk_scores.
Proof.
  unfold payable_risk_score. intros Hrun. returned Hrun. injection Hrun as <-.
  apply risk_amount_factor_values in Ha.
  apply risk_due_date_factor_values in Ha0.
  apply risk_status_factor_values in Ha1.
  unfold risk_scores.
  apply list_elem_of_bind. exists a. split; [|done].
  apply list_elem_of_bind. exists a0. split; [|done].
  apply list_elem_of_bind. exists a1. split; [|done].
  by left.
Qed.

Lemma collection_probability_values record now p :
  collection_probability record now = Ok p → p ∈ collection_probabilities.
Proof.
  unfold collection_probability. intros Hrun. returned Hrun. injection Hrun as <-.
  apply collection_overdue_factor_values in Ha.
  apply collection_amount_factor_values in Ha0.
  apply collection_status_factor_values in Ha1.
  unfold collection_probabilities.
  apply list_elem_of_bind. exists a. split; [|done].
  apply list_elem_of_bind. exists a0. split; [|done].
  apply list_elem_of_bind. exists a1. split; [|done].
  by left.
Qed.

Lemma all_in_unit_interval (l : list float) (x : float) :
  forallb in_unit_interval l = true → x ∈ l → in_unit_interval x = true.
Proof. intros Hall Hx. eapply forallb_forall; [exact Hall|]. by apply list_elem_of_In. Qed.

End Scores.

(** C7.  When the risk score of a payable is not [None] it is a float between
    0.0 and 1.0, and so is the collection probability of a receivable. *)
Theorem C7_scores_lie_in_the_unit_interval `{Runtime} (record : value)
    (service_name : string) (now : Z) :
  (DataTransformer._calculate_payable_risk_score record service_name now ≠ VNone →
   ∃ r, DataTransformer._calculate_payable_risk_score record service_name now = VFloat r
        ∧ in_unit_interval r = true)
  ∧ (DataTransformer._calculate_collection_probability record service_name now ≠ VNone →
     ∃ p, DataTransformer._calculate_collection_probability record service_name now = VFloat p
          ∧ in_unit_interval p = true).
Proof.
  unfold DataTransformer._calculate_payable_risk_score,
    DataTransformer._calculate_collection_probability.
  split.
  - destruct (DataTransformer.payable_risk_score record now) as [r|e] eqn:Hrun; [|done].
    intros _. exists r. split; [done|].
    eapply all_in_unit_interval; [|by eapply payable_risk_score_values].
    vm_compute. reflexivity.
  - destruct (DataTransformer.collection_probability record now) as [p|e] eqn:Hrun; [|done].
    intros _. exists p. split; [done|].
    eapply all_in_unit_interval; [|by eapply collection_probability_values].
    vm_compute. reflexivity.
Qed.

Section WorkedScores.
Import DataTransformer Examples.
#[local] Existing Instance Examples.runtime.

(** C7, witness: the overdue payable of 150000 scores 0.3 + 0.4 + 0.3, and the
    receivable of 600000 has a probability. *)
Lemma C7_scores_witness :
  (∃ r, _calculate_payable_risk_score late_payable "accounts-payable" a_day = VFloat r
        ∧ in_unit_interval r = true)
  ∧ (∃ p, _calculate_collection_probability large_receivable "accounts-receivable" a_day
          = VFloat p
          ∧ in_unit_interval p = true).
Proof.
  destruct (C7_scores_lie_in_the_unit_interval late_payable "accounts-payable" a_day)
    as [Hrisk _].
  destruct (C7_scores_lie_in_the_unit_interval large_receivable "accounts-receivable" a_day)
    as [_ Hprobability].
  split; [apply Hrisk | apply Hprobability]; vm_compute; discriminate.
Defined.

Example late_payable_scores_one :
  _calculate_payable_risk_score late_payable "accounts-payable" a_day = VFloat 1.
Proof. vm_compute. reflexivity. Qed.

End WorkedScores.

(** C5, on the code: a receivable of 600000 without payment date and status
    gets the discount 0.9 of the tier above 100000, not the 0.8 of the tier
    above 500000, which is tested second and never reached. *)
Theorem C5_amount_above_500000_is_discounted_by_0_9 `{Runtime} (service_name : string)
    (now : Z) :
  DataTransformer._calculate_collection_probability
    (VDict {["amount" := VInt 600000]}) service_name now
  = VFloat 0.9.
Proof.
  unfold DataTransformer._calculate_collection_probability,
    DataTransformer.collection_probability, DataTransformer.collection_overdue_factor,
    DataTransformer.collection_amount_factor, DataTransformer.collection_status_factor,
    DataTransformer.present_truthy.
  rewrite !contains_dict, (getitem_dict _ "amount" (VInt 600000)) by done.
  rewrite !lookup_singleton_ne, lookup_singleton_eq by done.
  vm_compute. reflexivity.
Qed.

(** *** What [_transform_record] builds from a dict *)

Section Records.
Import DataTransformer.
Context `{Runtime}.

(** The first loop writes every canonical name. *)
Definition mapped (d : gmap string value) (l : list (string * string))
    (t : gmap string value) : gmap string value :=
  foldl (λ t m, <[m.2 := default VNone (d !! m.1)]> t) t l.

Lemma apply_mapping_dict (d t : gmap string value) o c :
  apply_mapping (VDict d) t (o, c) = Ok (<[c := default VNone (d !! o)]> t).
Proof. unfold apply_mapping, getitem. rewrite contains_dict. by destruct (d !! o). Qed.

Lemma for_each_apply_mapping (d : gmap string value) l : ∀ t,
  for_each (apply_mapping (VDict d)) l t = Ok (mapped d l t).
Proof.
  induction l as [|[o c] l IH]; intros t; [done|].
  cbn [for_each]. rewrite apply_mapping_dict. apply IH.
Qed.

Lemma mapped_lookup_other (d : gmap string value) l c : ∀ t,
  c ∉ l.*2 → mapped d l t !! c = t !! c.
Proof.
  induction l as [|[o c'] l IH]; intros t Hc; [done|]. simpl in *.
  apply not_elem_of_cons in Hc as [Hne Hc]. unfold mapped in *. simpl.
  rewrite IH by done. by apply lookup_insert_ne.
Qed.

Lemma mapped_lookup (d : gmap string value) l o c : ∀ t,
  NoDup l.*2 → (o, c) ∈ l → mapped d l t !! c = Some (default VNone (d !! o)).
Proof.
  induction l as [|[o' c'] l IH]; intros t Hnodup Hin; [by apply elem_of_nil in Hin|].
  simpl in Hnodup. apply NoDup_cons in Hnodup as [Hfresh Hnodup].
  apply elem_of_cons in Hin as [[= -> ->]|Hin].
  - unfold mapped. simpl. fold (mapped d l (<[c' := default VNone (d !! o')]> t)).
    rewrite mapped_lookup_other by done. apply lookup_insert_eq.
  - unfold mapped in *. simpl. by apply IH.
Qed.

(** The second loop writes the keys of the record that the table does not
    map, and only those. *)
Lemma keep_unmapped_lookup (field_mappings : list (string * string))
    (d t : gmap string value) (k : string) :
  map_fold (λ field value acc,
      match lookup_table field_mappings field with
      | Some _ => acc
      | None => <[field := value]> acc
      end) t d !! k
  = match d !! k, lookup_table field_mappings k with
    | Some v, None => Some v
    | _, _ => t !! k
    end.
Proof.
  revert k. apply (map_fold_weak_ind (λ r m, ∀ k,
    r !! k = match m !! k, lookup_table field_mappings k with
             | Some v, None => Some v
             | _, _ => t !! k
             end)).
  - intros k. by rewrite lookup_empty.
  - intros i x m r Hi IH k. destruct (decide (i = k)) as [->|Hne].
    + rewrite lookup_insert_eq. destruct (lookup_table field_mappings k) eqn:Hk.
      * rewrite IH, Hi. done.
      * by rewrite lookup_insert_eq.
    + rewrite (lookup_insert_ne m) by done.
      destruct (lookup_table field_mappings i); [by apply IH|].
      rewrite lookup_insert_ne by done. by apply IH.
Qed.

(** The third loop writes the names of the calculated fields. *)
Lemma calculated_lookup_other record service_name now calculations k : ∀ t,
  k ∉ calculations.*1 →
  foldl (apply_calculation record service_name now) t calculations !! k = t !! k.
Proof.
  induction calculations as [|[name f] l IH]; intros t Hk; [done|]. simpl in *.
  apply not_elem_of_cons in Hk as [Hne Hk].
  rewrite IH by done. by apply lookup_insert_ne.
Qed.

(** A dict is always transformed. *)
Lemma _transform_record_dict (d : gmap string value) rules service_name now utcnow :
  _transform_record (VDict d) rules service_name now utcnow
  = Some (<["_record_hash" := VStr (_calculate_record_hash (VDict d))]>
          (<["_transformed_at" := VStr (isoformat utcnow)]>
           (<["_source_service" := VStr service_name]>
            (foldl (apply_calculation (VDict d) service_name now)
               (map_fold (λ field value acc,
                    match lookup_table (field_mappings rules) field with
                    | Some _ => acc
                    | None => <[field := value]> acc
                    end) (mapped d (field_mappings rules) ∅) d)
               (calculated_fields rules))))).
Proof. unfold _transform_record. by rewrite for_each_apply_mapping. Qed.

(** Whatever is transformed carries the three system fields. *)
Lemma _transform_record_system_fields record rules service_name now utcnow t :
  _transform_record record rules service_name now utcnow = Some t →
  t !! "_source_service" = Some (VStr service_name)
  ∧ t !! "_transformed_at" = Some (VStr (isoformat utcnow))
  ∧ t !! "_record_hash" = Some (VStr (_calculate_record_hash record)).
Proof.
  unfold _transform_record. intros Hrun.
  repeat case_match; try discriminate. injection Hrun as <-.
  returned H0. injection H0 as <-.
  split_and!.
  - by rewrite !lookup_insert_ne, lookup_insert_eq by done.
  - by rewrite lookup_insert_ne, lookup_insert_eq by done.
  - by rewrite lookup_insert_eq.
Qed.

(** Every record that comes out of the loop is the transform of a record that
    went in. *)
Lemma transform_records_elem rules service_name clk records out : ∀ i,
  out ∈ transform_records rules service_name clk i records →
  ∃ j record t,
    records !! j = Some record
    ∧ _transform_record record rules service_name (now_at clk (i + j)) (utcnow_at clk (i + j))
      = Some t
    ∧ out = VDict t.
Proof.
  induction records as [|record records IH]; intros i Hout;
    cbn [transform_records] in Hout.
  - by apply elem_of_nil in Hout.
  - assert (out ∈ transform_records rules service_name clk (S i) records →
            ∃ j record0 t, (record :: records) !! j = Some record0
              ∧ _transform_record record0 rules service_name
                  (now_at clk (i + j)) (utcnow_at clk (i + j)) = Some t
              ∧ out = VDict t) as Hrest.
    { intros (j & record0 & t & Hj & Ht & ->)%IH. exists (S j), record0, t.
      by replace (i + S j) with (S i + j) by lia. }
    destruct (_transform_record record rules service_name _ _) as [t|] eqn:Ht; [|auto].
    destruct (truthy (VDict t)); [|auto].
    apply elem_of_cons in Hout as [->|Hout]; [|auto].
    exists 0, record, t. by rewrite Nat.add_0_r.
Qed.

End Records.

Section Tables.
Import DataTransformer.
Context `{Runtime}.

(** In each table of [self.transformation_rules] the canonical names are
    distinct and none of them is a calculated or a system field. *)
Lemma transformation_rules_names service_name rules :
  lookup_table transformation_rules service_name = Some rules →
  NoDup (snd <$> field_mappings rules)
  ∧ Forall (λ c, (c ∉ fst <$> calculated_fields rules) ∧ (c ∉ system_fields))
      (snd <$> field_mappings rules).
Proof.
  unfold transformation_rules. cbn [lookup_table].
  repeat case_match; intros [= <-]; cbn [field_mappings calculated_fields fmap list_fmap fst snd];
    apply (bool_decide_unpack _); vm_compute; exact I.
Qed.

Lemma not_system_field k :
  k ∉ system_fields →
  k ≠ "_record_hash" ∧ k ≠ "_transformed_at" ∧ k ≠ "_source_service".
Proof. unfold system_fields. set_solver. Qed.

End Tables.

(** C8 (as the code has it).  For a source with a mapping table and a record
    that is a dict, the record is transformed, and in the result
    - a key of the record that the table does not map, and that is neither the
      name of a calculated field of the source nor a system field, has the
      value it had;
    - the canonical name of a mapped field that the record lacks is [None],
      when the record has no key of that canonical name either. *)
Theorem C8_unmapped_fields_are_carried_through `{Runtime} (service_name : string)
    (rules : DataTransformer.rules) (d : gmap string value) (now : string → Z)
    (utcnow : Z) :
  lookup_table DataTransformer.transformation_rules service_name = Some rules →
  ∃ t,
    DataTransformer._transform_record (VDict d) rules service_name now utcnow = Some t
    ∧ (∀ k v,
         d !! k = Some v →
         lookup_table (DataTransformer.field_mappings rules) k = None →
         k ∉ (fst <$> DataTransformer.calculated_fields rules) →
         k ∉ system_fields →
         t !! k = Some v)
    ∧ (∀ original canonical,
         (original, canonical) ∈ DataTransformer.field_mappings rules →
         d !! original = None →
         d !! canonical = None →
         t !! canonical = Some VNone).
Proof.
  intros Hrules. rewrite _transform_record_dict. eexists. split; [done|]. split.
  - intros k v Hk Hunmapped Hcalculated (? & ? & ?)%not_system_field.
    rewrite !lookup_insert_ne by done.
    rewrite calculated_lookup_other by done.
    by rewrite keep_unmapped_lookup, Hk, Hunmapped.
  - intros original canonical Hin Horiginal Hcanonical.
    destruct (transformation_rules_names _ _ Hrules) as [Hnodup Hnames].
    assert (canonical ∈ (snd <$> DataTransformer.field_mappings rules)) as Hc.
    { apply list_elem_of_fmap. by exists (original, canonical). }
    rewrite Forall_forall in Hnames.
    destruct (Hnames _ Hc) as [Hcalculated (? & ? & ?)%not_system_field].
    rewrite !lookup_insert_ne by done.
    rewrite calculated_lookup_other by done.
    rewrite keep_unmapped_lookup, Hcanonical.
    by rewrite (mapped_lookup _ _ original), Horiginal.
Qed.

(** C6 (as the code has it).  For a source with transformation rules every
    record that comes back is the transform of a record of the payload and
    carries [_source_service], [_transformed_at] and [_record_hash].  The hash
    is taken of the record as it came: it is [str(hash(s))] for the key-sorted
    JSON text [s] that [json.dumps] gives for that record, and it is stable,
    in that every transform of the same record carries the same hash,
    whatever the source, the rules, the position and the time.  For a source
    without rules the records of the payload come back as they are. *)
Theorem C6_system_fields_of_transformed_records `{Runtime} (service_name : string)
    (endpoint data : value) (clk : DataTransformer.clock) :
  (∀ rules out,
     lookup_table DataTransformer.transformation_rules service_name = Some rules →
     out ∈ DataTransformer.transform_microservice_data service_name endpoint data clk →
     ∃ records j record t,
       payload_records data = Some records ∧ records !! j = Some record
       ∧ DataTransformer._transform_record record rules service_name
           (DataTransformer.now_at clk j) (DataTransformer.utcnow_at clk j) = Some t
       ∧ out = VDict t
       ∧ t !! "_source_service" = Some (VStr service_name)
       ∧ t !! "_transformed_at" = Some (VStr (isoformat (DataTransformer.utcnow_at clk j)))
       ∧ t !! "_record_hash" = Some (VStr (DataTransformer._calculate_record_hash record))
       ∧ (∀ record_str, json_dumps_sorted record = Some record_str →
            t !! "_record_hash" = Some (VStr (pretty (hash record_str))))
       ∧ (∀ rules' service_name' now' utcnow' t',
            DataTransformer._transform_record record rules' service_name' now' utcnow'
            = Some t' →
            t' !! "_record_hash" = t !! "_record_hash"))
  ∧ (∀ records,
       lookup_table DataTransformer.transformation_rules service_name = None →
       truthy data = true →
       payload_records data = Some records →
       DataTransformer.transform_microservice_data service_name endpoint data clk = records).
Proof.
  unfold DataTransformer.transform_microservice_data. split.
  - intros rules out Hrules Hout. rewrite Hrules in Hout.
    destruct (negb (truthy data)); [by apply elem_of_nil in Hout|].
    destruct (payload_records data) as [records|]; [|by apply elem_of_nil in Hout].
    apply transform_records_elem in Hout as (j & record & t & Hj & Ht & ->).
    pose proof (_transform_record_system_fields _ _ _ _ _ _ Ht) as (Hsource & Hat & Hhash).
    exists records, j, record, t. split_and!; try done.
    + intros record_str Hdump. rewrite Hhash.
      unfold DataTransformer._calculate_record_hash. by rewrite Hdump.
    + intros rules' service_name' now' utcnow' t' Ht'.
      apply _transform_record_system_fields in Ht' as (_ & _ & Hhash').
      by rewrite Hhash, Hhash'.
  - intros records Hrules -> ->. by rewrite Hrules.
Qed.

Section WorkedRecords.
Import DataTransformer Examples.
#[local] Existing Instance Examples.runtime.

(** C8, witness: the late payable keeps its [id] under [payable_id]; a key
    [note] would be carried through, and [payable_status] is [None] for a
    record without [status]. *)
Lemma C8_unmapped_fields_witness :
  ∃ t,
    _transform_record (VDict {["note" := VStr "urgent"]})
      (Rules [("id", "payable_id"); ("amount", "payable_amount");
              ("due_date", "payable_due_date"); ("supplier_id", "supplier_id");
              ("status", "payable_status")]
             [("days_until_due", _calculate_days_until_due);
              ("amount_cad", _convert_to_cad);
              ("risk_score", _calculate_payable_risk_score)]
             [("total_amount", "sum"); ("avg_amount", "mean"); ("count", "count")])
      "accounts-payable" (λ _, a_day) a_day = Some t
    ∧ t !! "note" = Some (VStr "urgent")
    ∧ t !! "payable_status" = Some VNone.
Proof.
  destruct (C8_unmapped_fields_are_carried_through "accounts-payable"
              (Rules [("id", "payable_id"); ("amount", "payable_amount");
                      ("due_date", "payable_due_date"); ("supplier_id", "supplier_id");
                      ("status", "payable_status")]
                     [("days_until_due", _calculate_days_until_due);
                      ("amount_cad", _convert_to_cad);
                      ("risk_score", _calculate_payable_risk_score)]
                     [("total_amount", "sum"); ("avg_amount", "mean"); ("count", "count")])
              {["note" := VStr "urgent"]} (λ _, a_day) a_day eq_refl)
    as (t & Ht & Hkept & Hnull).
  exists t. split; [exact Ht|]. split.
  - apply Hkept.
    + vm_compute. reflexivity.
    + reflexivity.
    + apply (bool_decide_unpack _). vm_compute. exact I.
    + apply (bool_decide_unpack _). vm_compute. exact I.
  - apply (Hnull "status" "payable_status").
    + do 4 right. left.
    + vm_compute. reflexivity.
    + vm_compute. reflexivity.
Defined.

(** C8, as stated, fails: the record brings the keys [risk_score] and
    [payable_id], which the table of the payables does not map, and lacks
    [id].  In the result [risk_score] is the calculated score, not the value
    brought, and [payable_id], the canonical name of the absent [id], is the
    value brought, not [None]. *)
Lemma C8_unmapped_fields_counterexample :
  ∃ rules t,
    lookup_table transformation_rules "accounts-payable" = Some rules
    ∧ _transform_record (VDict scored_record) rules "accounts-payable" (λ _, a_day) a_day
      = Some t
    ∧ scored_record !! "risk_score" = Some (VStr "high")
    ∧ lookup_table (field_mappings rules) "risk_score" = None
    ∧ t !! "risk_score" = Some (VFloat 0)
    ∧ (("id", "payable_id") ∈ field_mappings rules ∧ scored_record !! "id" = None)
    ∧ t !! "payable_id" = Some (VStr "x").
Proof.
  eexists _, _. split; [reflexivity|]. split; [reflexivity|].
  split_and!; try (vm_compute; reflexivity). left.
Qed.

(** C6, witness: the late payable comes back with the three fields, and its
    hash is the hash of its JSON text. *)
Lemma C6_system_fields_witness :
  ∃ t,
    transform_microservice_data "accounts-payable" (VStr "invoices")
      (VList [late_payable]) still_clock = [VDict t]
    ∧ t !! "_source_service" = Some (VStr "accounts-payable")
    ∧ t !! "_transformed_at" = Some (VStr (isoformat a_day))
    ∧ json_dumps_sorted late_payable = Some late_payable_json
    ∧ t !! "_record_hash" = Some (VStr (pretty (hash late_payable_json))).
Proof.
  assert (∃ t, transform_microservice_data "accounts-payable" (VStr "invoices")
                 (VList [late_payable]) still_clock = [VDict t]) as [t0 Hout]
    by (eexists; vm_compute; reflexivity).
  assert (json_dumps_sorted late_payable = Some late_payable_json) as Hdump
    by (vm_compute; reflexivity).
  destruct (C6_system_fields_of_transformed_records "accounts-payable" (VStr "invoices")
              (VList [late_payable]) still_clock) as [Hfields _].
  destruct (Hfields _ (VDict t0) eq_refl)
    as (records & j & record & t & Hrecords & Hj & _ & Ht & Hsource & Hat & _ & Hhash & _).
  { rewrite Hout. left. }
  injection Hrecords as <-. injection Ht as <-.
  destruct j as [|j]; [|destruct j; discriminate Hj]. injection Hj as <-.
  exists t0. split; [exact Hout|]. split; [exact Hsource|]. split; [exact Hat|].
  split; [exact Hdump|]. exact (Hhash _ Hdump).
Defined.

(** C6, as stated, fails: the service [company] has no transformation rules,
    and its record comes back as it came, without a system field. *)
Lemma C6_system_fields_counterexample :
  transform_microservice_data "company" (VStr "list") (VList [a_company]) still_clock
    = [a_company]
  ∧ getitem a_company "_source_service" = Raise KeyError
  ∧ getitem a_company "_transformed_at" = Raise KeyError
  ∧ getitem a_company "_record_hash" = Raise KeyError.
Proof. split_and!; vm_compute; reflexivity. Qed.

End WorkedRecords.

(** ** The jobs *)

Section Jobs.
Import ETLService.
Context `{Runtime}.

Lemma set_outcome_hashable endpoint outcome st :
  hashable endpoint = true →
  set_outcome endpoint outcome st
  = Ok (State (total_records st) (failed_records st)
              (extracted_data st ++ [(endpoint, outcome)])).
Proof. unfold set_outcome. by intros ->. Qed.

(** With an application context [_store_in_warehouse] returns. *)
Lemma store_batch_context data : store_batch true data = Ok tt.
Proof. by destruct data. Qed.

(** One endpoint, whatever it answers, adds what the specification counts. *)
Lemma extract_endpoint_counts e service_name base_url k endpoint st :
  client_raises_request_exceptions e →
  hashable endpoint = true →
  ∃ stored st',
    extract_endpoint e true service_name base_url k endpoint st = (stored, Ok st')
    ∧ total_records st'
      = total_records st + default 0 (endpoint_records e service_name base_url k endpoint)
    ∧ failed_records st'
      = failed_records st
        + match endpoint_records e service_name base_url k endpoint with
          | Some _ => 0
          | None => 1
          end.
Proof.
  intros [Hget Hjson] Hhashable. unfold extract_endpoint, endpoint_records.
  destruct (requests_get e k _) as [response|exc] eqn:Hresponse.
  - destruct (status_code response =? 200)%Z.
    + destruct (json response) as [data|exc] eqn:Hdata.
      * destruct (DataValidator.is_valid _).
        -- rewrite store_batch_context. cbn [mbind res_bind].
           rewrite set_outcome_hashable by done. eexists _, _. split; [done|].
           simpl. lia.
        -- rewrite set_outcome_hashable by done. eexists _, _. split; [done|].
           simpl. lia.
      * unfold on_request_exception. rewrite (Hjson _ _ _ _ Hresponse Hdata).
        rewrite set_outcome_hashable by done. eexists _, _. split; [done|]. simpl. lia.
    + rewrite set_outcome_hashable by done. eexists _, _. split; [done|]. simpl. lia.
  - unfold on_request_exception. rewrite (Hget _ _ _ Hresponse).
    rewrite set_outcome_hashable by done. eexists _, _. split; [done|]. simpl. lia.
Qed.

Lemma extract_endpoints_counts e service_name base_url endpoints :
  client_raises_request_exceptions e →
  Forall (λ endpoint, hashable endpoint = true) endpoints →
  ∀ k st, ∃ stored st',
    extract_endpoints e true service_name base_url k endpoints st = (stored, Ok st')
    ∧ total_records st'
      = total_records st + processed_from e service_name base_url k endpoints
    ∧ failed_records st'
      = failed_records st + failed_from e service_name base_url k endpoints.
Proof.
  intros Hclient Hall. induction Hall as [|endpoint endpoints Hhashable _ IH]; intros k st.
  - exists [], st. simpl. split; [done|]. lia.
  - destruct (extract_endpoint_counts e service_name base_url k endpoint st Hclient Hhashable)
      as (stored1 & st1 & Hone & Htotal1 & Hfailed1).
    destruct (IH (S k) st1) as (stored2 & st2 & Hrest & Htotal2 & Hfailed2).
    exists (stored1 ++ stored2), st2. cbn [extract_endpoints processed_from failed_from].
    rewrite Hone, Hrest. split; [done|]. lia.
Qed.

(** Without an application context [run_job] leaves the world as it is also
    from its first commit on: its last commit raises, and so does the query
    of its handler. *)
Lemma run_job_finish_without_context e job_id w :
  (run_job_finish e false job_id w).1 = w.
Proof.
  unfold run_job_finish. destruct (jobs w !! job_id) as [job|]; [|done].
  destruct (extract e false _) as [stored [result|exc]];
    cbn; rewrite app_nil_r; by destruct w.
Qed.

End Jobs.

(** C3 (what the code does).  The thread that [execute_etl_job] starts has
    no application context.  [run_job] raises [RuntimeError] at its first
    statement, the query for the job, its handler raises it again at the same
    query, and the thread ends without a commit: whatever the job, its source
    and the answers of the endpoints are, a submission and the run of its
    thread leave the world as it was, and a step of any thread changes no
    job, no source and nothing in the warehouse.  No job is set to
    [completed], and none to [failed]. *)
Theorem C3_started_thread_updates_no_job `{Runtime} (e : ETLService.env) (job_id : Z)
    (w : ETLService.world) :
  ETLService.run_job e false job_id w = (w, Some RuntimeError)
  ∧ ETLService.step e (length (ETLService.threads w))
      (ETLService.execute_etl_job job_id w).1 = Some w
  ∧ ∀ n,
      match ETLService.step e n w with
      | Some w' =>
          ETLService.jobs w' = ETLService.jobs w
          ∧ ETLService.sources w' = ETLService.sources w
          ∧ ETLService.warehouse w' = ETLService.warehouse w
          ∧ ETLService.threads w' = delete n (ETLService.threads w)
      | None => ETLService.threads w !! n = None
      end.
Proof.
  split; [done|]. split.
  - unfold ETLService.step, ETLService.execute_etl_job. cbn [fst ETLService.threads].
    rewrite lookup_app_r, Nat.sub_diag by lia. cbn.
    rewrite delete_middle, app_nil_r. by destruct w.
  - intros n. unfold ETLService.step.
    destruct (ETLService.threads w !! n) as [[job_id'|job_id']|]; [done| |done].
    by rewrite run_job_finish_without_context.
Qed.

(** C4 (as the code has it).  [execute_etl_job] looks nothing up: for every
    job id, found or not, it returns the handle [started] and leaves the jobs,
    the sources and the warehouse as they are; all it does is start the
    thread.  When it returns the job has the status it had, and a second
    submission is answered like the first. *)
Theorem C4_submission_only_starts_a_thread (job_id : Z) (w : ETLService.world) :
  let submitted := (ETLService.execute_etl_job job_id w).1 in
  (ETLService.execute_etl_job job_id w).2 = ETLService.Handle "started" job_id
  ∧ ETLService.jobs submitted = ETLService.jobs w
  ∧ ETLService.sources submitted = ETLService.sources w
  ∧ ETLService.warehouse submitted = ETLService.warehouse w
  ∧ ETLService.threads submitted = ETLService.threads w ++ [ETLService.Starting job_id]
  ∧ (ETLService.execute_etl_job job_id submitted).2 = ETLService.Handle "started" job_id
  ∧ ETLService.jobs (ETLService.execute_etl_job job_id submitted).1 = ETLService.jobs w.
Proof. done. Qed.

Section WorkedJobs.
Import ETLService Examples.
#[local] Existing Instance Examples.runtime.

Lemma scenario_client : client_raises_request_exceptions scenario.
Proof.
  split.
  - intros [|[|k]] url exc; discriminate.
  - intros [|[|k]] url response exc [= <-]; discriminate.
Defined.

(** C3, at the scenario of the three endpoints: after the submission of the
    pending job 7 and the run of its thread the world is as it was, and the
    job is [pending] with no record processed. *)
Example scenario_job_stays_pending :
  step scenario 0 (execute_etl_job 7 one_pending_job).1 = Some one_pending_job
  ∧ run_job scenario false 7 one_pending_job = (one_pending_job, Some RuntimeError)
  ∧ (λ job, (status job, records_processed job, error_message job))
      <$> jobs one_pending_job !! 7%Z
    = Some ("pending", 0, None).
Proof. split_and!; vm_compute; reflexivity. Qed.

Example scenario_third_endpoint_fails_validation :
  DataValidator.validate_microservice_data "accounts-payable" (VStr "adjustments")
    one_in_five_invalid (λ _, a_day)
  = DataValidator.Verdict false [DataValidator.msg_pattern 4 "status"] [] 5 1.
Proof. vm_compute. reflexivity. Qed.

(** A connection string that [json.loads] rejects is an exception of the whole
    routine. *)
Example unreadable_connection_raises :
  _extract_from_microservice scenario true (Source "microservice" "{" None)
  = ([], Raise ValueError).
Proof. vm_compute. reflexivity. Qed.

(** C4, as stated, fails: the submission of a job that does not exist returns
    the handle [started], not an error; and after the submission of the
    pending job 7 has returned, the job is still [pending], so that a second
    submission finds it [pending]. *)
Lemma C4_submission_counterexample :
  jobs one_pending_job !! 9%Z = None
  ∧ (execute_etl_job 9 one_pending_job).2 = Handle "started" 9
  ∧ status <$> jobs one_pending_job !! 7%Z = Some "pending"
  ∧ (execute_etl_job 7 one_pending_job).2 = Handle "started" 7
  ∧ status <$> jobs (execute_etl_job 7 one_pending_job).1 !! 7%Z = Some "pending".
Proof. split_and!; vm_compute; reflexivity. Qed.

End WorkedJobs.

(** * Further properties of the code *)

(** ** The validator, record by record *)

Section RecordChecks.
Import DataValidator.
Context `{Runtime}.

(** A loop over a rule table on which every turn returns, returns. *)
Lemma for_each_returns {A S} (body : S → A → res S) (l : list A) :
  (∀ s x, x ∈ l → ∃ s', body s x = Ok s') →
  ∀ s, ∃ s', for_each body l s = Ok s'.
Proof.
  induction l as [|x l IH]; intros Hbody s; [by exists s|].
  destruct (Hbody s x) as [s1 Hs1]; [by left|].
  destruct (IH (λ s0 y Hy, Hbody s0 y (proj2 (elem_of_cons l y x) (or_intror Hy))) s1)
    as [s' Hs'].
  exists s'. simpl. by rewrite Hs1.
Qed.

Lemma present_dict (d : gmap string value) (field : string) :
  present (VDict d) field
  = Ok match d !! field with
       | Some v => if is_none v then None else Some v
       | None => None
       end.
Proof. unfold present, getitem. rewrite contains_dict. by destruct (d !! field). Qed.

Lemma check_required_keeps msg i record r field r' :
  check_required i record r field = Ok r' → rejected msg r → rejected msg r'.
Proof.
  unfold check_required. intros Hrun Hr. returned Hrun. injection Hrun as <-.
  destruct a0; auto using rejected_invalidate_other.
Qed.

Lemma check_type_keeps msg i record r rule r' :
  check_type i record r rule = Ok r' → rejected msg r → rejected msg r'.
Proof.
  destruct rule as [field expected_type]. unfold check_type. intros Hrun Hr.
  returned Hrun. injection Hrun as <-. repeat case_match; auto using rejected_invalidate_other.
Qed.

(** What [_validate_record] runs for a source with rules: the four loops, one
    after the other, then the business logic. *)
Lemma _validate_record_stages service_name rules record i now r :
  lookup_table validation_rules service_name = Some rules →
  _validate_record service_name record i now = Ok r →
  ∃ r1 r2 r3 r4,
    for_each (check_required i record) (required_fields rules) (RecordResult true [] [])
      = Ok r1
    ∧ for_each (check_type i record) (field_types rules) r1 = Ok r2
    ∧ for_each (check_range i record) (field_ranges rules) r2 = Ok r3
    ∧ for_each (check_pattern i record) (field_patterns rules) r3 = Ok r4
    ∧ r = RecordResult
            (match f_errors (_validate_business_logic service_name record i now) with
             | [] => rec_is_valid r4
             | _ => false
             end)
            (rec_errors r4 ++ f_errors (_validate_business_logic service_name record i now))
            (rec_warnings r4 ++ f_warnings (_validate_business_logic service_name record i now)).
Proof.
  unfold _validate_record. intros -> Hrun. returned Hrun. injection Hrun as <-.
  by exists a, a0, a1, a2.
Qed.

Lemma rejected_by_business msg r4 (business : findings) :
  rejected msg r4 →
  rejected msg (RecordResult
                  (match f_errors business with [] => rec_is_valid r4 | _ => false end)
                  (rec_errors r4 ++ f_errors business)
                  (rec_warnings r4 ++ f_warnings business)).
Proof.
  intros [Hvalid Hin]. split; simpl.
  - rewrite Hvalid. by case_match.
  - apply elem_of_app. by left.
Qed.

Lemma types_keep msg i record l r r' :
  for_each (check_type i record) l r = Ok r' → rejected msg r → rejected msg r'.
Proof. apply for_each_invariant. intros s x s' _. apply check_type_keeps. Qed.

Lemma ranges_keep msg i record l r r' :
  for_each (check_range i record) l r = Ok r' → rejected msg r → rejected msg r'.
Proof. apply for_each_invariant. intros s x s' _. apply check_range_keeps. Qed.

Lemma patterns_keep msg i record l r r' :
  for_each (check_pattern i record) l r = Ok r' → rejected msg r → rejected msg r'.
Proof. apply for_each_invariant. intros s x s' _. apply check_pattern_keeps. Qed.

Lemma check_required_rejects i (d : gmap string value) r field r' :
  missing d field →
  check_required i (VDict d) r field = Ok r' →
  rejected (msg_missing i field) r'.
Proof.
  unfold missing, check_required, getitem. rewrite contains_dict.
  destruct (d !! field) as [v|]; simpl.
  - intros [-> | ->] [= <-]; apply rejected_invalidate.
  - intros _ [= <-]. apply rejected_invalidate.
Qed.

Lemma check_type_rejects i record r field expected_type v r' :
  present record field = Ok (Some v) →
  _validate_field_type v expected_type = false →
  check_type i record r (field, expected_type) = Ok r' →
  rejected (msg_type i field expected_type) r'.
Proof.
  unfold check_type. intros -> Hno Hrun. simpl in Hrun. rewrite Hno in Hrun.
  injection Hrun as <-. apply rejected_invalidate.
Qed.

End RecordChecks.

Section RecordVerdicts.
Import DataValidator.
Context `{Runtime}.

(** What one of the four loops has rejected stays rejected to the end. *)
Lemma rejected_in_required service_name rules record i now r msg :
  lookup_table validation_rules service_name = Some rules →
  _validate_record service_name record i now = Ok r →
  (∀ r1, for_each (check_required i record) (required_fields rules)
           (RecordResult true [] []) = Ok r1 → rejected msg r1) →
  rejected msg r.
Proof.
  intros Hrules Hrun Hhit.
  destruct (_validate_record_stages _ _ _ _ _ _ Hrules Hrun)
    as (r1 & r2 & r3 & r4 & H1 & H2 & H3 & H4 & ->).
  apply rejected_by_business. eapply patterns_keep; [exact H4|].
  eapply ranges_keep; [exact H3|]. eapply types_keep; [exact H2|]. by apply Hhit.
Qed.

Lemma rejected_in_types service_name rules record i now r msg :
  lookup_table validation_rules service_name = Some rules →
  _validate_record service_name record i now = Ok r →
  (∀ r1 r2, for_each (check_type i record) (field_types rules) r1 = Ok r2 →
            rejected msg r2) →
  rejected msg r.
Proof.
  intros Hrules Hrun Hhit.
  destruct (_validate_record_stages _ _ _ _ _ _ Hrules Hrun)
    as (r1 & r2 & r3 & r4 & H1 & H2 & H3 & H4 & ->).
  apply rejected_by_business. eapply patterns_keep; [exact H4|].
  eapply ranges_keep; [exact H3|]. by eapply Hhit.
Qed.

Lemma rejected_in_ranges service_name rules record i now r msg :
  lookup_table validation_rules service_name = Some rules →
  _validate_record service_name record i now = Ok r →
  (∀ r2 r3, for_each (check_range i record) (field_ranges rules) r2 = Ok r3 →
            rejected msg r3) →
  rejected msg r.
Proof.
  intros Hrules Hrun Hhit.
  destruct (_validate_record_stages _ _ _ _ _ _ Hrules Hrun)
    as (r1 & r2 & r3 & r4 & H1 & H2 & H3 & H4 & ->).
  apply rejected_by_business. eapply patterns_keep; [exact H4|]. by eapply Hhit.
Qed.

Lemma check_range_rejects i record r field cfg v r' :
  present record field = Ok (Some v) →
  check_range i record r (field, cfg) = Ok r' →
  match py_float v with
  | Ok x =>
      (∀ lo, range_min cfg = Some lo → PrimFloat.ltb x (float_of_Z lo) = true →
             rejected (msg_below i field x lo) r')
      ∧ (∀ hi, range_max cfg = Some hi → PrimFloat.ltb (float_of_Z hi) x = true →
               rejected (msg_above i field x hi) r')
  | Raise e => is_value_or_type_error e = true → rejected (msg_not_numeric i field) r'
  end.
Proof.
  unfold check_range. intros -> Hrun. simpl in Hrun.
  destruct (py_float v) as [x|e]; simpl in Hrun.
  - injection Hrun as <-. split.
    + intros lo -> ->. destruct (range_max cfg) as [hi|]; [|apply rejected_invalidate].
      case_match; [apply rejected_invalidate_other|]; apply rejected_invalidate.
    + intros hi -> ->. apply rejected_invalidate.
  - intros He. rewrite He in Hrun. injection Hrun as <-. apply rejected_invalidate.
Qed.

End RecordVerdicts.

(** X1.  For a source with a rule set, a dict record that lacks a required
    field, or has it as [None] or as the empty string, is invalid, with the
    error [Record i: Missing required field "f"]. *)
Theorem X1_missing_required_field_rejects_record `{Runtime} (service_name : string)
    (rules : DataValidator.rules) (field : string) (d : gmap string value) (i : nat)
    (now : Z) (r : DataValidator.record_result) :
  lookup_table DataValidator.validation_rules service_name = Some rules →
  field ∈ DataValidator.required_fields rules →
  missing d field →
  DataValidator._validate_record service_name (VDict d) i now = Ok r →
  DataValidator.rec_is_valid r = false
  ∧ DataValidator.msg_missing i field ∈ DataValidator.rec_errors r.
Proof.
  intros Hrules Hin Hmissing Hrun.
  eapply (rejected_in_required _ _ _ _ _ _ _ Hrules Hrun). intros r1.
  apply (for_each_reaches _ _ _ _ Hin).
  - intros s s'. by apply check_required_rejects.
  - intros s y s'. apply check_required_keeps.
Qed.

(** X2.  For a source with a rule set, a record whose field is present, not
    null and fails the declared type is invalid, with the error
    [Record i: Field "f" has invalid type. Expected t]. *)
Theorem X2_wrong_type_rejects_record `{Runtime} (service_name : string)
    (rules : DataValidator.rules) (field expected_type : string) (record v : value)
    (i : nat) (now : Z) (r : DataValidator.record_result) :
  lookup_table DataValidator.validation_rules service_name = Some rules →
  (field, expected_type) ∈ DataValidator.field_types rules →
  DataValidator.present record field = Ok (Some v) →
  DataValidator._validate_field_type v expected_type = false →
  DataValidator._validate_record service_name record i now = Ok r →
  DataValidator.rec_is_valid r = false
  ∧ DataValidator.msg_type i field expected_type ∈ DataValidator.rec_errors r.
Proof.
  intros Hrules Hin Hv Hno Hrun.
  eapply (rejected_in_types _ _ _ _ _ _ _ Hrules Hrun). intros r1 r2.
  apply (for_each_reaches _ _ _ _ Hin).
  - intros s s'. by apply (check_type_rejects _ _ _ _ _ v).
  - intros s y s'. apply check_type_keeps.
Qed.

(** X3.  For a source with a rule set and a field with a range, a present,
    non-null value is checked as a float: below the minimum or above the
    maximum the record is invalid, with the error that names the value and the
    bound; a value that [float] refuses with a [ValueError] or a [TypeError]
    makes the record invalid as not numeric. *)
Theorem X3_out_of_range_rejects_record `{Runtime} (service_name : string)
    (rules : DataValidator.rules) (field : string) (cfg : DataValidator.range_config)
    (record v : value) (i : nat) (now : Z) (r : DataValidator.record_result) :
  lookup_table DataValidator.validation_rules service_name = Some rules →
  (field, cfg) ∈ DataValidator.field_ranges rules →
  DataValidator.present record field = Ok (Some v) →
  DataValidator._validate_record service_name record i now = Ok r →
  match py_float v with
  | Ok x =>
      (∀ lo, DataValidator.range_min cfg = Some lo →
             PrimFloat.ltb x (float_of_Z lo) = true →
             DataValidator.rec_is_valid r = false
             ∧ DataValidator.msg_below i field x lo ∈ DataValidator.rec_errors r)
      ∧ (∀ hi, DataValidator.range_max cfg = Some hi →
               PrimFloat.ltb (float_of_Z hi) x = true →
               DataValidator.rec_is_valid r = false
               ∧ DataValidator.msg_above i field x hi ∈ DataValidator.rec_errors r)
  | Raise e =>
      is_value_or_type_error e = true →
      DataValidator.rec_is_valid r = false
      ∧ DataValidator.msg_not_numeric i field ∈ DataValidator.rec_errors r
  end.
Proof.
  intros Hrules Hin Hv Hrun.
  assert (∀ msg,
            (∀ s s', DataValidator.check_range i record s (field, cfg) = Ok s' →
                     rejected msg s') →
            rejected msg r) as Hreach.
  { intros msg Hhit. eapply (rejected_in_ranges _ _ _ _ _ _ _ Hrules Hrun). intros r2 r3.
    apply (for_each_reaches _ _ _ _ Hin); [exact Hhit|].
    intros s y s'. apply check_range_keeps. }
  destruct (py_float v) as [x|e] eqn:Hfloat.
  - split.
    + intros lo Hlo Hlt. apply Hreach. intros s s' Hs.
      pose proof (check_range_rejects _ _ _ _ _ _ _ Hv Hs) as Hcases.
      rewrite Hfloat in Hcases. exact (proj1 Hcases lo Hlo Hlt).
    + intros hi Hhi Hlt. apply Hreach. intros s s' Hs.
      pose proof (check_range_rejects _ _ _ _ _ _ _ Hv Hs) as Hcases.
      rewrite Hfloat in Hcases. exact (proj2 Hcases hi Hhi Hlt).
  - intros He. apply Hreach. intros s s' Hs.
    pose proof (check_range_rejects _ _ _ _ _ _ _ Hv Hs) as Hcases.
    rewrite Hfloat in Hcases. exact (Hcases He).
Qed.

Section Coherence.
Import DataValidator.
Context `{Runtime}.

Lemma coherent_invalidate msg r : coherent (invalidate msg r).
Proof.
  unfold coherent. simpl. split; [done|]. intros Hnil.
  by apply app_eq_nil in Hnil as [_ ?].
Qed.

Lemma check_required_coherent i record r field r' :
  check_required i record r field = Ok r' → coherent r → coherent r'.
Proof.
  unfold check_required. intros Hrun Hr. returned Hrun. injection Hrun as <-.
  destruct a0; auto using coherent_invalidate.
Qed.

Lemma check_type_coherent i record r rule r' :
  check_type i record r rule = Ok r' → coherent r → coherent r'.
Proof.
  destruct rule as [field expected_type]. unfold check_type. intros Hrun Hr.
  returned Hrun. injection Hrun as <-. repeat case_match; auto using coherent_invalidate.
Qed.

Lemma check_range_coherent i record r rule r' :
  check_range i record r rule = Ok r' → coherent r → coherent r'.
Proof.
  destruct rule as [field cfg]. unfold check_range. intros Hrun Hr. returned Hrun.
  destruct a as [v|]; [|by injection Hrun as <-].
  destruct (py_float v) as [value|e]; simpl in Hrun.
  - injection Hrun as <-.
    destruct (range_min cfg), (range_max cfg);
      repeat case_match; auto using coherent_invalidate.
  - destruct (is_value_or_type_error e); [|done].
    injection Hrun as <-. apply coherent_invalidate.
Qed.

Lemma check_pattern_coherent i record r rule r' :
  check_pattern i record r rule = Ok r' → coherent r → coherent r'.
Proof.
  destruct rule as [field pattern]. unfold check_pattern. intros Hrun Hr. returned Hrun.
  injection Hrun as <-. repeat case_match; auto using coherent_invalidate.
Qed.

Lemma _validate_record_coherent service_name record i now r :
  _validate_record service_name record i now = Ok r → coherent r.
Proof.
  intros Hrun.
  destruct (lookup_table validation_rules service_name) as [rules|] eqn:Hrules.
  - destruct (_validate_record_stages _ _ _ _ _ _ Hrules Hrun)
      as (r1 & r2 & r3 & r4 & H1 & H2 & H3 & H4 & ->).
    assert (coherent r4) as Hr4.
    { eapply (for_each_invariant _ coherent); [|exact H4|].
      { intros s x s' _. apply check_pattern_coherent. }
      eapply (for_each_invariant _ coherent); [|exact H3|].
      { intros s x s' _. apply check_range_coherent. }
      eapply (for_each_invariant _ coherent); [|exact H2|].
      { intros s x s' _. apply check_type_coherent. }
      eapply (for_each_invariant _ coherent); [|exact H1|done].
      intros s x s' _. apply check_required_coherent. }
    simpl. destruct (f_errors _) as [|msg business].
    + by rewrite app_nil_r.
    + split; [done|]. intros Hnil. by apply app_eq_nil in Hnil as [_ ?].
  - unfold _validate_record in Hrun. rewrite Hrules in Hrun.
    by injection Hrun as <-.
Qed.

End Coherence.

(** X4.  A record is valid exactly when [_validate_record] has no error for
    it: every check that marks it invalid appends an error, and no error is
    appended without marking it invalid. *)
Theorem X4_record_is_valid_iff_it_has_no_error `{Runtime} (service_name : string)
    (record : value) (i : nat) (now : Z) (r : DataValidator.record_result) :
  DataValidator._validate_record service_name record i now = Ok r →
  DataValidator.rec_is_valid r = true ↔ DataValidator.rec_errors r = [].
Proof.
  intros Hrun. apply _validate_record_coherent in Hrun as [Hvalid Hnone].
  split; [exact Hvalid | exact Hnone].
Qed.

Section PayloadVerdicts.
Import DataValidator.
Context `{Runtime}.

Lemma validate_records_summary service_name now records : ∀ i v v',
  validate_records service_name now i records v = Ok v' →
  (records_failed v = 0 ↔ errors v = []) →
  records_validated v' = records_validated v + length records
  ∧ (records_failed v' = 0 ↔ errors v' = [])
  ∧ is_valid v' = is_valid v.
Proof.
  induction records as [|record records IH]; intros i v v' Hrun Hv; simpl in Hrun.
  - injection Hrun as <-. simpl. split; [lia|done].
  - returned Hrun. apply _validate_record_coherent in Ha. unfold coherent in Ha.
    apply IH in Hrun as (Hcount & Hiff & Hvalid); simpl in *.
    + split; [lia|done].
    + destruct (rec_is_valid a); simpl; [done|]. split; [done|].
      intros [_ Hnil]%app_eq_nil. destruct Ha as [_ Ha]. by specialize (Ha Hnil).
Qed.

End PayloadVerdicts.

(** X5.  On a payload that is not empty and has the shape of records, when
    no record makes the validation raise: every record is counted as
    validated, the verdict has no error exactly when no record failed, and
    without a failed record the verdict is valid. *)
Theorem X5_verdict_without_failures_is_valid `{Runtime} (service_name : string)
    (endpoint data : value) (records : list value) (now : nat → Z)
    (verdict : DataValidator.verdict) :
  truthy data = true →
  payload_records data = Some records →
  DataValidator.validate_payload service_name endpoint data now = Ok verdict →
  DataValidator.records_validated verdict = length records
  ∧ (DataValidator.records_failed verdict = 0 ↔ DataValidator.errors verdict = [])
  ∧ (DataValidator.records_failed verdict = 0 → DataValidator.is_valid verdict = true).
Proof.
  unfold DataValidator.validate_payload. intros -> -> Hrun. cbn [negb] in Hrun.
  returned Hrun. apply validate_records_summary in Ha as (Hcount & Hiff & Hvalid); [|done].
  injection Hrun as <-. simpl in Hcount, Hvalid.
  destruct ((0 <? DataValidator.records_failed a)%nat && _) eqn:Hcond; simpl.
  - split_and!; [lia|done|]. intros Hzero. by rewrite Hzero in Hcond.
  - split_and!; [lia|done|done].
Qed.

Section UnknownSource.
Import DataValidator.
Context `{Runtime}.

Lemma validate_records_without_rules service_name now records : ∀ i v,
  lookup_table validation_rules service_name = None →
  validate_records service_name now i records v
  = Ok (Verdict (is_valid v) (errors v)
                (warnings v ++ replicate (length records) (msg_no_rules service_name))
                (records_validated v + length records) (records_failed v)).
Proof.
  intros i v Hrules. revert i v.
  induction records as [|record records IH]; intros i v; simpl.
  - rewrite app_nil_r, Nat.add_0_r. by destruct v.
  - unfold _validate_record. rewrite Hrules. simpl. rewrite IH. simpl.
    rewrite <- app_assoc. do 2 f_equal. lia.
Qed.

End UnknownSource.

(** X6.  A source without a rule set is not checked: whatever its records
    are, dicts or not, the verdict is valid, counts every record as validated
    and none as failed, has no error, and has one warning
    [No validation rules defined for service: s] for each record. *)
Theorem X6_source_without_rules_passes_with_warnings `{Runtime} (service_name : string)
    (endpoint data : value) (records : list value) (now : nat → Z) :
  lookup_table DataValidator.validation_rules service_name = None →
  truthy data = true →
  payload_records data = Some records →
  DataValidator.validate_microservice_data service_name endpoint data now
  = DataValidator.Verdict true []
      (replicate (length records) (DataValidator.msg_no_rules service_name))
      (length records) 0.
Proof.
  intros Hrules Htruthy Hrecords.
  unfold DataValidator.validate_microservice_data, DataValidator.validate_payload.
  rewrite Htruthy, Hrecords. cbn [negb].
  by rewrite validate_records_without_rules.
Qed.

Section DictRecords.
Import DataValidator.
Context `{Runtime}.

Lemma py_float_fits v e : py_float v = Raise e → fits_float v = true →
  is_value_or_type_error e = true.
Proof.
  destruct v; simpl; try (by intros [= <-]).
  - unfold float_of_int. by destruct (is_infinity _).
  - by case_match; intros [= <-].
Qed.

Lemma check_required_dict i (d : gmap string value) r field :
  ∃ r', check_required i (VDict d) r field = Ok r'.
Proof.
  unfold check_required, getitem. rewrite contains_dict.
  destruct (d !! field); simpl; eauto.
Qed.

Lemma check_type_dict i (d : gmap string value) r rule :
  ∃ r', check_type i (VDict d) r rule = Ok r'.
Proof. destruct rule. unfold check_type. rewrite present_dict. simpl. eauto. Qed.

Lemma check_pattern_dict i (d : gmap string value) r rule :
  ∃ r', check_pattern i (VDict d) r rule = Ok r'.
Proof. destruct rule. unfold check_pattern. rewrite present_dict. simpl. eauto. Qed.

Lemma check_range_dict i (d : gmap string value) r rule :
  map_Forall (λ _ v, fits_float v = true) d →
  ∃ r', check_range i (VDict d) r rule = Ok r'.
Proof.
  intros Hfits. destruct rule as [field cfg]. unfold check_range. rewrite present_dict.
  destruct (d !! field) as [v|] eqn:Hv; simpl; [|eauto].
  destruct (is_none v); [eauto|].
  destruct (py_float v) as [x|e] eqn:Hfloat; simpl; [eauto|].
  rewrite (py_float_fits _ _ Hfloat (Hfits _ _ Hv)). eauto.
Qed.

End DictRecords.

(** X7.  [_validate_record] returns on every dict in which no [int] is too
    large for a float: the checks of a dict raise nothing else than the
    [OverflowError] of [float] in the range check. *)
Theorem X7_dict_records_do_not_raise `{Runtime} (service_name : string)
    (d : gmap string value) (i : nat) (now : Z) :
  map_Forall (λ _ v, fits_float v = true) d →
  ∃ r, DataValidator._validate_record service_name (VDict d) i now = Ok r.
Proof.
  intros Hfits. unfold DataValidator._validate_record.
  destruct (lookup_table DataValidator.validation_rules service_name) as [rules|];
    [|eauto].
  destruct (for_each_returns (DataValidator.check_required i (VDict d))
              (DataValidator.required_fields rules)
              (λ s x _, check_required_dict i d s x)
              (DataValidator.RecordResult true [] [])) as [r1 ->].
  destruct (for_each_returns (DataValidator.check_type i (VDict d))
              (DataValidator.field_types rules)
              (λ s x _, check_type_dict i d s x) r1) as [r2 H2].
  destruct (for_each_returns (DataValidator.check_range i (VDict d))
              (DataValidator.field_ranges rules)
              (λ s x _, check_range_dict i d s x Hfits) r2) as [r3 H3].
  destruct (for_each_returns (DataValidator.check_pattern i (VDict d))
              (DataValidator.field_patterns rules)
              (λ s x _, check_pattern_dict i d s x) r3) as [r4 H4].
  cbn [mbind res_bind]. rewrite H2. cbn [mbind res_bind]. rewrite H3.
  cbn [mbind res_bind]. rewrite H4. cbn [mbind res_bind]. eauto.
Qed.

(** ** The business rules *)

(** Walks through a check: each call that may raise either returned or ended
    the check. *)
Ltac walk_check :=
  repeat first
    [ rewrite try_pass_emitted
    | match goal with
      | |- context [DataValidator.lift ?r ≫= _] =>
          destruct r eqn:?; [rewrite lift_Ok_bind | rewrite lift_Raise_bind]
      end
    | case_match ].

Section HardRules.
Import DataValidator.
Context `{Runtime}.

Lemma bind_emitted_errors {A B} (m : checked A) (f : A → checked B) a :
  outcome m = Ok a →
  f_errors (emitted (m ≫= f)) = f_errors (emitted m) ++ f_errors (emitted (f a)).
Proof. unfold mbind, checked_bind. by intros ->. Qed.

Lemma large_amount_check_no_error record i :
  f_errors (emitted (large_amount_check record i)) = [].
Proof. unfold large_amount_check. by walk_check. Qed.

(** The due-date check of a dict ends normally when the due date, if there is
    one, is a string. *)
Lemma due_date_check_returns (d : gmap string value) i now :
  (∀ w, d !! "due_date" = Some w → ∃ s, w = VStr s) →
  outcome (due_date_check (VDict d) i now) = Ok tt.
Proof.
  intros Hstr. rewrite due_date_check_dict.
  destruct (d !! "due_date") as [w|] eqn:Hw; [|done].
  destruct (Hstr w eq_refl) as [s ->]. case_match; [|done].
  cbn [strptime_value]. unfold try_pass.
  destruct (strptime s "%Y-%m-%d") as [t|e] eqn:Hs.
  - rewrite lift_Ok_bind. by repeat case_match.
  - rewrite (strptime_raises _ _ _ Hs). done.
Qed.

Lemma positive_amount_check_rejects (d : gmap string value) i v x :
  d !! "amount" = Some v → py_float v = Ok x → PrimFloat.leb x 0 = true →
  emitted (positive_amount_check (VDict d) i) = Findings [msg_positive i] [].
Proof.
  intros Hv Hx Hle. unfold positive_amount_check.
  rewrite contains_dict, Hv, lift_Ok_bind, (getitem_dict _ _ _ Hv), lift_Ok_bind, Hx,
    lift_Ok_bind, Hle.
  done.
Qed.

Lemma end_date_check_rejects (d : gmap string value) i s1 s2 t1 t2 :
  d !! "start_date" = Some (VStr s1) → d !! "end_date" = Some (VStr s2) →
  strptime s1 "%Y-%m-%d" = Ok t1 → strptime s2 "%Y-%m-%d" = Ok t2 → (t2 ≤ t1)%Z →
  end_date_check (VDict d) i = append_error (msg_end_date i).
Proof.
  intros H1 H2 Hs1 Hs2 Hle. rewrite end_date_check_dict, H1, H2.
  cbn [strptime_value]. rewrite Hs1, lift_Ok_bind, Hs2, lift_Ok_bind.
  by apply Z.leb_le in Hle as ->.
Qed.

(** An error of the business logic makes the record invalid. *)
Lemma business_error_rejects service_name rules record i now r msg :
  lookup_table validation_rules service_name = Some rules →
  _validate_record service_name record i now = Ok r →
  msg ∈ f_errors (_validate_business_logic service_name record i now) →
  rejected msg r.
Proof.
  intros Hrules Hrun Hin.
  destruct (_validate_record_stages _ _ _ _ _ _ Hrules Hrun)
    as (r1 & r2 & r3 & r4 & _ & _ & _ & _ & ->).
  split; simpl.
  - destruct (f_errors _); [by apply elem_of_nil in Hin|done].
  - apply elem_of_app. by right.
Qed.

End HardRules.

(** X8.  A payable dict whose amount is a number not above zero gets the
    error [Record i: Payment amount must be positive] from the business logic
    and is invalid, when its due date, if it has one, is a string (a due date
    of another type ends the business logic of a pending payable before the
    amount is looked at). *)
Theorem X8_payable_amount_must_be_positive `{Runtime} (d : gmap string value) (i : nat)
    (now : Z) (v : value) (x : float) (r : DataValidator.record_result) :
  d !! "amount" = Some v →
  py_float v = Ok x →
  PrimFloat.leb x 0 = true →
  (∀ w, d !! "due_date" = Some w → ∃ s, w = VStr s) →
  DataValidator._validate_record "accounts-payable" (VDict d) i now = Ok r →
  DataValidator.msg_positive i
    ∈ DataValidator.f_errors
        (DataValidator._validate_business_logic "accounts-payable" (VDict d) i now)
  ∧ DataValidator.rec_is_valid r = false
  ∧ DataValidator.msg_positive i ∈ DataValidator.rec_errors r.
Proof.
  intros Hv Hx Hle Hdue Hrun.
  assert (DataValidator.msg_positive i
            ∈ DataValidator.f_errors
                (DataValidator._validate_business_logic "accounts-payable" (VDict d) i now))
    as Hin.
  { rewrite business_errors, business_checks_payable.
    rewrite (bind_emitted_errors _ _ tt) by (by apply due_date_check_returns).
    rewrite (positive_amount_check_rejects _ _ _ _ Hv Hx Hle).
    apply elem_of_app. right. by left. }
  split; [exact Hin|].
  by eapply (business_error_rejects "accounts-payable" _ _ _ _ _ _ eq_refl Hrun).
Qed.

(** X9.  A project dict whose two dates are read in the format [%Y-%m-%d]
    and whose end is not after its start, the same day included, gets the
    error [Record i: End date must be after start date] and is invalid. *)
Theorem X9_project_must_end_after_it_starts `{Runtime} (d : gmap string value) (i : nat)
    (now : Z) (s1 s2 : string) (t1 t2 : Z) (r : DataValidator.record_result) :
  d !! "start_date" = Some (VStr s1) →
  d !! "end_date" = Some (VStr s2) →
  strptime s1 "%Y-%m-%d" = Ok t1 →
  strptime s2 "%Y-%m-%d" = Ok t2 →
  (t2 ≤ t1)%Z →
  DataValidator._validate_record "project-management" (VDict d) i now = Ok r →
  DataValidator.rec_is_valid r = false
  ∧ DataValidator.msg_end_date i ∈ DataValidator.rec_errors r.
Proof.
  intros H1 H2 Hs1 Hs2 Hle Hrun.
  eapply (business_error_rejects "project-management" _ _ _ _ _ _ eq_refl Hrun).
  rewrite business_errors, business_checks_project.
  rewrite (end_date_check_rejects _ _ _ _ _ _ H1 H2 Hs1 Hs2 Hle).
  rewrite (bind_emitted_errors _ _ tt) by done.
  apply elem_of_app. left. by left.
Qed.

(** X10.  Only payables and projects have hard business rules: for every
    other source name, the cash flow included, the business logic appends no
    error, whatever the record is. *)
Theorem X10_other_sources_have_no_hard_rule `{Runtime} (service_name : string)
    (record : value) (i : nat) (now : Z) :
  service_name ≠ "accounts-payable" →
  service_name ≠ "project-management" →
  DataValidator.f_errors
    (DataValidator._validate_business_logic service_name record i now) = [].
Proof.
  intros Hpayable%String.eqb_neq Hproject%String.eqb_neq.
  rewrite business_errors. unfold DataValidator.business_checks.
  rewrite Hpayable, Hproject. case_match; [|done]. apply large_amount_check_no_error.
Qed.

(** ** The transformer, record by record *)

Section DroppedRecords.
Import DataTransformer.
Context `{Runtime}.

Lemma _transform_record_not_dict record rules service_name now utcnow :
  is_dict record = false →
  _transform_record record rules service_name now utcnow = None.
Proof.
  intros Hrecord. unfold _transform_record.
  destruct (for_each (apply_mapping record) (field_mappings rules) ∅) as [t1|e]; [|done].
  cbn [mbind res_bind]. by destruct record.
Qed.

Lemma _transform_record_truthy (d : gmap string value) rules service_name now utcnow t :
  _transform_record (VDict d) rules service_name now utcnow = Some t →
  truthy (VDict t) = true.
Proof.
  rewrite _transform_record_dict. intros [= <-]. simpl.
  apply negb_true_iff, bool_decide_eq_false, insert_non_empty.
Qed.

Lemma transform_records_length rules service_name clk records : ∀ i,
  length (transform_records rules service_name clk i records)
  = length (filter (λ record, is_dict record = true) records).
Proof.
  induction records as [|record records IH]; intros i; [done|].
  cbn [transform_records]. destruct (is_dict record) eqn:Hrecord.
  - rewrite filter_cons_True by done. destruct record; try discriminate.
    destruct (_transform_record (VDict d) rules service_name _ _) as [t|] eqn:Ht.
    + rewrite (_transform_record_truthy _ _ _ _ _ _ Ht). simpl. by rewrite IH.
    + by rewrite _transform_record_dict in Ht.
  - rewrite filter_cons_False by (by rewrite Hrecord).
    by rewrite _transform_record_not_dict.
Qed.

Lemma lookup_table_elem {A} (l : list (string * A)) k a :
  (k, a) ∈ l → ∃ a', lookup_table l k = Some a'.
Proof.
  induction l as [|[k' a'] l IH]; intros Hin; [by apply elem_of_nil in Hin|].
  simpl. destruct (String.eqb k' k) eqn:Hk; [eauto|].
  apply elem_of_cons in Hin as [[= -> ->]|Hin]; [|auto].
  by rewrite String.eqb_refl in Hk.
Qed.

(** In each table of [self.transformation_rules] a field that changes its
    name gives up a name that no other field takes. *)
Lemma transformation_rules_renamed service_name rules :
  lookup_table transformation_rules service_name = Some rules →
  Forall (λ m, m.1 ≠ m.2 →
               (m.1 ∉ snd <$> field_mappings rules)
               ∧ (m.1 ∉ fst <$> calculated_fields rules)
               ∧ (m.1 ∉ system_fields))
    (field_mappings rules).
Proof.
  unfold transformation_rules. cbn [lookup_table].
  repeat case_match; intros [= <-];
    cbn [field_mappings calculated_fields fmap list_fmap fst snd];
    apply (bool_decide_unpack _); vm_compute; exact I.
Qed.

End DroppedRecords.

(** X11.  A record that is not a dict has no transform, and for a source with
    transformation rules the transformation returns as many records as the
    payload has dicts: a dict is never dropped, anything else always is. *)
Theorem X11_transformation_keeps_the_dicts `{Runtime} (service_name : string)
    (rules : DataTransformer.rules) (endpoint data : value) (records : list value)
    (clk : DataTransformer.clock) :
  lookup_table DataTransformer.transformation_rules service_name = Some rules →
  truthy data = true →
  payload_records data = Some records →
  (∀ record now utcnow,
     is_dict record = false →
     DataTransformer._transform_record record rules service_name now utcnow = None)
  ∧ length (DataTransformer.transform_microservice_data service_name endpoint data clk)
    = length (filter (λ record, is_dict record = true) records).
Proof.
  intros Hrules Htruthy Hrecords. split.
  - intros record now utcnow. apply _transform_record_not_dict.
  - unfold DataTransformer.transform_microservice_data.
    rewrite Htruthy, Hrecords, Hrules. cbn [negb]. apply transform_records_length.
Qed.

Section Renamed.
Import DataTransformer.
Context `{Runtime}.

Lemma renamed_field_absent service_name rules (d : gmap string value)
    (now : string → Z) (utcnow : Z) original canonical t :
  lookup_table transformation_rules service_name = Some rules →
  (original, canonical) ∈ field_mappings rules →
  original ≠ canonical →
  _transform_record (VDict d) rules service_name now utcnow = Some t →
  t !! original = None.
Proof.
  intros Hrules Hin Hne. rewrite _transform_record_dict. intros [= <-].
  pose proof (transformation_rules_renamed _ _ Hrules) as Hnames.
  rewrite Forall_forall in Hnames.
  destruct (Hnames _ Hin Hne) as (Hcanonical & Hcalculated & (? & ? & ?)%not_system_field).
  simpl in Hcanonical, Hcalculated.
  rewrite !lookup_insert_ne by done.
  rewrite calculated_lookup_other by done.
  rewrite keep_unmapped_lookup.
  destruct (lookup_table_elem _ _ _ Hin) as [c' ->].
  rewrite mapped_lookup_other by done.
  by destruct (d !! original).
Qed.

End Renamed.

(** X12.  A field that the mapping table renames does not survive under its
    old name: in the transform of a dict the old name is not a key. *)
Theorem X12_renamed_fields_lose_their_old_name `{Runtime} (service_name : string)
    (rules : DataTransformer.rules) (d : gmap string value) (now : string → Z)
    (utcnow : Z) (original canonical : string) :
  lookup_table DataTransformer.transformation_rules service_name = Some rules →
  (original, canonical) ∈ DataTransformer.field_mappings rules →
  original ≠ canonical →
  ∃ t,
    DataTransformer._transform_record (VDict d) rules service_name now utcnow = Some t
    ∧ t !! original = None.
Proof.
  intros Hrules Hin Hne.
  destruct (DataTransformer._transform_record (VDict d) rules service_name now utcnow)
    as [t|] eqn:Ht.
  - exists t. split; [done|]. by eapply renamed_field_absent.
  - by rewrite _transform_record_dict in Ht.
Qed.

(** ** The calculated fields *)

Section Calculations.
Import DataTransformer.
Context `{Runtime}.

Lemma days_between_nonneg a b : (b ≤ a)%Z → (0 ≤ days_between a b)%Z.
Proof.
  intros Hle. unfold days_between, microseconds_per_day. apply Z.div_pos; lia.
Qed.

Lemma days_between_neg a b : (a < b)%Z ↔ (days_between a b < 0)%Z.
Proof.
  unfold days_between, microseconds_per_day. split.
  - intros Hlt. apply Z.div_lt_upper_bound; lia.
  - intros Hneg. destruct (decide (a < b)%Z) as [|Hge]; [done|].
    assert (0 ≤ (a - b) / 86400000000)%Z by (apply Z.div_pos; lia). lia.
Qed.

Lemma present_truthy_dict (d : gmap string value) (key : string) :
  present_truthy (VDict d) key
  = Ok match d !! key with
       | Some v => if truthy v then Some v else None
       | None => None
       end.
Proof. unfold present_truthy, getitem. rewrite contains_dict. by destruct (d !! key). Qed.

End Calculations.

(** X13.  [days_until_due] is negative exactly when the due date is before
    the clock reading, and [days_overdue] is never negative: whenever the
    functions return a number of days, it has these signs. *)
Theorem X13_signs_of_the_day_counts `{Runtime} (record : value) (service_name : string)
    (now : Z) (n : Z) :
  (DataTransformer._calculate_days_until_due record service_name now = VInt n →
   ∃ v due_date,
     getitem record "due_date" = Ok v ∧ strptime_value v "%Y-%m-%d" = Ok due_date
     ∧ ((due_date < now)%Z ↔ (n < 0)%Z))
  ∧ (DataTransformer._calculate_days_overdue record service_name now = VInt n →
     (0 ≤ n)%Z).
Proof.
  split.
  - unfold DataTransformer._calculate_days_until_due, DataTransformer.present_truthy.
    destruct (contains record "due_date") as [[|]|e]; cbn [mbind res_bind];
      try discriminate.
    destruct (getitem record "due_date") as [v|e]; cbn [mbind res_bind];
      try discriminate.
    destruct (truthy v); cbn [DataTransformer.or_none]; try discriminate.
    destruct (strptime_value v "%Y-%m-%d") as [due_date|e] eqn:Hdue;
      cbn [mbind res_bind DataTransformer.or_none]; try discriminate.
    intros [= <-]. exists v, due_date. split_and!; try done. apply days_between_neg.
  - unfold DataTransformer._calculate_days_overdue, DataTransformer.present_truthy.
    destruct (contains record "payment_date") as [[|]|e]; cbn [mbind res_bind];
      try discriminate.
    destruct (getitem record "payment_date") as [v|e]; cbn [mbind res_bind];
      try discriminate.
    destruct (truthy v); cbn [DataTransformer.or_none]; try discriminate.
    destruct (strptime_value v "%Y-%m-%d") as [payment_date|e];
      cbn [mbind res_bind DataTransformer.or_none]; try discriminate.
    intros [= <-]. destruct (payment_date <? now)%Z eqn:Hlt; [|done].
    apply days_between_nonneg. apply Z.ltb_lt in Hlt. lia.
Qed.

(** X14.  [project_duration] is never negative: a project whose end date is
    before its start date has the duration 0. *)
Theorem X14_project_duration_is_not_negative `{Runtime} (d : gmap string value)
    (service_name : string) (now : Z) (s1 s2 : string) (start_date end_date : Z) :
  d !! "start_date" = Some (VStr s1) →
  d !! "end_date" = Some (VStr s2) →
  strptime s1 "%Y-%m-%d" = Ok start_date →
  strptime s2 "%Y-%m-%d" = Ok end_date →
  ∃ n,
    DataTransformer._calculate_project_duration (VDict d) service_name now = VInt n
    ∧ (0 ≤ n)%Z
    ∧ ((end_date ≤ start_date)%Z → n = 0%Z).
Proof.
  intros H1 H2 Hs1 Hs2. unfold DataTransformer._calculate_project_duration,
    DataTransformer.contains_both.
  rewrite !contains_dict, H1, H2. cbn [mbind res_bind].
  rewrite (getitem_dict _ _ _ H1), (getitem_dict _ _ _ H2).
  cbn [mbind res_bind strptime_value]. rewrite Hs1, Hs2. cbn [mbind res_bind].
  eexists. split; [done|]. split; [lia|].
  intros Hle. apply Z.max_r. unfold days_between, microseconds_per_day.
  destruct (decide (end_date = start_date)) as [->|Hne].
  - by rewrite Z.sub_diag.
  - assert ((end_date - start_date) / 86400000000 < 0)%Z; [|lia].
    apply Z.div_lt_upper_bound; lia.
Qed.

(** X15.  The status [paid], in any case of its letters, resets the
    collection probability: whatever the payment date and the amount have
    discounted, the probability of a paid receivable is 1.0 when it is not
    [None]. *)
Theorem X15_paid_receivable_has_probability_one `{Runtime} (d : gmap string value)
    (service_name : string) (now : Z) (s : string) :
  d !! "status" = Some (VStr s) →
  lower s = "paid" →
  DataTransformer._calculate_collection_probability (VDict d) service_name now ≠ VNone →
  DataTransformer._calculate_collection_probability (VDict d) service_name now = VFloat 1.
Proof.
  intros Hs Hpaid. unfold DataTransformer._calculate_collection_probability,
    DataTransformer.collection_probability.
  destruct (DataTransformer.collection_overdue_factor (VDict d) now 1) as [p1|e];
    cbn [mbind res_bind]; [|done].
  destruct (DataTransformer.collection_amount_factor (VDict d) p1) as [p2|e];
    cbn [mbind res_bind]; [|done].
  unfold DataTransformer.collection_status_factor.
  rewrite contains_dict, Hs. cbn [mbind res_bind].
  rewrite (getitem_dict _ _ _ Hs). cbn [mbind res_bind str_lower]. rewrite Hpaid.
  intros _. vm_compute. reflexivity.
Qed.

(** X16.  A status that is there and is not a string, [None] included, makes
    both scores [None]: [status.lower()] raises, and the exception is turned
    into [None]. *)
Theorem X16_status_that_is_no_string_voids_the_scores `{Runtime} (d : gmap string value)
    (service_name : string) (now : Z) (v : value) :
  d !! "status" = Some v →
  (∀ s, v ≠ VStr s) →
  DataTransformer._calculate_payable_risk_score (VDict d) service_name now = VNone
  ∧ DataTransformer._calculate_collection_probability (VDict d) service_name now = VNone.
Proof.
  intros Hv Hno.
  assert (getitem (VDict d) "status" ≫= str_lower = Raise AttributeError) as Hlower.
  { rewrite (getitem_dict _ _ _ Hv). cbn [mbind res_bind].
    destruct v; try done. by destruct (Hno s). }
  split.
  - unfold DataTransformer._calculate_payable_risk_score,
      DataTransformer.payable_risk_score.
    destruct (DataTransformer.risk_amount_factor (VDict d) 0) as [r1|e];
      cbn [mbind res_bind]; [|done].
    destruct (DataTransformer.risk_due_date_factor (VDict d) now r1) as [r2|e];
      cbn [mbind res_bind]; [|done].
    unfold DataTransformer.risk_status_factor. rewrite contains_dict, Hv.
    cbn [mbind res_bind] in *.
    destruct (getitem (VDict d) "status") as [w|e]; cbn [mbind res_bind] in *; [|done].
    by rewrite Hlower.
  - unfold DataTransformer._calculate_collection_probability,
      DataTransformer.collection_probability.
    destruct (DataTransformer.collection_overdue_factor (VDict d) now 1) as [p1|e];
      cbn [mbind res_bind]; [|done].
    destruct (DataTransformer.collection_amount_factor (VDict d) p1) as [p2|e];
      cbn [mbind res_bind]; [|done].
    unfold DataTransformer.collection_status_factor. rewrite contains_dict, Hv.
    cbn [mbind res_bind] in *.
    destruct (getitem (VDict d) "status") as [w|e]; cbn [mbind res_bind] in *; [|done].
    by rewrite Hlower.
Qed.

(** X17.  A payload that is empty or has no shape of records is refused by
    both engines alike: the validation answers with an invalid verdict that
    counts no record, and the transformation returns no record. *)
Theorem X17_refused_payloads `{Runtime} (service_name : string) (endpoint data : value)
    (now : nat → Z) (clk : DataTransformer.clock) :
  truthy data = false ∨ payload_records data = None →
  DataValidator.is_valid
    (DataValidator.validate_microservice_data service_name endpoint data now) = false
  ∧ DataValidator.records_validated
      (DataValidator.validate_microservice_data service_name endpoint data now) = 0
  ∧ length (DataValidator.errors
              (DataValidator.validate_microservice_data service_name endpoint data now)) = 1
  ∧ DataTransformer.transform_microservice_data service_name endpoint data clk = [].
Proof.
  unfold DataValidator.validate_microservice_data, DataValidator.validate_payload,
    DataTransformer.transform_microservice_data.
  intros [-> | Hshape]; [done|].
  rewrite Hshape. by destruct (negb (truthy data)).
Qed.

(** ** The extraction and the warehouse *)

Section Stored.
Import ETLService.
Context `{Runtime}.

Lemma extract_endpoint_stored e ctx service_name base_url k endpoint st b :
  b ∈ (extract_endpoint e ctx service_name base_url k endpoint st).1 →
  stored_from e service_name base_url k endpoint b.
Proof.
  unfold extract_endpoint, stored_from.
  destruct (requests_get e k _) as [response|exc] eqn:Hget; [|by intros ?%elem_of_nil].
  destruct (status_code response =? 200)%Z eqn:Hcode; [|by intros ?%elem_of_nil].
  destruct (json response) as [data|exc] eqn:Hjson; [|by intros ?%elem_of_nil].
  destruct (DataValidator.is_valid _) eqn:Hvalid; [|by intros ?%elem_of_nil].
  cbn [fst]. intros ->%list_elem_of_singleton. apply Z.eqb_eq in Hcode.
  exists response, data. split_and!; done.
Qed.

Lemma extract_endpoints_stored e ctx service_name base_url endpoints b : ∀ k st,
  b ∈ (extract_endpoints e ctx service_name base_url k endpoints st).1 →
  ∃ j endpoint,
    endpoints !! j = Some endpoint
    ∧ stored_from e service_name base_url (k + j) endpoint b.
Proof.
  induction endpoints as [|endpoint endpoints IH]; intros k st; cbn [extract_endpoints].
  - by intros ?%elem_of_nil.
  - pose proof (extract_endpoint_stored e ctx service_name base_url k endpoint st b) as Hone.
    destruct (extract_endpoint e ctx service_name base_url k endpoint st)
      as [stored [st'|exc]].
    + specialize (IH (S k) st').
      destruct (extract_endpoints e ctx service_name base_url (S k) endpoints st')
        as [stored' r'].
      cbn [fst] in *. intros [Hin|Hin]%elem_of_app.
      * exists 0, endpoint. rewrite Nat.add_0_r. auto.
      * destruct (IH Hin) as (j & endpoint' & Hj & Hstored).
        exists (S j), endpoint'. by replace (k + S j) with (S k + j) by lia.
    + cbn [fst] in *. intros Hin.
      exists 0, endpoint. rewrite Nat.add_0_r. auto.
Qed.

End Stored.

(** X22.  Validation is a gate before the warehouse: every batch that
    [_extract_from_microservice] hands to [_store_in_warehouse], with or
    without an application context, also one handed over before the routine
    raises, is the transform of the payload of one of its endpoints, which
    answered 200 with a payload that the validation accepted.  Nothing is
    handed over for an endpoint that could not be reached, answered another
    status or failed the validation. *)
Theorem X22_only_valid_payloads_are_stored `{Runtime} (e : ETLService.env) (ctx : bool)
    (source : ETLService.DataSource) (b : ETLService.batch) :
  b ∈ (ETLService._extract_from_microservice e ctx source).1 →
  ∃ service_name base_url endpoints j endpoint response payload,
    ETLService.connection source = Ok (service_name, base_url, endpoints)
    ∧ endpoints !! j = Some endpoint
    ∧ ETLService.requests_get e j (base_url +:+ "/" +:+ py_str endpoint) = Ok response
    ∧ ETLService.status_code response = 200%Z
    ∧ ETLService.json response = Ok payload
    ∧ DataValidator.is_valid
        (DataValidator.validate_microservice_data service_name endpoint payload
           (ETLService.validator_now e j)) = true
    ∧ b = (service_name, endpoint,
           DataTransformer.transform_microservice_data service_name endpoint payload
             (ETLService.transformer_clock e j)).
Proof.
  unfold ETLService._extract_from_microservice.
  destruct (ETLService.connection source) as [[[service_name base_url] endpoints]|exc];
    [|by intros ?%elem_of_nil].
  pose proof (extract_endpoints_stored e ctx service_name base_url endpoints b 0
                (ETLService.State 0 0 [])) as Hstored.
  destruct (ETLService.extract_endpoints e ctx service_name base_url 0 endpoints _)
    as [stored r].
  cbn [fst] in *. intros Hin.
  destruct (Hstored Hin) as (j & endpoint & Hj & response & payload & Hstored').
  by exists service_name, base_url, endpoints, j, endpoint, response, payload.
Qed.

(** X25.  Called in a thread that has an application context,
    [_extract_from_microservice] takes every answer of an endpoint into its
    counters and returns: for a source whose connection is read, with
    endpoints that can be dict keys and an HTTP client that raises nothing but
    [RequestException], [records_processed] is the number of transformed
    records of the endpoints that answered 200 with a valid payload,
    [records_failed] is the number of the other endpoints, and the metadata
    name the service and the number of endpoints. *)
Theorem X25_endpoint_failures_are_counted `{Runtime} (e : ETLService.env)
    (source : ETLService.DataSource) (service_name base_url : string)
    (endpoints : list value) :
  ETLService.connection source = Ok (service_name, base_url, endpoints) →
  Forall (λ endpoint, ETLService.hashable endpoint = true) endpoints →
  client_raises_request_exceptions e →
  ∃ result details,
    (ETLService._extract_from_microservice e true source).2 = Ok result
    ∧ ETLService.result_records_processed result
      = processed_from e service_name base_url 0 endpoints
    ∧ ETLService.result_records_failed result
      = failed_from e service_name base_url 0 endpoints
    ∧ ETLService.result_metadata result
      = ETLService.Extraction service_name (length endpoints) details.
Proof.
  intros Hconnection Hall Hclient. unfold ETLService._extract_from_microservice.
  rewrite Hconnection.
  destruct (extract_endpoints_counts e service_name base_url endpoints Hclient Hall 0
              (ETLService.State 0 0 []))
    as (stored & st & -> & Htotal & Hfailed).
  eexists _, _. cbn. split; [done|]. by rewrite Htotal, Hfailed.
Qed.

Section Metrics.
Import Warehouse.
Context `{Runtime}.

Lemma add_metric_absent service_name endpoint (t : gmap string value) session field
    category unit :
  t !! field = None →
  add_metric service_name endpoint (VDict t) session (field, (category, unit))
  = Ok session.
Proof. intros Hfield. unfold add_metric. by rewrite present_dict, Hfield. Qed.

Lemma for_each_add_metric_absent service_name endpoint (t : gmap string value) mappings :
  Forall (λ m, t !! m.1 = None) mappings →
  ∀ session,
    for_each (add_metric service_name endpoint (VDict t)) mappings session = Ok session.
Proof.
  induction 1 as [|[field [category unit]] mappings Hfield _ IH]; intros session; [done|].
  cbn [for_each]. rewrite add_metric_absent by done. apply IH.
Qed.

(** A record without any of the fields of the metric table gives no row. *)
Lemma _create_analytics_metrics_none service_name endpoint (t : gmap string value)
    mappings :
  lookup_table metric_mappings service_name = Some mappings →
  Forall (λ m, t !! m.1 = None) mappings →
  _create_analytics_metrics service_name endpoint (VDict t) = [].
Proof.
  intros Hmappings Hnone. unfold _create_analytics_metrics.
  by rewrite Hmappings, for_each_add_metric_absent.
Qed.

End Metrics.

(** X23.  For the payables and the receivables the warehouse gets no row:
    every field of their metric tables ([amount], [due_date] or
    [payment_date], [status]) is renamed by the transformation, so that no
    record the transformation returns has one of them, and
    [_store_in_warehouse] hands nothing to the session. *)
Theorem X23_no_metric_for_payables_and_receivables `{Runtime} (service_name : string)
    (endpoint data : value) (clk : DataTransformer.clock) :
  service_name = "accounts-payable" ∨ service_name = "accounts-receivable" →
  Warehouse._store_in_warehouse service_name endpoint
    (DataTransformer.transform_microservice_data service_name endpoint data clk)
  = [].
Proof.
  intros Hservice. unfold Warehouse._store_in_warehouse.
  assert (∀ out,
            out ∈ DataTransformer.transform_microservice_data service_name endpoint data clk →
            Warehouse._create_analytics_metrics service_name endpoint out = []) as Hnone.
  { intros out Hout. unfold DataTransformer.transform_microservice_data in Hout.
    destruct (negb (truthy data)); [by apply elem_of_nil in Hout|].
    destruct (payload_records data) as [records|]; [|by apply elem_of_nil in Hout].
    assert (∃ rules mappings,
              lookup_table DataTransformer.transformation_rules service_name = Some rules
              ∧ lookup_table Warehouse.metric_mappings service_name = Some mappings
              ∧ Forall (λ m, ∃ canonical,
                          (m.1, canonical) ∈ DataTransformer.field_mappings rules
                          ∧ m.1 ≠ canonical) mappings)
      as (rules & mappings & Hrules & Hmappings & Hrenamed).
    { destruct Hservice as [-> | ->]; eexists _, _;
        (split; [reflexivity|]); (split; [reflexivity|]);
        cbn [DataTransformer.field_mappings fst].
      - repeat apply Forall_cons_2; try apply Forall_nil_2.
        + exists "payable_amount". split; [set_solver|done].
        + exists "payable_due_date". split; [set_solver|done].
        + exists "payable_status". split; [set_solver|done].
      - repeat apply Forall_cons_2; try apply Forall_nil_2.
        + exists "receivable_amount". split; [set_solver|done].
        + exists "expected_payment_date". split; [set_solver|done].
        + exists "receivable_status". split; [set_solver|done]. }
    rewrite Hrules in Hout.
    apply transform_records_elem in Hout as (j & record & t & _ & Ht & ->).
    destruct (is_dict record) eqn:Hrecord;
      [|by rewrite _transform_record_not_dict in Ht].
    destruct record as [| | | | | |d]; try discriminate.
    apply (_create_analytics_metrics_none _ _ _ _ Hmappings).
    eapply Forall_impl; [exact Hrenamed|].
    intros m (canonical & Hin & Hne). by eapply renamed_field_absent. }
  induction (DataTransformer.transform_microservice_data _ _ _ _) as [|out l IH]; [done|].
  cbn. rewrite Hnone by (by left). apply IH. intros out' Hout'. apply Hnone. by right.
Qed.

(** X24.  [_generate_quality_recommendations] never returns an empty list,
    and the recommendation to continue monitoring is given exactly when none
    of its three thresholds is crossed, in which case it is the only one. *)
Theorem X24_recommendations_are_never_empty (success_rate data_quality_rate : float)
    (failed_jobs : nat) :
  let recommendations :=
    Quality._generate_quality_recommendations success_rate data_quality_rate failed_jobs in
  recommendations ≠ []
  ∧ (Quality.msg_acceptable ∈ recommendations ↔ recommendations = [Quality.msg_acceptable])
  ∧ (recommendations = [Quality.msg_acceptable]
     ↔ PrimFloat.ltb success_rate 90 = false
       ∧ PrimFloat.ltb data_quality_rate 95 = false
       ∧ failed_jobs ≤ 5).
Proof.
  cbn zeta. unfold Quality._generate_quality_recommendations.
  destruct (PrimFloat.ltb success_rate 90), (PrimFloat.ltb data_quality_rate 95),
    (5 <? failed_jobs) eqn:Hfailed;
    (apply Nat.ltb_lt in Hfailed || apply Nat.ltb_ge in Hfailed);
    cbn [app]; (split; [done|]);
    (split; [apply (bool_decide_unpack _); vm_compute; exact I|]);
    (split;
     [ first [ by intros _
             | intros Heq; exfalso; revert Heq;
               apply (bool_decide_unpack _); vm_compute; exact I ]
     | intros (? & ? & ?); first [done | lia] ]).
Qed.
(** ** Worked inputs for the further properties *)

Section WorkedValidator.
Import DataValidator Examples.
#[local] Existing Instance Examples.runtime.

(** X1, witness: the payable without its supplier. *)
Lemma X1_missing_required_field_witness :
  ∃ r,
    _validate_record "accounts-payable" (VDict no_supplier) 0 a_day = Ok r
    ∧ rec_is_valid r = false
    ∧ msg_missing 0 "supplier_id" ∈ rec_errors r.
Proof.
  eexists. split; [vm_compute; reflexivity|].
  eapply (X1_missing_required_field_rejects_record "accounts-payable" _ "supplier_id"
            no_supplier 0 a_day).
  - reflexivity.
  - do 3 right. left.
  - vm_compute. exact I.
  - vm_compute. reflexivity.
Defined.

(** X2, witness: the payable that is due [tomorrow]. *)
Lemma X2_wrong_type_witness :
  ∃ r,
    _validate_record "accounts-payable" due_tomorrow 0 a_day = Ok r
    ∧ rec_is_valid r = false
    ∧ msg_type 0 "due_date" "date" ∈ rec_errors r.
Proof.
  eexists. split; [vm_compute; reflexivity|].
  eapply (X2_wrong_type_rejects_record "accounts-payable" _ "due_date" "date"
            due_tomorrow (VStr "tomorrow") 0 a_day).
  - reflexivity.
  - do 2 right. left.
  - vm_compute. reflexivity.
  - vm_compute. reflexivity.
  - vm_compute. reflexivity.
Defined.

(** X3, witness: the refund of 5 is below the minimum 0. *)
Lemma X3_out_of_range_witness :
  ∃ r,
    _validate_record "accounts-payable" (VDict refund) 0 a_day = Ok r
    ∧ rec_is_valid r = false
    ∧ msg_below 0 "amount" (-5)%float 0 ∈ rec_errors r.
Proof.
  destruct (_validate_record "accounts-payable" (VDict refund) 0 a_day) as [r|e] eqn:Hrun;
    [|vm_compute in Hrun; discriminate].
  exists r. split; [reflexivity|].
  assert (lookup_table validation_rules "accounts-payable"
          = Some (Rules ["id"; "amount"; "due_date"; "supplier_id"]
                    [("id", "string"); ("amount", "numeric"); ("due_date", "date");
                     ("supplier_id", "string"); ("status", "string")]
                    [("amount", Range (Some 0%Z) (Some 10000000%Z))]
                    [("status", ["pending"; "approved"; "paid"; "cancelled"])]))
    as Hrules by reflexivity.
  assert (present (VDict refund) "amount" = Ok (Some (VInt (-5)))) as Hv
    by (vm_compute; reflexivity).
  assert (py_float (VInt (-5)) = Ok (-5)%float) as Hfloat by (vm_compute; reflexivity).
  pose proof (X3_out_of_range_rejects_record "accounts-payable" _ "amount"
                (Range (Some 0%Z) (Some 10000000%Z)) (VDict refund) (VInt (-5)) 0 a_day r
                Hrules ltac:(left) Hv Hrun) as Hx.
  rewrite Hfloat in Hx. destruct Hx as [Hbelow _].
  apply (Hbelow 0%Z); [reflexivity | vm_compute; reflexivity].
Defined.

(** X4, witness: the payable whose status is [overdue] is invalid and has an
    error. *)
Lemma X4_valid_iff_no_error_witness :
  rec_is_valid (RecordResult false [msg_pattern 0 "status"] []) = true
  ↔ rec_errors (RecordResult false [msg_pattern 0 "status"] []) = [].
Proof.
  apply (X4_record_is_valid_iff_it_has_no_error "accounts-payable" overdue_payable 0 a_day).
  vm_compute. reflexivity.
Defined.

(** X5, witness: the five valid payables. *)
Lemma X5_verdict_witness :
  records_validated (Verdict true [] [] 5 0) = length [payable "1" "paid"; payable "2" "paid";
      payable "3" "approved"; payable "4" "pending"; payable "5" "paid"]
  ∧ (records_failed (Verdict true [] [] 5 0) = 0 ↔ errors (Verdict true [] [] 5 0) = [])
  ∧ (records_failed (Verdict true [] [] 5 0) = 0 → is_valid (Verdict true [] [] 5 0) = true).
Proof.
  apply (X5_verdict_without_failures_is_valid "accounts-payable" (VStr "invoices")
           five_valid _ (λ _, a_day)).
  - reflexivity.
  - reflexivity.
  - vm_compute. reflexivity.
Defined.

(** X6, witness: a company and a number, from the service [company]. *)
Lemma X6_source_without_rules_witness :
  validate_microservice_data "company" (VStr "list") (VList [a_company; VInt 3])
    (λ _, a_day)
  = Verdict true [] (replicate 2 (msg_no_rules "company")) 2 0.
Proof.
  apply (X6_source_without_rules_passes_with_warnings "company" (VStr "list")
           (VList [a_company; VInt 3]) [a_company; VInt 3] (λ _, a_day));
    reflexivity.
Defined.

(** X7, witness: the refund. *)
Lemma X7_dict_records_witness :
  ∃ r, _validate_record "accounts-payable" (VDict refund) 0 a_day = Ok r.
Proof.
  apply X7_dict_records_do_not_raise.
  apply (bool_decide_unpack _). vm_compute. exact I.
Defined.

(** X8, witness: the refund. *)
Lemma X8_payable_amount_witness :
  ∃ r,
    _validate_record "accounts-payable" (VDict refund) 0 a_day = Ok r
    ∧ msg_positive 0
        ∈ f_errors (_validate_business_logic "accounts-payable" (VDict refund) 0 a_day)
    ∧ rec_is_valid r = false
    ∧ msg_positive 0 ∈ rec_errors r.
Proof.
  eexists. split; [vm_compute; reflexivity|].
  eapply (X8_payable_amount_must_be_positive refund 0 a_day (VInt (-5)) (-5)%float).
  - vm_compute. reflexivity.
  - vm_compute. reflexivity.
  - reflexivity.
  - intros w Hw. vm_compute in Hw. injection Hw as <-. by eexists.
  - vm_compute. reflexivity.
Defined.

(** X9, witness: the project that ends the day before it starts. *)
Lemma X9_project_dates_witness :
  ∃ r,
    _validate_record "project-management" (VDict iso_project) 0 a_day = Ok r
    ∧ rec_is_valid r = false
    ∧ msg_end_date 0 ∈ rec_errors r.
Proof.
  eexists. split; [vm_compute; reflexivity|].
  eapply (X9_project_must_end_after_it_starts iso_project 0 a_day
            "2024-12-25" "2024-12-24" 63870681600000000 63870595200000000).
  - vm_compute. reflexivity.
  - vm_compute. reflexivity.
  - vm_compute. reflexivity.
  - vm_compute. reflexivity.
  - lia.
  - vm_compute. reflexivity.
Defined.

(** X10, witness: a cash flow of five millions gets a warning, no error. *)
Lemma X10_no_hard_rule_witness :
  f_errors (_validate_business_logic "cash-flow" (VDict {["amount" := VInt 5000000]}) 0 a_day)
  = [].
Proof. apply X10_other_sources_have_no_hard_rule; discriminate. Defined.

End WorkedValidator.

Section WorkedTransformer.
Import DataValidator DataTransformer Examples.
#[local] Existing Instance Examples.runtime.

(** X11, witness: of a payable and a number, the payable is kept. *)
Lemma X11_keeps_the_dicts_witness :
  length (transform_microservice_data "accounts-payable" (VStr "invoices")
            (VList [late_payable; VInt 3]) still_clock) = 1.
Proof.
  apply (proj2 (X11_transformation_keeps_the_dicts "accounts-payable" _ (VStr "invoices")
                  (VList [late_payable; VInt 3]) [late_payable; VInt 3] still_clock
                  eq_refl eq_refl eq_refl)).
Defined.

(** X12, witness: the refund has no [amount] after its transformation. *)
Lemma X12_renamed_fields_witness :
  ∃ rules t,
    lookup_table transformation_rules "accounts-payable" = Some rules
    ∧ _transform_record (VDict refund) rules "accounts-payable" (λ _, a_day) a_day = Some t
    ∧ t !! "amount" = None.
Proof.
  eassert (lookup_table transformation_rules "accounts-payable" = Some _) as Hrules
    by reflexivity.
  destruct (X12_renamed_fields_lose_their_old_name "accounts-payable" _ refund
              (λ _, a_day) a_day "amount" "payable_amount" Hrules)
    as (t & Ht & Hnone).
  - right. left.
  - discriminate.
  - eexists _, t. split; [exact Hrules|]. split; [exact Ht | exact Hnone].
Defined.

(** X13, witness: the payable that was due ten days before the clock
    reading, and the receivable that was to be paid 31 days before it. *)
Lemma X13_signs_witness :
  (∃ v due_date,
     getitem late_payable "due_date" = Ok v ∧ strptime_value v "%Y-%m-%d" = Ok due_date
     ∧ ((due_date < a_day)%Z ↔ (-10 < 0)%Z))
  ∧ (0 ≤ 31)%Z.
Proof.
  split.
  - apply (proj1 (X13_signs_of_the_day_counts late_payable "accounts-payable" a_day (-10))).
    vm_compute. reflexivity.
  - apply (proj2 (X13_signs_of_the_day_counts due_in_may "accounts-receivable" a_day 31)).
    vm_compute. reflexivity.
Defined.

(** X14, witness: the project that ends the day before it starts. *)
Lemma X14_project_duration_witness :
  ∃ n,
    _calculate_project_duration (VDict iso_project) "project-management" a_day = VInt n
    ∧ (0 ≤ n)%Z
    ∧ ((63870595200000000 ≤ 63870681600000000)%Z → n = 0%Z).
Proof.
  apply (X14_project_duration_is_not_negative iso_project "project-management" a_day
           "2024-12-25" "2024-12-24"); vm_compute; reflexivity.
Defined.

(** X15, witness: the receivable of 600000 that is [PAID]. *)
Lemma X15_paid_receivable_witness :
  _calculate_collection_probability (VDict paid_receivable) "accounts-receivable" a_day
  = VFloat 1.
Proof.
  apply (X15_paid_receivable_has_probability_one paid_receivable "accounts-receivable"
           a_day "PAID").
  - vm_compute. reflexivity.
  - vm_compute. reflexivity.
  - vm_compute. discriminate.
Defined.

(** X16, witness: the receivable whose status is [None]. *)
Lemma X16_null_status_witness :
  _calculate_payable_risk_score (VDict null_status) "accounts-receivable" a_day = VNone
  ∧ _calculate_collection_probability (VDict null_status) "accounts-receivable" a_day
    = VNone.
Proof.
  apply (X16_status_that_is_no_string_voids_the_scores null_status "accounts-receivable"
           a_day VNone); [vm_compute; reflexivity | discriminate].
Defined.

(** X17, witness: the payload [3]. *)
Lemma X17_refused_payloads_witness :
  is_valid (validate_microservice_data "accounts-payable" (VStr "invoices") (VInt 3)
              (λ _, a_day)) = false
  ∧ records_validated
      (validate_microservice_data "accounts-payable" (VStr "invoices") (VInt 3)
         (λ _, a_day)) = 0
  ∧ length (errors (validate_microservice_data "accounts-payable" (VStr "invoices")
                      (VInt 3) (λ _, a_day))) = 1
  ∧ transform_microservice_data "accounts-payable" (VStr "invoices") (VInt 3) still_clock
    = [].
Proof. apply X17_refused_payloads. right. reflexivity. Defined.

End WorkedTransformer.

Section WorkedSources.
Import ETLService Examples.
#[local] Existing Instance Examples.runtime.

(** X22, witness: the batch of the first endpoint of the scenario. *)
Lemma X22_stored_batch_witness :
  ∃ service_name base_url endpoints j endpoint response payload,
    connection payables_source = Ok (service_name, base_url, endpoints)
    ∧ endpoints !! j = Some endpoint
    ∧ requests_get scenario j (base_url +:+ "/" +:+ py_str endpoint) = Ok response
    ∧ status_code response = 200%Z
    ∧ json response = Ok payload
    ∧ DataValidator.is_valid
        (DataValidator.validate_microservice_data service_name endpoint payload
           (validator_now scenario j)) = true
    ∧ ("accounts-payable", VStr "invoices",
       DataTransformer.transform_microservice_data "accounts-payable" (VStr "invoices")
         five_valid still_clock)
      = (service_name, endpoint,
         DataTransformer.transform_microservice_data service_name endpoint payload
           (transformer_clock scenario j)).
Proof. apply (X22_only_valid_payloads_are_stored scenario true). vm_compute. left. Defined.

(** X23, witness: the five valid payables give no row. *)
Lemma X23_no_metric_witness :
  Warehouse._store_in_warehouse "accounts-payable" (VStr "invoices")
    (DataTransformer.transform_microservice_data "accounts-payable" (VStr "invoices")
       five_valid still_clock)
  = [].
Proof. apply X23_no_metric_for_payables_and_receivables. by left. Defined.

(** X25, witness: the scenario of the three endpoints.  Five records are
    processed; the endpoint that answered 500 and the endpoint whose payload
    failed the validation are the two failures. *)
Lemma X25_three_endpoints_witness :
  ∃ result details,
    (_extract_from_microservice scenario true payables_source).2 = Ok result
    ∧ result_records_processed result = 5
    ∧ result_records_failed result = 2
    ∧ result_metadata result = Extraction "accounts-payable" 3 details.
Proof.
  apply (X25_endpoint_failures_are_counted scenario payables_source "accounts-payable"
           "http://localhost:8001/api" [VStr "invoices"; VStr "credits"; VStr "adjustments"]).
  - vm_compute. reflexivity.
  - repeat constructor.
  - exact scenario_client.
Defined.

End WorkedSources.
